(** * Student dashboard: the domain model, its persistence and the facade

    A shallow embedding of [module.py], [semester.py], [study_program.py],
    [student.py], [resources.py], [data_management.py] and [logic.py], and
    of the row tag that [gui.py] computes for a module.

    Conventions of the embedding:
    - Python [int] is [Z]; Python [float] is an exact rational, extended
      with the two infinities and not-a-number ([number]).  Rounding to
      binary64 is not modelled: every arithmetic result is the exact one,
      and no operation raises [OverflowError], which Python does where a
      result or an integer operand lies beyond the range of binary64, or
      an index beyond that of the machine word.
    - Python [str] is [string]; only ASCII letters, digits and white space
      are known to [lower], [strip] and [float].
    - A Python exception is a value of [exn]; a call either returns or
      raises ([outcome]).  Code that reads or writes the objects and the
      two files is a function from the state to an outcome and the next
      state ([M]), so what a raising call has already changed stays
      changed.
    - Objects are records.  A reference obtained by a search (the
      semester returned by [get_semester], the module returned by
      [find_module_by_id]) is the place of the first match, and a write
      through it updates that place. *)

From Stdlib Require Import String Ascii List ZArith QArith Bool Lia DecimalString.
From Stdlib Require Import Sorted Permutation.
Import ListNotations.

Local Open Scope string_scope.
Local Open Scope Z_scope.

(** ** Python values and built-ins *)

#[local] Set Warnings "-register-all".

Module Py.

(** The exceptions this program can meet. [OutsideModel] marks a stored
    document whose field holds another JSON type than the one the
    program itself writes there. *)
Inductive exn :=
| FileNotFoundError
| JSONDecodeError
| KeyError (key : string)
| AttributeError (msg : string)
| ValueError (msg : string)
| IndexError (msg : string)
| OutsideModel.

(** [str(e)] *)
Definition str_exn (e : exn) : string :=
  match e with
  | FileNotFoundError => "[Errno 2] No such file or directory"
  | JSONDecodeError => "Expecting value: line 1 column 1 (char 0)"
  | KeyError k => "'" ++ k ++ "'"
  | AttributeError m => m
  | ValueError m => m
  | IndexError m => m
  | OutsideModel => "outside the model"
  end.

Inductive outcome (A : Type) :=
| Ret (a : A)
| Raise (e : exn).
Arguments Ret {A} a.
Arguments Raise {A} e.

Definition bind {A B} (x : outcome A) (f : A -> outcome B) : outcome B :=
  match x with
  | Ret a => f a
  | Raise e => Raise e
  end.

(** [[f(x) for x in l]], stopping at the first element that raises. *)
Fixpoint traverse {A B} (f : A -> outcome B) (l : list A) : outcome (list B) :=
  match l with
  | [] => Ret []
  | x :: l' => bind (f x) (fun y => bind (traverse f l') (fun ys => Ret (y :: ys)))
  end.

(** *** Numbers *)

Inductive number :=
| Fin (q : Q)
| Inf (negative : bool)
| NaN.

Definition of_int (z : Z) : number := Fin (inject_Z z).

(** [x + y], exact: a finite sum is never rounded and never leaves the
    finite numbers. *)
Definition add (x y : number) : number :=
  match x, y with
  | NaN, _ | _, NaN => NaN
  | Fin p, Fin q => Fin (p + q)
  | Fin _, Inf s | Inf s, Fin _ => Inf s
  | Inf s, Inf t => if Bool.eqb s t then Inf s else NaN
  end.

(** [x / n] for a positive count [n] *)
Definition div_count (x : number) (n : nat) : number :=
  match x with
  | Fin p => Fin (p / inject_Z (Z.of_nat n))
  | Inf s => Inf s
  | NaN => NaN
  end.

(** [x <= y]; every comparison with not-a-number is false. *)
Definition le (x y : number) : bool :=
  match x, y with
  | NaN, _ | _, NaN => false
  | Fin p, Fin q => Qle_bool p q
  | Inf true, _ => true
  | _, Inf false => true
  | Fin _, Inf true => false
  | Inf false, _ => false
  end.

(** [sum(l)] *)
Definition sum (l : list number) : number := fold_left add l (of_int 0).

(** *** Strings *)

Definition code (c : ascii) : Z := Z.of_N (N_of_ascii c).

(** [c.isspace()] on ASCII: tab, line feed, vertical tab, form feed,
    carriage return, the four separators 28..31 and the space. *)
Definition isspace (c : ascii) : bool :=
  let n := code c in
  ((9 <=? n) && (n <=? 13)) || ((28 <=? n) && (n <=? 32)).

Definition lower_char (c : ascii) : ascii :=
  let n := code c in
  if (65 <=? n) && (n <=? 90) then ascii_of_N (Z.to_N (n + 32)) else c.

Fixpoint lstrip_chars (l : list ascii) : list ascii :=
  match l with
  | c :: l' => if isspace c then lstrip_chars l' else l
  | [] => []
  end.

Definition strip_chars (l : list ascii) : list ascii :=
  rev (lstrip_chars (rev (lstrip_chars l))).

(** [s.strip()] *)
Definition strip (s : string) : string :=
  string_of_list_ascii (strip_chars (list_ascii_of_string s)).

(** [s.lower()] *)
Definition lower (s : string) : string :=
  string_of_list_ascii (map lower_char (list_ascii_of_string s)).

(** [s.replace(a, b)] for single characters [a] and [b] *)
Definition replace (a b : ascii) (s : string) : string :=
  string_of_list_ascii
    (map (fun c => if Ascii.eqb c a then b else c) (list_ascii_of_string s)).

(** [str(z)] *)
Definition str_int (z : Z) : string := NilZero.string_of_int (Z.to_int z).

(** *** [float(s)]

    The grammar of the language reference:
    [[sign] (digitpart ["." [digitpart]] | "." digitpart) [exponent]]
    or [[sign] ("inf" | "infinity" | "nan")] in any letter case, with
    white space allowed around it and a single underscore allowed
    between two digits.  The value is that of the decimal, exactly: it is
    not rounded to binary64, and a large one is not read as infinity. *)

(** The white space that [float] skips around an ASCII string: tab, line
    feed, vertical tab, form feed, carriage return and the space.  The
    separators 28..31, which [strip] removes, are no white space here. *)
Definition float_space (c : ascii) : bool :=
  let n := code c in
  ((9 <=? n) && (n <=? 13)) || (n =? 32).

Fixpoint lstrip_float (l : list ascii) : list ascii :=
  match l with
  | c :: l' => if float_space c then lstrip_float l' else l
  | [] => []
  end.

Definition strip_float (l : list ascii) : list ascii :=
  rev (lstrip_float (rev (lstrip_float l))).

Definition digit_of (c : ascii) : option Z :=
  let n := code c in
  if (48 <=? n) && (n <=? 57) then Some (n - 48) else None.

(** The digits after the first one: [(["_"] digit)*].  Returns the
    value read so far, the number of digits read and the rest. *)
Fixpoint digits_tail (acc cnt : Z) (l : list ascii) : Z * Z * list ascii :=
  match l with
  | c :: l' =>
      match digit_of c with
      | Some d => digits_tail (10 * acc + d) (cnt + 1) l'
      | None =>
          if Ascii.eqb c "_" then
            match l' with
            | c2 :: l'' =>
                match digit_of c2 with
                | Some d => digits_tail (10 * acc + d) (cnt + 1) l''
                | None => (acc, cnt, l)
                end
            | [] => (acc, cnt, l)
            end
          else (acc, cnt, l)
      end
  | [] => (acc, cnt, l)
  end.

Definition digitpart (acc cnt : Z) (l : list ascii) : option (Z * Z * list ascii) :=
  match l with
  | c :: l' =>
      match digit_of c with
      | Some d => Some (digits_tail (10 * acc + d) (cnt + 1) l')
      | None => None
      end
  | [] => None
  end.

(** Returns the digits of the mantissa read as one integer, how many of
    them stand after the point, and the rest. *)
Definition number_part (l : list ascii) : option (Z * Z * list ascii) :=
  match digitpart 0 0 l with
  | Some (ip, _, rest) =>
      match rest with
      | c :: rest' =>
          if Ascii.eqb c "." then
            match digitpart ip 0 rest' with
            | Some r => Some r
            | None => Some (ip, 0, rest')
            end
          else Some (ip, 0, rest)
      | [] => Some (ip, 0, [])
      end
  | None =>
      match l with
      | c :: rest' => if Ascii.eqb c "." then digitpart 0 0 rest' else None
      | [] => None
      end
  end.

Definition sign_part (l : list ascii) : bool * list ascii :=
  match l with
  | c :: l' =>
      if Ascii.eqb c "-" then (true, l')
      else if Ascii.eqb c "+" then (false, l')
      else (false, l)
  | [] => (false, [])
  end.

Definition exponent_part (l : list ascii) : option (Z * list ascii) :=
  match l with
  | c :: l' =>
      if Ascii.eqb c "e" || Ascii.eqb c "E" then
        let (neg, l'') := sign_part l' in
        match digitpart 0 0 l'' with
        | Some (e, _, rest) => Some (if neg then - e else e, rest)
        | None => None
        end
      else Some (0, l)
  | [] => Some (0, [])
  end.

(** [m * 10 ** e], in lowest terms *)
Definition scale (m e : Z) : Q :=
  if 0 <=? e then inject_Z (m * 10 ^ e)
  else Qred (Qmake m (Z.to_pos (10 ^ (- e)))).

Definition float_chars (l : list ascii) : option number :=
  let (neg, body) := sign_part (strip_float l) in
  let word := string_of_list_ascii (map lower_char body) in
  if String.eqb word "inf" || String.eqb word "infinity" then Some (Inf neg)
  else if String.eqb word "nan" then Some NaN
  else
    match number_part body with
    | Some (m, k, rest) =>
        match exponent_part rest with
        | Some (e, []) => Some (Fin (scale (if neg then - m else m) (e - k)))
        | _ => None
        end
    | None => None
    end.

(** [float(s)]: the number, or [ValueError]. *)
Definition float (s : string) : outcome number :=
  match float_chars (list_ascii_of_string s) with
  | Some x => Ret x
  | None => Raise (ValueError ("could not convert string to float: '" ++ s ++ "'"))
  end.

(** *** Lists *)

(** [l.pop(i)]: a negative index counts from the end; outside
    [-len(l) <= i < len(l)] it raises [IndexError].  Returns the list
    without the element (the element itself is not used by callers).
    An index is any integer: that Python refuses one beyond the machine
    word with [OverflowError] is not modelled. *)
Fixpoint remove_at {A} (n : nat) (l : list A) : list A :=
  match n, l with
  | _, [] => []
  | O, _ :: l' => l'
  | S n', x :: l' => x :: remove_at n' l'
  end.

Definition pop {A} (l : list A) (i : Z) : outcome (list A) :=
  let n := Z.of_nat (length l) in
  match l with
  | [] => Raise (IndexError "pop from empty list")
  | _ =>
      let j := if i <? 0 then i + n else i in
      if (j <? 0) || (n <=? j) then Raise (IndexError "pop index out of range")
      else Ret (remove_at (Z.to_nat j) l)
  end.

(** *** JSON documents, which are also the Python values that
    [json.load] builds.  A dict is the list of its items in insertion
    order; a key is looked up from the front. *)
Inductive json :=
| JNull
| JBool (b : bool)
| JInt (z : Z)
| JFloat (x : number)
| JStr (s : string)
| JList (l : list json)
| JDict (items : list (string * json)).

Fixpoint lookup (k : string) (items : list (string * json)) : option json :=
  match items with
  | (k', v) :: rest => if String.eqb k k' then Some v else lookup k rest
  | [] => None
  end.

(** [data[k]] *)
Definition getitem (data : json) (k : string) : outcome json :=
  match data with
  | JDict items =>
      match lookup k items with
      | Some v => Ret v
      | None => Raise (KeyError k)
      end
  | _ => Raise OutsideModel
  end.

(** [data.get(k, default)] *)
Definition get (data : json) (k : string) (default : json) : outcome json :=
  match data with
  | JDict items =>
      match lookup k items with
      | Some v => Ret v
      | None => Ret default
      end
  | _ => Raise OutsideModel
  end.

Definition as_str (v : json) : outcome string :=
  match v with JStr s => Ret s | _ => Raise OutsideModel end.

Definition as_int (v : json) : outcome Z :=
  match v with JInt z => Ret z | _ => Raise OutsideModel end.

Definition as_list (v : json) : outcome (list json) :=
  match v with JList l => Ret l | _ => Raise OutsideModel end.

(** [isinstance(v, (int, float))], with the value when it holds.
    [bool] is a subclass of [int]. *)
Definition as_number (v : json) : option number :=
  match v with
  | JBool b => Some (of_int (if b then 1 else 0))
  | JInt z => Some (of_int z)
  | JFloat x => Some x
  | _ => None
  end.

(** *** More arithmetic *)



(** [x == y]; not-a-number equals nothing. *)
Definition eq_num (x y : number) : bool :=
  match x, y with
  | Fin p, Fin q => Qeq_bool p q
  | Inf s, Inf t => Bool.eqb s t
  | _, _ => false
  end.

End Py.

Import Py.

Declare Scope py_scope.
Notation "x <- c ;; k" := (Py.bind c (fun x => k))
  (at level 61, c at next level, right associativity) : py_scope.
Local Open Scope py_scope.


(** ** module.py *)

Module Grade.

Record t := Make { grade : json }.

Definition to_dict (self : t) : json := JDict [("grade", grade self)].

Definition from_dict (data : json) : outcome t :=
  g <- getitem data "grade" ;;
  Ret (Make g).

End Grade.

Module Modul.

Record t := Make {
  id : string;
  name : string;
  credits : Z;
  exam_type : string;
  grade : option Grade.t
}.

Definition to_dict (self : t) : json :=
  JDict [("id", JStr (id self));
         ("name", JStr (name self));
         ("credits", JInt (credits self));
         ("exam_type", JStr (exam_type self));
         ("grade", match grade self with
                   | Some g => Grade.to_dict g
                   | None => JNull
                   end)].

(** [isinstance(g, str) and g.lower() == 'a'] *)
Definition is_accepted (g : json) : bool :=
  match g with
  | JStr s => String.eqb (lower s) "a"
  | _ => false
  end.

(** [isinstance(g, (int, float)) and g <= 4.0] *)
Definition is_passing (g : json) : bool :=
  match as_number g with
  | Some x => le x (of_int 4)
  | None => false
  end.

Definition status (self : t) : string :=
  match grade self with
  | None => "none"
  | Some g =>
      if is_accepted (Grade.grade g) then "accepted"
      else if is_passing (Grade.grade g) then "passed"
      else "none"
  end.

Definition from_dict (data : json) : outcome t :=
  grade <- match data with
           | JDict items =>
               match lookup "grade" items with
               | Some (JDict g) =>
                   g' <- Grade.from_dict (JDict g) ;; Ret (Some g')
               | _ => Ret None
               end
           | _ => Raise OutsideModel
           end ;;
  id <- (v <- getitem data "id" ;; as_str v) ;;
  name <- (v <- getitem data "name" ;; as_str v) ;;
  credits <- (v <- getitem data "credits" ;; as_int v) ;;
  exam_type <- (v <- getitem data "exam_type" ;; as_str v) ;;
  Ret (Make id name credits exam_type grade).

End Modul.

(** ** semester.py *)

Module Semester.

Record t := Make {
  number : Z;
  modules : list Modul.t
}.

Definition init (number : Z) : t := Make number [].

(** The [isinstance(modul, Modul)] test holds by typing. *)
Definition add_module_to_semester (self : t) (modul : Modul.t) : t :=
  Make (number self) (modules self ++ [modul]).

Definition to_dict (self : t) : json :=
  JDict [("number", JInt (number self));
         ("modules", JList (map Modul.to_dict (modules self)))].

Definition from_dict (data : json) : outcome t :=
  number <- (v <- getitem data "number" ;; as_int v) ;;
  docs <- (v <- get data "modules" (JList []) ;; as_list v) ;;
  modules <- traverse Modul.from_dict docs ;;
  Ret (Make number modules).

End Semester.

(** ** study_program.py *)

Module Study_program.

Record t := Make {
  name : string;
  total_credits : Z;
  semesters : list Semester.t
}.

Definition init (name : string) (total_credits : Z) : t :=
  Make name total_credits [].

(** The place found by the [for] loop of [add_semester]: before the first
    semester with a greater number, at the end when there is none. *)
Fixpoint insert_in_order (semester : Semester.t) (l : list Semester.t)
  : list Semester.t :=
  match l with
  | [] => [semester]
  | s :: l' =>
      if Semester.number semester <? Semester.number s then semester :: l
      else s :: insert_in_order semester l'
  end.

Definition add_semester (self : t) (semester : Semester.t) : outcome t :=
  if existsb (fun s => Semester.number s =? Semester.number semester)
       (semesters self)
  then Raise (ValueError ("Semester " ++ str_int (Semester.number semester)
                            ++ " already exists."))
  else Ret (Make (name self) (total_credits self)
              (insert_in_order semester (semesters self))).

Definition has_modules (s : Semester.t) : bool :=
  match Semester.modules s with
  | [] => false
  | _ :: _ => true
  end.

Definition remove_semester (self : t) (semester_number : Z) : t :=
  let kept := filter (fun s => negb (Semester.number s =? semester_number))
                (semesters self) in
  Make (name self) (total_credits self) (filter has_modules kept).

Definition get_semester (self : t) (semester_number : Z) : option Semester.t :=
  find (fun s => Semester.number s =? semester_number) (semesters self).

(** [sum] over integers *)
Definition sum_int (l : list Z) : Z := fold_left Z.add l 0.

Definition get_total_credits (self : t) : Z :=
  sum_int (flat_map (fun semester => map Modul.credits (Semester.modules semester))
             (semesters self)).

Definition to_dict (self : t) : json :=
  JDict [("name", JStr (name self));
         ("total_credits", JInt (total_credits self));
         ("semesters", JList (map Semester.to_dict (semesters self)))].

(** The value read for ['total_credits'] is passed to the constructor and
    then overwritten by the recomputed sum. *)
Definition from_dict (data : json) : outcome t :=
  name <- (v <- getitem data "name" ;; as_str v) ;;
  _ <- get data "total_credits" (JInt 0) ;;
  docs <- (v <- get data "semesters" (JList []) ;; as_list v) ;;
  semesters <- traverse Semester.from_dict docs ;;
  let study_program := Make name 0 semesters in
  Ret (Make name (get_total_credits study_program) semesters).

End Study_program.

(** ** student.py *)

Module Student.

(** [study_goal] is an attribute that [__init__] does not set: it is
    [None] here until something assigns it. *)
Record t := Make {
  name : string;
  matriculation_number : string;
  study_program : Study_program.t;
  study_goal : option json
}.

Definition init (name matriculation_number : string)
    (study_program : Study_program.t) : t :=
  Make name matriculation_number study_program None.

Definition to_dict (self : t) : outcome json :=
  let program := Study_program.to_dict (study_program self) in
  match study_goal self with
  | Some goal =>
      Ret (JDict [("name", JStr (name self));
                  ("matriculation_number", JStr (matriculation_number self));
                  ("study_program", program);
                  ("study_goal", goal)])
  | None => Raise (AttributeError "'Student' object has no attribute 'study_goal'")
  end.

Definition from_dict (data : json) : outcome t :=
  study_program_instance <-
    (v <- getitem data "study_program" ;; Study_program.from_dict v) ;;
  name <- (v <- getitem data "name" ;; as_str v) ;;
  matriculation_number <-
    (v <- getitem data "matriculation_number" ;; as_str v) ;;
  goal <- get data "study_goal" (JFloat (of_int 0)) ;;
  Ret (Make name matriculation_number study_program_instance (Some goal)).

End Student.

(** ** resources.py *)

Module Resource.

Record t := Make { name : string; url : string }.

Definition to_dict (self : t) : json :=
  JDict [("name", JStr (name self)); ("url", JStr (url self))].

Definition from_dict (data : json) : outcome t :=
  name <- (v <- getitem data "name" ;; as_str v) ;;
  url <- (v <- getitem data "url" ;; as_str v) ;;
  Ret (Make name url).

End Resource.

(** ** data_management.py *)

Module Data_management.

(** A file is absent, or present and empty (opened for writing, nothing
    written yet), or holds a document. *)
Inductive file :=
| Absent
| Empty
| Stored (doc : json).

(** [student_data.json] and [resources.json] *)
Record Disk := MkDisk {
  student_data : file;
  resources_data : file
}.

Definition load_student_data (disk : Disk) : outcome Student.t :=
  match student_data disk with
  | Absent => Raise FileNotFoundError
  | Empty => Raise JSONDecodeError
  | Stored data => Student.from_dict data
  end.

(** [open(file_path, 'w')] empties the file before [student.to_dict()]
    is evaluated. *)
Definition save_student_data (student : Student.t) (disk : Disk)
  : outcome unit * Disk :=
  let opened := MkDisk Empty (resources_data disk) in
  match Student.to_dict student with
  | Ret doc => (Ret tt, MkDisk (Stored doc) (resources_data disk))
  | Raise e => (Raise e, opened)
  end.

Definition load_resources (disk : Disk) : outcome (list json) :=
  match resources_data disk with
  | Absent => Ret []
  | Empty => Raise JSONDecodeError
  | Stored data => v <- getitem data "resources" ;; as_list v
  end.

Definition save_resources (resources : list json) (disk : Disk) : Disk :=
  MkDisk (student_data disk) (Stored (JDict [("resources", JList resources)])).

End Data_management.

(** ** logic.py *)

Module Logic.

Import Data_management.

(** The facade object ([self]) and the two files it works on. *)
Record World := MkWorld {
  student : option Student.t;
  resources : list json;
  disk : Disk
}.

Definition M (A : Type) : Type := World -> outcome A * World.

Definition ret {A} (a : A) : M A := fun w => (Ret a, w).

Definition raise {A} (e : exn) : M A := fun w => (Raise e, w).

Definition bindM {A B} (c : M A) (k : A -> M B) : M B :=
  fun w =>
    match c w with
    | (Ret a, w') => k a w'
    | (Raise e, w') => (Raise e, w')
    end.

Definition lift {A} (x : outcome A) : M A := fun w => (x, w).

(** [try: c except <handled>: h]: [handler e] is [None] for an exception
    the clause does not catch. What [c] changed before raising stays. *)
Definition try_except {A} (c : M A) (handler : exn -> option (M A)) : M A :=
  fun w =>
    match c w with
    | (Ret a, w') => (Ret a, w')
    | (Raise e, w') =>
        match handler e with
        | Some h => h w'
        | None => (Raise e, w')
        end
    end.

Notation "x <~ c ;; k" := (bindM c (fun x => k))
  (at level 61, c at next level, right associativity).

(** [self.student], on which the next attribute access fails when it is
    [None]. *)
Definition the_student : M Student.t :=
  fun w =>
    match student w with
    | Some s => (Ret s, w)
    | None => (Raise (AttributeError
                 "'NoneType' object has no attribute 'study_program'"), w)
    end.

Definition set_student (s : Student.t) : M unit :=
  fun w => (Ret tt, MkWorld (Some s) (resources w) (disk w)).

(** A write to [self.student.study_program] or to an object inside it. *)
Definition set_study_program (p : Study_program.t) : M unit :=
  s <~ the_student ;;
  set_student (Student.Make (Student.name s) (Student.matriculation_number s)
                 p (Student.study_goal s)).

Definition set_semesters (l : list Semester.t) : M unit :=
  s <~ the_student ;;
  let p := Student.study_program s in
  set_study_program (Study_program.Make (Study_program.name p)
                       (Study_program.total_credits p) l).

(** [save_student_data(self.student, self.file_path)] *)
Definition save : M unit :=
  s <~ the_student ;;
  fun w =>
    let (r, d) := save_student_data s (disk w) in
    (r, MkWorld (student w) (resources w) d).

Definition initialize_data : M unit :=
  fun w =>
    match load_student_data (disk w) with
    | Ret s => set_student s w
    | Raise FileNotFoundError =>
        let default_study_program :=
          Study_program.init "Undeclared Program" 0 in
        (_ <~ set_student
                (Student.init "New Student" "000000" default_study_program) ;;
         save) w
    | Raise e => (Raise e, w)
    end.

(** [Logic(file_path)]: the constructor, run on the files found. *)
Definition init (d : Disk) : outcome unit * World :=
  initialize_data (MkWorld None [] d).

Definition has_id (module_id : string) (modul : Modul.t) : bool :=
  String.eqb (Modul.id modul) module_id.

Fixpoint find_in_semesters (module_id : string) (l : list Semester.t)
  : option (Modul.t * Z) :=
  match l with
  | [] => None
  | semester :: rest =>
      match find (has_id module_id) (Semester.modules semester) with
      | Some modul => Some (modul, Semester.number semester)
      | None => find_in_semesters module_id rest
      end
  end.

(** [(None, None)] is [None] here. *)
Definition find_module_by_id (module_id : string) : M (option (Modul.t * Z)) :=
  s <~ the_student ;;
  ret (find_in_semesters module_id
         (Study_program.semesters (Student.study_program s))).

(** Apply [f] at the first element that satisfies [p]. *)
Fixpoint update_first {A} (p : A -> bool) (f : A -> A) (l : list A) : list A :=
  match l with
  | [] => []
  | x :: l' => if p x then f x :: l' else x :: update_first p f l'
  end.

(** The try block of [add_module] that reads the grade. *)
Definition grade_of_input (grade_str : string) : outcome (option Grade.t) :=
  if String.eqb grade_str "" then Ret None
  else
    grade_value <-
      (if String.eqb (lower (strip grade_str)) "a" then Ret (JStr "a")
       else x <- float grade_str ;; Ret (JFloat x)) ;;
    let in_range :=
      match grade_value with
      | JStr s => String.eqb s "a"
      | JFloat x => le (of_int 1) x && le x (of_int 5)
      | _ => false
      end in
    if negb in_range
    then Raise (ValueError "Grade must be 'a' or a number between 1.0 and 5.0.")
    else Ret (Some (Grade.Make grade_value)).

(** [now] is the reading of [int(time.time())]. *)
Definition add_module (semester_number : Z) (name : string) (credits : Z)
    (exam_type grade_str : string) (now : Z) : M (bool * string) :=
  s <~ the_student ;;
  let program := Student.study_program s in
  _ <~ match Study_program.get_semester program semester_number with
       | Some _ => ret tt
       | None =>
           p <~ lift (Study_program.add_semester program
                        (Semester.init semester_number)) ;;
           set_study_program p
       end ;;
  let module_id := "module_" ++ replace " " "_" name ++ "_" ++ str_int now in
  match grade_of_input grade_str with
  | Raise (ValueError _) =>
      ret (false, "Not a valid grade or 'a' for accepted. Please try again.")
  | Raise e => raise e
  | Ret grade =>
      try_except
        (let new_module := Modul.Make module_id name credits exam_type grade in
         s' <~ the_student ;;
         _ <~ set_semesters
                (update_first
                   (fun x => Semester.number x =? semester_number)
                   (fun x => Semester.add_module_to_semester x new_module)
                   (Study_program.semesters (Student.study_program s'))) ;;
         _ <~ save ;;
         ret (true, "Module added successfully."))
        (fun e => Some (ret (false, "Failed to add the module. Error: "
                                      ++ str_exn e)))
  end.

(** The try block of [edit_grade] up to the assignment. *)
Definition new_grade_of_input (new_grade_str : string) : outcome (option Grade.t) :=
  if String.eqb (strip new_grade_str) "" then Ret None
  else if String.eqb (lower (strip new_grade_str)) "a"
  then Ret (Some (Grade.Make (JStr "a")))
  else new_grade <- float new_grade_str ;;
       Ret (Some (Grade.Make (JFloat new_grade))).

Definition set_grade (g : option Grade.t) (modul : Modul.t) : Modul.t :=
  Modul.Make (Modul.id modul) (Modul.name modul) (Modul.credits modul)
    (Modul.exam_type modul) g.

(** [module.grade = g] for the module that [find_module_by_id] returned. *)
Fixpoint assign_grade (module_id : string) (g : option Grade.t)
    (l : list Semester.t) : list Semester.t :=
  match l with
  | [] => []
  | semester :: rest =>
      if existsb (has_id module_id) (Semester.modules semester)
      then Semester.Make (Semester.number semester)
             (update_first (has_id module_id) (set_grade g)
                (Semester.modules semester)) :: rest
      else semester :: assign_grade module_id g rest
  end.

Definition edit_grade (module_id new_grade_str : string) : M (bool * string) :=
  found <~ find_module_by_id module_id ;;
  match found with
  | None => ret (false, "Module not found.")
  | Some _ =>
      try_except
        (g <~ lift (new_grade_of_input new_grade_str) ;;
         s <~ the_student ;;
         _ <~ set_semesters
                (assign_grade module_id g
                   (Study_program.semesters (Student.study_program s))) ;;
         _ <~ save ;;
         ret (true, ""))
        (fun e =>
           match e with
           | ValueError _ =>
               Some (ret (false,
                 "Not a valid grade or 'a' for accepted. Please try again."))
           | _ => None
           end)
  end.

(** The [for] loop of [delete_module] up to its first hit: the semesters
    passed over, the first semester that holds a module with this id, and
    the semesters after it. *)
Fixpoint owning_semester (module_id : string) (before todo : list Semester.t)
  : option (list Semester.t * Semester.t * list Semester.t) :=
  match todo with
  | [] => None
  | semester :: rest =>
      match find (has_id module_id) (Semester.modules semester) with
      | Some _ => Some (before, semester, rest)
      | None => owning_semester module_id (before ++ [semester]) rest
      end
  end.

Definition delete_module (module_id : string) : M bool :=
  s <~ the_student ;;
  match owning_semester module_id []
          (Study_program.semesters (Student.study_program s)) with
  | None => ret false
  | Some (before, semester, rest) =>
      let emptied :=
        Semester.Make (Semester.number semester)
          (filter (fun modul => negb (has_id module_id modul))
             (Semester.modules semester)) in
      _ <~ set_semesters (before ++ emptied :: rest) ;;
      _ <~ match Semester.modules emptied with
           | [] =>
               s' <~ the_student ;;
               set_study_program
                 (Study_program.remove_semester (Student.study_program s')
                    (Semester.number emptied))
           | _ :: _ => ret tt
           end ;;
      _ <~ save ;;
      ret true
  end.

Definition get_resources : M (list json) :=
  fun w =>
    match load_resources (disk w) with
    | Ret l => (Ret l, MkWorld (student w) l (disk w))
    | Raise FileNotFoundError => (Ret [], MkWorld (student w) [] (disk w))
    | Raise e => (Raise e, w)
    end.

(** Returns nothing ([None]). *)
Definition add_resource (name url : string) : M unit :=
  let new_resource := Resource.Make name url in
  fun w =>
    match load_resources (disk w) with
    | Ret l =>
        (Ret tt, MkWorld (student w) (resources w)
                   (save_resources (l ++ [Resource.to_dict new_resource]) (disk w)))
    | Raise e => (Raise e, w)
    end.

Definition delete_resource (index : Z) : M bool :=
  fun w =>
    match load_resources (disk w) with
    | Ret l =>
        match pop l index with
        | Ret l' =>
            (Ret true, MkWorld (student w) (resources w) (save_resources l' (disk w)))
        | Raise (IndexError _) => (Ret false, w)
        | Raise e => (Raise e, w)
        end
    | Raise e => (Raise e, w)
    end.

(** The grades that the comprehension of [calculate_average_grade] keeps. *)
Definition numeric_grade (modul : Modul.t) : list number :=
  match Modul.grade modul with
  | Some g =>
      match as_number (Grade.grade g) with
      | Some x => [x]
      | None => []
      end
  | None => []
  end.

Definition calculate_average_grade : M (option number) :=
  fun w =>
    match student w with
    | None => (Ret None, w)
    | Some s =>
        let grades :=
          flat_map (fun semester => flat_map numeric_grade (Semester.modules semester))
            (Study_program.semesters (Student.study_program s)) in
        match grades with
        | [] => (Ret None, w)
        | _ :: _ => (Ret (Some (div_count (Py.sum grades) (length grades))), w)
        end
    end.

Definition get_total_credits : M Z :=
  s <~ the_student ;;
  ret (Study_program.get_total_credits (Student.study_program s)).

(** [modul.grade is not None and modul.status() in ['passed', 'accepted']] *)
Definition counts_as_completed (modul : Modul.t) : bool :=
  match Modul.grade modul with
  | None => false
  | Some _ =>
      existsb (String.eqb (Modul.status modul)) ["passed"; "accepted"]
  end.

Definition get_completed_credits : M Z :=
  s <~ the_student ;;
  ret (Study_program.sum_int
         (flat_map
            (fun semester =>
               map Modul.credits
                 (filter counts_as_completed (Semester.modules semester)))
            (Study_program.semesters (Student.study_program s)))).

(** [None] without a student, else the dict of the four fields. *)
Definition get_student_info : M (option json) :=
  fun w =>
    match student w with
    | None => (Ret None, w)
    | Some s =>
        match Student.study_goal s with
        | Some goal =>
            (Ret (Some
                    (JDict [("name", JStr (Student.name s));
                            ("matriculation_number",
                             JStr (Student.matriculation_number s));
                            ("study_program",
                             JStr (Study_program.name (Student.study_program s)));
                            ("study_goal", goal)])), w)
        | None =>
            (Raise (AttributeError
                      "'Student' object has no attribute 'study_goal'"), w)
        end
    end.

(** [study_goal] is whatever value the caller passes. *)
Definition update_student_info (name matriculation_number study_program : string)
    (study_goal : json) : M bool :=
  fun w =>
    match student w with
    | Some s =>
        let p := Student.study_program s in
        (_ <~ set_student
                (Student.Make name matriculation_number
                   (Study_program.Make study_program
                      (Study_program.total_credits p)
                      (Study_program.semesters p))
                   (Some study_goal)) ;;
         _ <~ save ;;
         ret true) w
    | None => (Ret false, w)
    end.

(** Reads [self.resources], the list that [get_resources] fetched last,
    and changes nothing. The second component lists the URLs handed to
    [webbrowser.open]. *)
Definition open_resource (index : Z) (w : World) : outcome bool * list json :=
  if (0 <=? index) && (index <? Z.of_nat (length (resources w))) then
    match nth_error (resources w) (Z.to_nat index) with
    | Some resource =>
        match getitem resource "url" with
        | Ret resource_url => (Ret true, [resource_url])
        | Raise e => (Raise e, [])
        end
    | None => (Raise (IndexError "list index out of range"), [])
    end
  else (Ret false, []).


End Logic.

(** ** gui.py *)

Module GUI.

(** The colour tag that [populate_modules_tree] gives the row of a
    module. *)
Definition module_tag (module : Modul.t) : string :=
  if String.eqb (Modul.status module) "accepted"
     || match Modul.grade module with
        | Some g => Modul.is_passing (Grade.grade g)
        | None => false
        end
  then "passed"
  else if match Modul.grade module with
          | Some g =>
              match as_number (Grade.grade g) with
              | Some x => eq_num x (of_int 5)
              | None => false
              end
          | None => false
          end
  then "failed"
  else "no_grade".

End GUI.

(** ** The vocabulary of the specification *)

Module Spec.

(** Every module of the program, semester by semester. *)
Definition all_modules (p : Study_program.t) : list Modul.t :=
  flat_map Semester.modules (Study_program.semesters p).

Definition module_ids (p : Study_program.t) : list string :=
  map Modul.id (all_modules p).

Definition semester_numbers (p : Study_program.t) : list Z :=
  map Semester.number (Study_program.semesters p).

(** The status is ['passed'] or ['accepted']. *)
Definition is_completed (m : Modul.t) : bool :=
  String.eqb (Modul.status m) "passed" || String.eqb (Modul.status m) "accepted".

(** What one module adds to the completed credits. *)
Definition contribution (m : Modul.t) : Z :=
  if is_completed m then Modul.credits m else 0.

Definition completed_sum (l : list Modul.t) : Z :=
  fold_right (fun m acc => contribution m + acc) 0 l.

(** The numeric grade a module carries, if it carries one. *)
Definition numeric_value (m : Modul.t) : option number :=
  match Modul.grade m with
  | Some g => as_number (Grade.grade g)
  | None => None
  end.

Definition carries_numeric (m : Modul.t) : bool :=
  match numeric_value m with
  | Some _ => true
  | None => false
  end.

(** The grade is the accepted token. *)
Definition is_accepted_token (m : Modul.t) : Prop :=
  exists g s, Modul.grade m = Some g /\ Grade.grade g = JStr s /\ lower s = "a".

(** Numerator and denominator of the mean: a module without a numeric
    grade adds nothing to either. *)
Definition numerator (l : list Modul.t) : number :=
  fold_left
    (fun acc m =>
       match numeric_value m with
       | Some x => add acc x
       | None => acc
       end)
    l (of_int 0).

Definition denominator (l : list Modul.t) : nat :=
  fold_right (fun m n => if carries_numeric m then S n else n) O l.

Definition mean_of_numeric (l : list Modul.t) : number :=
  div_count (numerator l) (denominator l).

(** A student with three semesters, as loaded from the student file. *)
Definition sample_semesters : list Semester.t :=
  [Semester.Make 1
     [Modul.Make "module_Math_1700000000" "Math" 5 "written"
        (Some (Grade.Make (JFloat (of_int 3))));
      Modul.Make "module_Logic_1700000100" "Logic" 5 "oral" None;
      Modul.Make "module_Physics_1700000150" "Physics" 6 "written"
        (Some (Grade.Make (JFloat (of_int 5))))];
   Semester.Make 2
     [Modul.Make "module_Ethics_1700000200" "Ethics" 3 "essay"
        (Some (Grade.Make (JStr "a")));
      Modul.Make "module_Stats_1700000300" "Stats" 4 "written"
        (Some (Grade.Make (JFloat (of_int 2))))];
   Semester.Make 4
     [Modul.Make "module_Thesis_1700000350" "Thesis" 12 "thesis" None]].

Definition sample_program : Study_program.t :=
  Study_program.Make "Computer Science" 35 sample_semesters.

Definition sample_student : Student.t :=
  Student.Make "Ann" "424242" sample_program (Some (JFloat (of_int 2))).

Definition sample_document : json :=
  match Student.to_dict sample_student with
  | Ret doc => doc
  | Raise _ => JNull
  end.

Definition sample_disk : Data_management.Disk :=
  Data_management.MkDisk (Data_management.Stored sample_document)
    (Data_management.Stored
       (JDict [("resources",
                JList [Resource.to_dict (Resource.Make "Library" "https://lib.example");
                       Resource.to_dict (Resource.Make "Campus" "https://campus.example")])])).

(** The facade after its constructor has run on [sample_disk]. *)
Definition sample_world : Logic.World :=
  Logic.MkWorld (Some sample_student) [] sample_disk.

(** The same student with a program built for a target of 180 credits. *)
Definition planned_student : Student.t :=
  Student.Make "Ann" "424242"
    (Study_program.Make "Computer Science" 180 sample_semesters)
    (Some (JFloat (of_int 2))).

(** The semesters the facade holds in memory. *)
Definition semesters_of (w : Logic.World) : list Semester.t :=
  match Logic.student w with
  | Some s => Study_program.semesters (Student.study_program s)
  | None => []
  end.

(** The module a search for [module_id] finds in a world. *)
Definition module_of (module_id : string) (w : Logic.World) : option Modul.t :=
  option_map fst (Logic.find_in_semesters module_id (semesters_of w)).

(** Every module the facade holds in memory. *)
Definition modules_of (w : Logic.World) : list Modul.t :=
  flat_map Semester.modules (semesters_of w).

(** The semester with a given number that the facade holds in memory. *)
Definition semester_of (semester_number : Z) (w : Logic.World)
  : option Semester.t :=
  find (fun x => Semester.number x =? semester_number) (semesters_of w).

(** The student file holds the document of the student in memory. *)
Definition is_saved (w : Logic.World) : Prop :=
  exists s doc,
    Logic.student w = Some s /\ Student.to_dict s = Ret doc
    /\ Data_management.student_data (Logic.disk w) = Data_management.Stored doc.

(** The resource list that the resources file holds. *)
Definition stored_resources (w : Logic.World) : outcome (list json) :=
  Data_management.load_resources (Logic.disk w).

(** The semesters stand in strictly ascending order of their numbers. *)
Definition ascending (l : list Semester.t) : Prop :=
  StronglySorted (fun a b => Semester.number a < Semester.number b) l.


(** The student the facade holds, with the stored total of the program
    replaced by the sum that loading computes. *)
Definition as_loaded (s : Student.t) : Student.t :=
  Student.Make (Student.name s) (Student.matriculation_number s)
    (Study_program.Make
       (Study_program.name (Student.study_program s))
       (Study_program.get_total_credits (Student.study_program s))
       (Study_program.semesters (Student.study_program s)))
    (Student.study_goal s).

(** The semesters once [add_module] has found or made the semester with
    the given number. *)
Definition with_semester (n : Z) (l : list Semester.t) : list Semester.t :=
  match find (fun x => Semester.number x =? n) l with
  | Some _ => l
  | None => Study_program.insert_in_order (Semester.init n) l
  end.

(** The module that [add_module] builds. *)
Definition new_module (name : string) (credits : Z) (exam_type : string)
    (now : Z) (g : option Grade.t) : Modul.t :=
  Modul.Make ("module_" ++ replace " " "_" name ++ "_" ++ str_int now)
    name credits exam_type g.

(** The sample world after two calls of [add_module] for the same name
    within one second of the clock. *)
Definition twice_added_world : Logic.World :=
  snd (Logic.add_module 2 "Algebra" 5 "written" "" 1700000400
         (snd (Logic.add_module 2 "Algebra" 5 "written" "" 1700000400
                 sample_world))).

(** The facade holds a student whose [study_goal] is set. *)
Definition holds_student (w : Logic.World) : Prop :=
  exists s goal, Logic.student w = Some s /\ Student.study_goal s = Some goal.

(** One call of the facade, whatever it returns or raises: the world
    after it. *)
Inductive step (w : Logic.World) : Logic.World -> Prop :=
| step_add_module n name credits exam_type grade_str now :
    step w (snd (Logic.add_module n name credits exam_type grade_str now w))
| step_edit_grade module_id new_grade_str :
    step w (snd (Logic.edit_grade module_id new_grade_str w))
| step_delete_module module_id :
    step w (snd (Logic.delete_module module_id w))
| step_update_student_info name matriculation_number study_program study_goal :
    step w (snd (Logic.update_student_info name matriculation_number
                   study_program study_goal w))
| step_get_resources :
    step w (snd (Logic.get_resources w))
| step_add_resource name url :
    step w (snd (Logic.add_resource name url w))
| step_delete_resource index :
    step w (snd (Logic.delete_resource index w)).

(** The worlds a facade can be in: its constructor has returned, and any
    number of calls have followed. *)
Inductive reachable : Logic.World -> Prop :=
| reachable_init d w :
    Logic.init d = (Ret tt, w) -> reachable w
| reachable_step w w' :
    reachable w -> step w w' -> reachable w'.

End Spec.

Import Data_management Logic Spec.

(** * Properties *)

(** ** The built-ins on concrete inputs *)

Example float_3_0 : Py.float "3.0" = Ret (Fin 3).
Proof. reflexivity. Qed.
Example float_6_0 : Py.float " 6.0 " = Ret (Fin 6).
Proof. reflexivity. Qed.
Example float_m1 : Py.float "-1" = Ret (Fin (-1)).
Proof. reflexivity. Qed.
Example float_exp : Py.float "1_0.25e-1" = Ret (Fin (41 # 40)).
Proof. reflexivity. Qed.
Example float_abc : Py.float "abc" = Raise (ValueError "could not convert string to float: 'abc'").
Proof. reflexivity. Qed.
Example float_inf : Py.float "-Infinity" = Ret (Inf true).
Proof. reflexivity. Qed.
Example float_dot : Py.float "." = Raise (ValueError "could not convert string to float: '.'").
Proof. reflexivity. Qed.
Example float_1e : Py.float "1e" = Raise (ValueError "could not convert string to float: '1e'").
Proof. reflexivity. Qed.
Example float_tab : Py.float (String (ascii_of_nat 9) "3") = Ret (Fin 3).
Proof. reflexivity. Qed.
Example float_separator :
  strip (String (ascii_of_nat 31) "3") = "3"
  /\ exists msg, Py.float (String (ascii_of_nat 31) "3") = Raise (ValueError msg).
Proof. split; [reflexivity|eexists; reflexivity]. Qed.
Example str_int_ex : Py.str_int 1700000000 = "1700000000".
Proof. reflexivity. Qed.

(** The sample world is what the constructor builds from the sample files. *)
Example sample_world_is_loaded : Logic.init sample_disk = (Ret tt, sample_world).
Proof. reflexivity. Qed.

(** ** First run without a student file *)

(** C1. With no student file, the constructor builds the default student
    ("New Student", "000000", the empty zero-credit "Undeclared Program")
    but leaves [study_goal] unset, so the save that follows raises
    [AttributeError] out of the constructor and leaves the file created
    and empty; started again on that file, the constructor raises too. *)
Theorem C1_first_run_raises (r : file) :
  Logic.init (MkDisk Absent r)
  = (Raise (AttributeError "'Student' object has no attribute 'study_goal'"),
     MkWorld
       (Some (Student.Make "New Student" "000000"
                (Study_program.Make "Undeclared Program" 0 []) None))
       [] (MkDisk Empty r))
  /\ Logic.init (MkDisk Empty r)
     = (Raise JSONDecodeError, MkWorld None [] (MkDisk Empty r)).
Proof. split; reflexivity. Qed.

(** ** Status classification *)

Lemma le_fin (p q : Q) : le (Fin p) (Fin q) = true <-> (p <= q)%Q.
Proof. simpl. apply Qle_bool_iff. Qed.

Lemma le_fin_false (p q : Q) : (q < p)%Q -> le (Fin p) (Fin q) = false.
Proof.
  intros H. simpl. destruct (Qle_bool p q) eqn:E; [|reflexivity].
  apply Qle_bool_iff in E. exfalso. exact (Qlt_not_le _ _ H E).
Qed.

Lemma accepted_not_numeric (v : json) :
  Modul.is_accepted v = true -> as_number v = None.
Proof. destruct v; simpl; intros H; try discriminate; reflexivity. Qed.

Lemma numeric_not_accepted (v : json) (x : number) :
  as_number v = Some x -> Modul.is_accepted v = false.
Proof. destruct v; simpl; intros H; try discriminate; reflexivity. Qed.

(** C2. The status of a module is decided by its grade alone: 'none'
    without a grade, 'accepted' for the accepted token, 'passed' for a
    numeric grade of at most 4.0 and 'none' for a numeric grade above 4.0
    (5.0 among them); no other status exists. *)
Theorem C2_status_by_grade (m : Modul.t) :
  (forall m', Modul.grade m' = Modul.grade m -> Modul.status m' = Modul.status m)
  /\ (Modul.grade m = None -> Modul.status m = "none")
  /\ (is_accepted_token m -> Modul.status m = "accepted")
  /\ (forall q, numeric_value m = Some (Fin q) -> (q <= 4)%Q ->
        Modul.status m = "passed")
  /\ (forall q, numeric_value m = Some (Fin q) -> (4 < q)%Q ->
        Modul.status m = "none")
  /\ (Modul.grade m = Some (Grade.Make (JFloat (of_int 5))) ->
        Modul.status m = "none")
  /\ (Modul.status m = "none" \/ Modul.status m = "accepted"
      \/ Modul.status m = "passed").
Proof.
  repeat split.
  - intros m' H. unfold Modul.status. rewrite H. reflexivity.
  - intros H. unfold Modul.status. rewrite H. reflexivity.
  - intros (g & s & Hg & Hs & Ha). unfold Modul.status. rewrite Hg.
    unfold Modul.is_accepted. rewrite Hs, Ha. reflexivity.
  - intros q Hv Hq. unfold numeric_value in Hv. unfold Modul.status.
    destruct (Modul.grade m) as [g|]; [|discriminate].
    rewrite (numeric_not_accepted _ _ Hv). unfold Modul.is_passing.
    rewrite Hv.
    assert (E : le (Fin q) (of_int 4) = true) by (apply le_fin; exact Hq).
    rewrite E. reflexivity.
  - intros q Hv Hq. unfold numeric_value in Hv. unfold Modul.status.
    destruct (Modul.grade m) as [g|]; [|discriminate].
    rewrite (numeric_not_accepted _ _ Hv). unfold Modul.is_passing.
    rewrite Hv.
    assert (E : le (Fin q) (of_int 4) = false) by (apply le_fin_false; exact Hq).
    rewrite E. reflexivity.
  - intros H. unfold Modul.status. rewrite H. reflexivity.
  - unfold Modul.status. destruct (Modul.grade m) as [g|]; [|now left].
    destruct (Modul.is_accepted (Grade.grade g)); [now right; left|].
    destruct (Modul.is_passing (Grade.grade g)); [now right; right|now left].
Qed.

(** The four cases of C2 at modules with the grades 'A', 2.3 and 5.0. *)
Lemma C2_status_by_grade_witness :
  Modul.status (Modul.Make "m" "n" 5 "oral" (Some (Grade.Make (JStr "A"))))
    = "accepted"
  /\ Modul.status (Modul.Make "m" "n" 5 "oral"
                     (Some (Grade.Make (JFloat (Fin (23 # 10)))))) = "passed"
  /\ Modul.status (Modul.Make "m" "n" 5 "oral"
                     (Some (Grade.Make (JFloat (Fin 5))))) = "none"
  /\ Modul.status (Modul.Make "m" "n" 5 "oral" None) = "none".
Proof.
  split; [|split; [|split]].
  - destruct (C2_status_by_grade
                (Modul.Make "m" "n" 5 "oral" (Some (Grade.Make (JStr "A")))))
      as (_ & _ & H & _).
    apply H. exists (Grade.Make (JStr "A")), "A". repeat split; reflexivity.
  - destruct (C2_status_by_grade
                (Modul.Make "m" "n" 5 "oral"
                   (Some (Grade.Make (JFloat (Fin (23 # 10)))))))
      as (_ & _ & _ & H & _).
    apply (H (23 # 10)); [reflexivity|]. unfold Qle; simpl; lia.
  - destruct (C2_status_by_grade
                (Modul.Make "m" "n" 5 "oral" (Some (Grade.Make (JFloat (Fin 5))))))
      as (_ & _ & _ & _ & H & _).
    apply (H 5%Q); [reflexivity|]. unfold Qlt; simpl; lia.
  - destruct (C2_status_by_grade (Modul.Make "m" "n" 5 "oral" None))
      as (_ & H & _).
    apply H. reflexivity.
Defined.

(** ** Completed credits *)

Lemma fold_add_from (l : list Z) (a : Z) :
  fold_left Z.add l a = a + fold_right Z.add 0 l.
Proof.
  revert a. induction l as [|x l IH]; intros a; simpl.
  - lia.
  - rewrite IH. lia.
Qed.

Lemma sum_int_app (l1 l2 : list Z) :
  Study_program.sum_int (l1 ++ l2)
  = Study_program.sum_int l1 + Study_program.sum_int l2.
Proof.
  unfold Study_program.sum_int. rewrite !fold_add_from, fold_right_app.
  induction l1 as [|x l1 IH]; simpl in *; lia.
Qed.

Lemma completed_sum_app (l1 l2 : list Modul.t) :
  completed_sum (l1 ++ l2) = completed_sum l1 + completed_sum l2.
Proof.
  unfold completed_sum. induction l1 as [|m l1 IH]; simpl; [reflexivity|].
  rewrite IH. lia.
Qed.

(** The guard of the comprehension says no more than the status does. *)
Lemma counts_as_completed_is_completed (m : Modul.t) :
  counts_as_completed m = is_completed m.
Proof.
  unfold counts_as_completed, is_completed, Modul.status.
  destruct (Modul.grade m) as [g|]; simpl.
  - rewrite orb_false_r. reflexivity.
  - reflexivity.
Qed.

Lemma sum_of_kept_credits (l : list Modul.t) :
  Study_program.sum_int (map Modul.credits (filter counts_as_completed l))
  = completed_sum l.
Proof.
  induction l as [|m l IH]; [reflexivity|].
  cbn [filter]. unfold completed_sum. cbn [fold_right]. fold (completed_sum l).
  unfold contribution. rewrite <- counts_as_completed_is_completed, <- IH.
  destruct (counts_as_completed m); [|lia].
  cbn [map]. unfold Study_program.sum_int. cbn [fold_left].
  rewrite !fold_add_from. lia.
Qed.

Lemma completed_credits_of_semesters (l : list Semester.t) :
  Study_program.sum_int
    (flat_map
       (fun semester =>
          map Modul.credits (filter counts_as_completed (Semester.modules semester)))
       l)
  = completed_sum (flat_map Semester.modules l).
Proof.
  induction l as [|s l IH]; [reflexivity|].
  simpl. rewrite sum_int_app, completed_sum_app, IH, sum_of_kept_credits.
  reflexivity.
Qed.

(** C3. The completed credits are the sum, over all modules of the
    program, of the credits of those whose status is 'passed' or
    'accepted'; a module graded 5.0 and a module without a grade each
    add 0. *)
Theorem C3_completed_credits (w : World) (s : Student.t) :
  student w = Some s ->
  get_completed_credits w
  = (Ret (completed_sum (all_modules (Student.study_program s))), w)
  /\ (forall m, Modul.grade m = Some (Grade.Make (JFloat (of_int 5))) ->
        Modul.status m = "none" /\ contribution m = 0)
  /\ (forall m, Modul.grade m = None -> contribution m = 0).
Proof.
  intros Hs. split; [|split].
  - unfold get_completed_credits, bindM, the_student, ret. rewrite Hs.
    rewrite completed_credits_of_semesters. reflexivity.
  - intros m Hg. unfold contribution, is_completed, Modul.status.
    rewrite Hg. split; reflexivity.
  - intros m Hg. unfold contribution, is_completed, Modul.status.
    rewrite Hg. reflexivity.
Qed.

(** C3 at the sample student: Math (5 credits, grade 3.0), Ethics
    (3 credits, accepted) and Stats (4 credits, grade 2.0) count; the
    ungraded Logic and Thesis and Physics, graded 5.0, do not. *)
Lemma C3_completed_credits_witness :
  student sample_world = Some sample_student
  /\ get_completed_credits sample_world = (Ret 12, sample_world).
Proof.
  split; [reflexivity|].
  exact (proj1 (C3_completed_credits sample_world sample_student eq_refl)).
Defined.

(** ** Average grade *)

Lemma flat_map_modules {B} (f : Modul.t -> list B) (l : list Semester.t) :
  flat_map (fun semester => flat_map f (Semester.modules semester)) l
  = flat_map f (flat_map Semester.modules l).
Proof.
  induction l as [|s l IH]; [reflexivity|].
  simpl. rewrite flat_map_app, IH. reflexivity.
Qed.

Lemma numeric_grade_value (m : Modul.t) :
  numeric_grade m = match numeric_value m with Some x => [x] | None => [] end.
Proof.
  unfold numeric_grade, numeric_value.
  destruct (Modul.grade m); reflexivity.
Qed.

Lemma sum_of_numeric_grades (l : list Modul.t) (a : number) :
  fold_left add (flat_map numeric_grade l) a
  = fold_left
      (fun acc m => match numeric_value m with
                    | Some x => add acc x
                    | None => acc
                    end) l a.
Proof.
  revert a. induction l as [|m l IH]; intros a; [reflexivity|].
  cbn [flat_map fold_left]. rewrite fold_left_app, numeric_grade_value.
  destruct (numeric_value m); cbn [fold_left]; apply IH.
Qed.

Lemma count_of_numeric_grades (l : list Modul.t) :
  length (flat_map numeric_grade l) = denominator l.
Proof.
  induction l as [|m l IH]; [reflexivity|].
  cbn [flat_map]. rewrite length_app, numeric_grade_value, IH.
  unfold denominator at 2. cbn [fold_right]. fold (denominator l).
  unfold carries_numeric. destruct (numeric_value m); reflexivity.
Qed.

Lemma no_numeric_grades (l : list Modul.t) :
  flat_map numeric_grade l = [] <->
  (forall m, In m l -> carries_numeric m = false).
Proof.
  induction l as [|m l IH]; simpl.
  - split; [intros _ m []|reflexivity].
  - rewrite numeric_grade_value. unfold carries_numeric at 1.
    split.
    + intros H. apply app_eq_nil in H. destruct H as [Hm Hl].
      intros m' [<-|Hin].
      * unfold carries_numeric. destruct (numeric_value m); [discriminate|reflexivity].
      * apply IH; assumption.
    + intros H. pose proof (H m (or_introl eq_refl)) as Hm.
      unfold carries_numeric in Hm.
      destruct (numeric_value m); [discriminate|].
      simpl. apply IH. intros m' Hin. apply H. right. exact Hin.
Qed.

Lemma numerator_filter (l : list Modul.t) (a : number) :
  fold_left
    (fun acc m => match numeric_value m with Some x => add acc x | None => acc end)
    (filter carries_numeric l) a
  = fold_left
      (fun acc m => match numeric_value m with Some x => add acc x | None => acc end)
      l a.
Proof.
  revert a. induction l as [|m l IH]; intros a; [reflexivity|].
  cbn [filter]. unfold carries_numeric at 1.
  destruct (numeric_value m) eqn:E; cbn [fold_left]; rewrite E; apply IH.
Qed.

Lemma denominator_filter (l : list Modul.t) :
  denominator (filter carries_numeric l) = denominator l.
Proof.
  induction l as [|m l IH]; [reflexivity|].
  cbn [filter]. unfold denominator at 2. cbn [fold_right]. fold (denominator l).
  destruct (carries_numeric m) eqn:E.
  - unfold denominator. cbn [fold_right]. fold (denominator (filter carries_numeric l)).
    rewrite E, IH. reflexivity.
  - exact IH.
Qed.

(** C4. The average grade is None when no module carries a numeric grade;
    otherwise it is the sum of the numeric grades divided by their number.
    Modules without a grade and modules with the accepted token carry no
    numeric grade, and the mean is the same with them left out. *)
Theorem C4_average_grade (w : World) (s : Student.t) :
  student w = Some s ->
  ((forall m, In m (all_modules (Student.study_program s)) ->
      carries_numeric m = false) ->
   calculate_average_grade w = (Ret None, w))
  /\ ((exists m, In m (all_modules (Student.study_program s))
                 /\ carries_numeric m = true) ->
      calculate_average_grade w
      = (Ret (Some (mean_of_numeric (all_modules (Student.study_program s)))), w))
  /\ mean_of_numeric (all_modules (Student.study_program s))
     = mean_of_numeric
         (filter carries_numeric (all_modules (Student.study_program s)))
  /\ (forall m, Modul.grade m = None \/ is_accepted_token m ->
        carries_numeric m = false).
Proof.
  intros Hs. unfold calculate_average_grade. rewrite Hs.
  rewrite flat_map_modules. fold (all_modules (Student.study_program s)).
  set (ms := all_modules (Student.study_program s)).
  split; [|split; [|split]].
  - intros Hnone. apply no_numeric_grades in Hnone. rewrite Hnone. reflexivity.
  - intros (m & Hin & Hm).
    destruct (flat_map numeric_grade ms) as [|x grades] eqn:E.
    + rewrite (proj1 (no_numeric_grades ms) E m Hin) in Hm. discriminate.
    + rewrite <- E. unfold mean_of_numeric, numerator, Py.sum.
      rewrite sum_of_numeric_grades, count_of_numeric_grades. reflexivity.
  - unfold mean_of_numeric, numerator.
    rewrite numerator_filter, denominator_filter. reflexivity.
  - intros m [Hg|(g & v & Hg & Hv & _)]; unfold carries_numeric, numeric_value;
      rewrite Hg; [reflexivity|]. rewrite Hv. reflexivity.
Qed.

(** C4 at the sample student: the grades 3.0, 5.0 and 2.0 average to 10/3;
    the accepted Ethics and the ungraded Logic and Thesis are left out. *)
Lemma C4_average_grade_witness :
  student sample_world = Some sample_student
  /\ calculate_average_grade sample_world = (Ret (Some (Fin (10 # 3))), sample_world).
Proof.
  split; [reflexivity|].
  apply (proj1 (proj2 (C4_average_grade sample_world sample_student eq_refl))).
  exists (Modul.Make "module_Math_1700000000" "Math" 5 "written"
            (Some (Grade.Make (JFloat (of_int 3))))).
  split; [left; reflexivity|reflexivity].
Defined.

(** ** Grade input *)

(** [add_module] refuses a number outside [1.0, 5.0]. *)
Lemma grade_of_input_out_of_range :
  grade_of_input "6.0"
  = Raise (ValueError "Grade must be 'a' or a number between 1.0 and 5.0.")
  /\ grade_of_input "-1"
     = Raise (ValueError "Grade must be 'a' or a number between 1.0 and 5.0.").
Proof. split; reflexivity. Qed.

(** [grade_of_input] raises nothing but [ValueError]. *)
Lemma grade_of_input_raises (grade_str : string) (e : exn) :
  grade_of_input grade_str = Raise e -> exists msg, e = ValueError msg.
Proof.
  unfold grade_of_input, Py.float.
  destruct (String.eqb grade_str ""); [discriminate|].
  destruct (String.eqb (lower (strip grade_str)) "a"); cbn [bind].
  - simpl. discriminate.
  - destruct (float_chars (list_ascii_of_string grade_str)) as [x|]; cbn [bind].
    + destruct (negb (le (of_int 1) x && le x (of_int 5))); [|discriminate].
      intros H. injection H as <-. eexists. reflexivity.
    + intros H. injection H as <-. eexists. reflexivity.
Qed.

Lemma find_existsb {A} (f : A -> bool) (l : list A) :
  existsb f l = match find f l with Some _ => true | None => false end.
Proof.
  induction l as [|x l IH]; [reflexivity|].
  cbn [existsb find]. destruct (f x); [reflexivity|exact IH].
Qed.

Lemma find_update_first {A} (f : A -> bool) (h : A -> A) (l : list A) (x : A) :
  (forall y, f (h y) = f y) ->
  find f l = Some x -> find f (update_first f h l) = Some (h x).
Proof.
  intros Hh. induction l as [|y l IH]; [discriminate|].
  cbn [find update_first]. destruct (f y) eqn:E.
  - intros H. injection H as <-. cbn [find]. rewrite Hh, E. reflexivity.
  - intros H. cbn [find]. rewrite E. exact (IH H).
Qed.

(** The module that [find_module_by_id] returns is the one whose grade
    [assign_grade] replaces. *)
Lemma find_after_assign_grade (module_id : string) (g : option Grade.t)
    (l : list Semester.t) (m : Modul.t) (n : Z) :
  find_in_semesters module_id l = Some (m, n) ->
  find_in_semesters module_id (assign_grade module_id g l)
  = Some (set_grade g m, n).
Proof.
  induction l as [|s l IH]; [discriminate|].
  cbn [find_in_semesters assign_grade]. rewrite find_existsb.
  destruct (find (has_id module_id) (Semester.modules s)) as [m'|] eqn:E.
  - intros H. injection H as <- <-. cbn [find_in_semesters Semester.modules].
    rewrite (find_update_first (has_id module_id) (set_grade g) _ _
               (fun y => eq_refl) E).
    reflexivity.
  - intros H. cbn [find_in_semesters]. rewrite E. exact (IH H).
Qed.

(** What [edit_grade] does for a module it finds and an input it can
    read, for a student whose [study_goal] is set. *)
Lemma edit_grade_found
    (sname mn pname : string) (total : Z) (sems : list Semester.t) (goal : json)
    (res : list json) (dk : Disk) (module_id new_grade_str : string)
    (m : Modul.t) (n : Z) (g : option Grade.t) :
  find_in_semesters module_id sems = Some (m, n) ->
  new_grade_of_input new_grade_str = Ret g ->
  edit_grade module_id new_grade_str
    (MkWorld (Some (Student.Make sname mn (Study_program.Make pname total sems)
                      (Some goal))) res dk)
  = (Ret (true, ""),
     MkWorld
       (Some (Student.Make sname mn
                (Study_program.Make pname total (assign_grade module_id g sems))
                (Some goal)))
       res
       (MkDisk (Stored (JDict [("name", JStr sname);
                               ("matriculation_number", JStr mn);
                               ("study_program",
                                Study_program.to_dict
                                  (Study_program.Make pname total
                                     (assign_grade module_id g sems)));
                               ("study_goal", goal)]))
          (resources_data dk))).
Proof.
  intros Hfind Hg.
  unfold edit_grade, find_module_by_id, bindM at 1 2, the_student at 1, ret at 1.
  cbn [student Student.study_program Study_program.semesters]. rewrite Hfind.
  unfold try_except, bindM at 1, lift. rewrite Hg. reflexivity.
Qed.

(** Whatever [edit_grade] reads from the input it stores: a number is not
    compared with any bound. *)
Lemma edit_grade_stores_what_it_reads
    (w : World) (s : Student.t) (goal : json) (module_id new_grade_str : string)
    (m : Modul.t) (n : Z) (g : option Grade.t) :
  student w = Some s ->
  Student.study_goal s = Some goal ->
  find_in_semesters module_id
    (Study_program.semesters (Student.study_program s)) = Some (m, n) ->
  new_grade_of_input new_grade_str = Ret g ->
  fst (edit_grade module_id new_grade_str w) = Ret (true, "")
  /\ module_of module_id (snd (edit_grade module_id new_grade_str w))
     = Some (set_grade g m)
  /\ is_saved (snd (edit_grade module_id new_grade_str w)).
Proof.
  intros Hs Hgoal Hfind Hg.
  destruct w as [st res dk]. cbn [student] in Hs. subst st.
  destruct s as [sname mn [pname total sems] sg].
  cbn [Student.study_goal Student.study_program Study_program.semesters] in *.
  subst sg. rewrite (edit_grade_found _ _ _ _ _ _ _ _ _ _ _ _ _ Hfind Hg).
  unfold module_of, semesters_of, is_saved.
  cbn [fst snd student disk student_data Student.study_program
       Study_program.semesters].
  rewrite (find_after_assign_grade _ _ _ _ _ Hfind).
  repeat split. eexists _, _. repeat split.
Qed.

Lemma new_grade_of_input_number (new_grade_str : string) (x : number) :
  String.eqb (strip new_grade_str) "" = false ->
  String.eqb (lower (strip new_grade_str)) "a" = false ->
  Py.float new_grade_str = Ret x ->
  new_grade_of_input new_grade_str = Ret (Some (Grade.Make (JFloat x))).
Proof.
  intros H1 H2 H3. unfold new_grade_of_input. rewrite H1, H2, H3. reflexivity.
Qed.

(** C5. For the existing module "module_Math_1700000000", [edit_grade]
    with the input "6.0", which [add_module] refuses, returns success with
    an empty message, stores the grade 6.0 in the module and saves it; the
    same happens with "-1". *)
Theorem C5_edit_grade_takes_out_of_range :
  fst (edit_grade "module_Math_1700000000" "6.0" sample_world) = Ret (true, "")
  /\ module_of "module_Math_1700000000"
       (snd (edit_grade "module_Math_1700000000" "6.0" sample_world))
     = Some (Modul.Make "module_Math_1700000000" "Math" 5 "written"
               (Some (Grade.Make (JFloat (Fin 6)))))
  /\ module_of "module_Math_1700000000" sample_world
     = Some (Modul.Make "module_Math_1700000000" "Math" 5 "written"
               (Some (Grade.Make (JFloat (Fin 3)))))
  /\ fst (edit_grade "module_Math_1700000000" "-1" sample_world) = Ret (true, "")
  /\ module_of "module_Math_1700000000"
       (snd (edit_grade "module_Math_1700000000" "-1" sample_world))
     = Some (Modul.Make "module_Math_1700000000" "Math" 5 "written"
               (Some (Grade.Make (JFloat (Fin (-1))))))
  /\ grade_of_input "6.0"
     = Raise (ValueError "Grade must be 'a' or a number between 1.0 and 5.0.").
Proof. repeat split; vm_compute; reflexivity. Qed.

(** ** Adding a module *)

(** With the semester already there, a refused grade changes nothing. *)
Lemma add_module_refused_in_known_semester
    (w : World) (s : Student.t) (semester : Semester.t)
    (semester_number : Z) (name : string) (credits : Z)
    (exam_type grade_str : string) (now : Z) (e : exn) :
  student w = Some s ->
  Study_program.get_semester (Student.study_program s) semester_number
    = Some semester ->
  grade_of_input grade_str = Raise e ->
  add_module semester_number name credits exam_type grade_str now w
  = (Ret (false, "Not a valid grade or 'a' for accepted. Please try again."), w).
Proof.
  intros Hs Hsem Hg. destruct (grade_of_input_raises _ _ Hg) as [msg ->].
  unfold add_module, bindM, the_student. rewrite Hs, Hsem. cbn [ret].
  rewrite Hg. reflexivity.
Qed.

(** A refused grade for a semester the program does not have yet leaves
    the new, empty semester in the program. *)
Lemma add_module_refused_in_new_semester
    (w : World) (s : Student.t)
    (semester_number : Z) (name : string) (credits : Z)
    (exam_type grade_str : string) (now : Z) (e : exn) :
  student w = Some s ->
  Study_program.get_semester (Student.study_program s) semester_number = None ->
  grade_of_input grade_str = Raise e ->
  add_module semester_number name credits exam_type grade_str now w
  = (Ret (false, "Not a valid grade or 'a' for accepted. Please try again."),
     MkWorld
       (Some (Student.Make (Student.name s) (Student.matriculation_number s)
                (Study_program.Make
                   (Study_program.name (Student.study_program s))
                   (Study_program.total_credits (Student.study_program s))
                   (Study_program.insert_in_order (Semester.init semester_number)
                      (Study_program.semesters (Student.study_program s))))
                (Student.study_goal s)))
       (resources w) (disk w)).
Proof.
  intros Hs Hsem Hg. destruct (grade_of_input_raises _ _ Hg) as [msg ->].
  destruct w as [st res dk]. cbn [student] in Hs. subst st.
  unfold add_module, bindM at 1, the_student at 1. cbn [student].
  rewrite Hsem. unfold Study_program.add_semester.
  assert (E : existsb
                (fun x => Semester.number x =? Semester.number (Semester.init semester_number))
                (Study_program.semesters (Student.study_program s)) = false).
  { rewrite find_existsb. unfold Study_program.get_semester in Hsem.
    cbn [Semester.init Semester.number]. rewrite Hsem. reflexivity. }
  rewrite E. cbn. rewrite Hg. reflexivity.
Qed.

(** C6. [add_module] for semester 3, which the sample program does not
    have, with the refused grade "6.0": the call returns failure with the
    message and leaves the files as they were, but the program in memory
    has gained an empty semester 3. *)
Theorem C6_add_module_refused_grade_adds_semester :
  fst (add_module 3 "Algebra" 5 "written" "6.0" 1700000400 sample_world)
  = Ret (false, "Not a valid grade or 'a' for accepted. Please try again.")
  /\ disk (snd (add_module 3 "Algebra" 5 "written" "6.0" 1700000400 sample_world))
     = disk sample_world
  /\ map Semester.number (semesters_of sample_world) = [1; 2; 4]
  /\ semester_of 3 sample_world = None
  /\ map Semester.number
       (semesters_of
          (snd (add_module 3 "Algebra" 5 "written" "6.0" 1700000400 sample_world)))
     = [1; 2; 3; 4]
  /\ semester_of 3
       (snd (add_module 3 "Algebra" 5 "written" "6.0" 1700000400 sample_world))
     = Some (Semester.Make 3 []).
Proof. repeat split; vm_compute; reflexivity. Qed.

(** ** Saving and loading *)

Lemma traverse_map {A B} (f : A -> outcome B) (g : B -> A) (l : list B) :
  (forall x, f (g x) = Ret x) -> traverse f (map g l) = Ret l.
Proof.
  intros H. induction l as [|x l IH]; [reflexivity|].
  cbn [map traverse]. rewrite H. cbn [bind]. rewrite IH. reflexivity.
Qed.

Lemma Modul_from_to_dict (m : Modul.t) :
  Modul.from_dict (Modul.to_dict m) = Ret m.
Proof. destruct m as [i n c e [[g]|]]; reflexivity. Qed.

Lemma Semester_from_to_dict (s : Semester.t) :
  Semester.from_dict (Semester.to_dict s) = Ret s.
Proof.
  destruct s as [n ms]. unfold Semester.from_dict, Semester.to_dict.
  cbn [getitem get lookup String.eqb Ascii.eqb Bool.eqb bind as_int as_list
       Semester.number Semester.modules].
  rewrite (traverse_map _ _ _ Modul_from_to_dict). reflexivity.
Qed.

(** Loading what [to_dict] wrote gives the program back with its stored
    target replaced by the sum of the credits of its modules. *)
Lemma Study_program_from_to_dict (p : Study_program.t) :
  Study_program.from_dict (Study_program.to_dict p)
  = Ret (Study_program.Make (Study_program.name p)
           (Study_program.get_total_credits p) (Study_program.semesters p)).
Proof.
  destruct p as [n t l]. unfold Study_program.from_dict, Study_program.to_dict.
  cbn [getitem get lookup String.eqb Ascii.eqb Bool.eqb bind as_str as_list
       Study_program.name Study_program.total_credits Study_program.semesters].
  rewrite (traverse_map _ _ _ Semester_from_to_dict). reflexivity.
Qed.

(** C7, as the code has it. A student written by [to_dict] and read back
    by [from_dict] is the same student, except that the stored
    [total_credits] of the program is the sum of the credits of all its
    modules and no longer the value it held; the document itself holds the
    value it held. *)
Theorem C7_round_trip_recomputes_total (s : Student.t) (d : json) :
  Student.to_dict s = Ret d ->
  Student.from_dict d
  = Ret (Student.Make (Student.name s) (Student.matriculation_number s)
           (Study_program.Make
              (Study_program.name (Student.study_program s))
              (Study_program.get_total_credits (Student.study_program s))
              (Study_program.semesters (Student.study_program s)))
           (Student.study_goal s))
  /\ (v <- getitem d "study_program" ;; getitem v "total_credits")
     = Ret (JInt (Study_program.total_credits (Student.study_program s))).
Proof.
  destruct s as [n mn p [g|]]; unfold Student.to_dict;
    cbn [Student.study_goal]; [|discriminate].
  intros H. injection H as <-. split; [|reflexivity].
  unfold Student.from_dict.
  cbn [getitem get lookup String.eqb Ascii.eqb Bool.eqb bind as_str
       Student.name Student.matriculation_number Student.study_program
       Student.study_goal].
  rewrite Study_program_from_to_dict. reflexivity.
Qed.

(** C7 at the student whose target is 180 and whose modules make 35
    credits. *)
Lemma C7_round_trip_recomputes_total_witness :
  (exists d, Student.to_dict planned_student = Ret d)
  /\ (d <- Student.to_dict planned_student ;; Student.from_dict d)
     = Ret (Student.Make "Ann" "424242"
              (Study_program.Make "Computer Science" 35 sample_semesters)
              (Some (JFloat (of_int 2)))).
Proof.
  split; [eexists; reflexivity|].
  exact (proj1 (C7_round_trip_recomputes_total planned_student _ eq_refl)).
Defined.

(** The claim of C7 fails at the student with the target 180: it comes
    back as 35. *)
Lemma C7_target_is_not_preserved :
  Study_program.total_credits (Student.study_program planned_student) = 180
  /\ (d <- Student.to_dict planned_student ;;
      s' <- Student.from_dict d ;;
      Ret (Study_program.total_credits (Student.study_program s')))
     = Ret 35.
Proof. split; reflexivity. Qed.

(** ** Deleting a module *)

Lemma has_id_true (module_id : string) (m : Modul.t) :
  has_id module_id m = true <-> Modul.id m = module_id.
Proof. unfold has_id. apply String.eqb_eq. Qed.

Lemma filter_keeps_all {A} (f : A -> bool) (l : list A) :
  (forall x, In x l -> f x = true) -> filter f l = l.
Proof.
  induction l as [|x l IH]; intros H; [reflexivity|].
  cbn [filter]. rewrite (H x (or_introl eq_refl)), IH; [reflexivity|].
  intros y Hy. apply H. right. exact Hy.
Qed.

Lemma find_skips {A} (f : A -> bool) (l1 l2 : list A) :
  (forall x, In x l1 -> f x = false) -> find f (l1 ++ l2)%list = find f l2.
Proof.
  induction l1 as [|x l1 IH]; intros H; [reflexivity|].
  cbn [app find]. rewrite (H x (or_introl eq_refl)). apply IH.
  intros y Hy. apply H. right. exact Hy.
Qed.

Lemma find_nowhere {A} (f : A -> bool) (l : list A) :
  (forall x, In x l -> f x = false) -> find f l = None.
Proof.
  intros H. rewrite <- (app_nil_r l). rewrite (find_skips f l [] H). reflexivity.
Qed.

Lemma modules_of_nonempty_semesters (l : list Semester.t) :
  flat_map Semester.modules (filter Study_program.has_modules l)
  = flat_map Semester.modules l.
Proof.
  induction l as [|s l IH]; [reflexivity|].
  cbn [filter flat_map]. unfold Study_program.has_modules at 1.
  destruct (Semester.modules s) eqn:E; cbn [flat_map]; rewrite IH;
    [reflexivity|rewrite E; reflexivity].
Qed.

Lemma owning_semester_some (module_id : string)
    (before todo b rest : list Semester.t) (semester : Semester.t) :
  owning_semester module_id before todo = Some (b, semester, rest) ->
  exists passed modul,
    b = (before ++ passed)%list /\ todo = (passed ++ semester :: rest)%list
    /\ (forall x m, In x passed -> In m (Semester.modules x) ->
          has_id module_id m = false)
    /\ In modul (Semester.modules semester) /\ Modul.id modul = module_id.
Proof.
  revert before. induction todo as [|x todo IH]; intros before H; [discriminate|].
  cbn [owning_semester] in H.
  destruct (find (has_id module_id) (Semester.modules x)) as [m|] eqn:E.
  - injection H as <- <- <-. apply find_some in E as [Hin Hid].
    exists [], m. rewrite app_nil_r. repeat split; try assumption.
    + intros ? ? [].
    + apply has_id_true. exact Hid.
  - destruct (IH _ H) as (passed & m & -> & -> & Hp & Hin & Hid).
    exists (x :: passed), m. rewrite <- app_assoc. repeat split; try assumption.
    intros y m' [<-|Hy] Hm'.
    + exact (find_none _ _ E m' Hm').
    + exact (Hp y m' Hy Hm').
Qed.

Lemma owning_semester_none (module_id : string) (before todo : list Semester.t) :
  owning_semester module_id before todo = None ->
  ~ In module_id (map Modul.id (flat_map Semester.modules todo)).
Proof.
  revert before. induction todo as [|x todo IH]; intros before H; [intros []|].
  cbn [owning_semester] in H.
  destruct (find (has_id module_id) (Semester.modules x)) as [m|] eqn:E;
    [discriminate|].
  cbn [flat_map]. rewrite map_app, in_app_iff. intros [Hin|Hin].
  - apply in_map_iff in Hin as (m & Hid & Hm).
    pose proof (find_none _ _ E m Hm) as Hf.
    apply has_id_true in Hid. congruence.
  - exact (IH _ H Hin).
Qed.

(** The modules of a semester that [delete_module] keeps, when the ids of
    the semester are distinct. *)
Lemma filter_out_unique_id (module_id : string) (a b : list Modul.t)
    (modul : Modul.t) :
  Modul.id modul = module_id ->
  NoDup (map Modul.id (a ++ modul :: b)) ->
  filter (fun x => negb (has_id module_id x)) (a ++ modul :: b)
  = (a ++ b)%list.
Proof.
  intros Hid Hnd. rewrite map_app in Hnd. cbn [map] in Hnd.
  apply NoDup_remove_2 in Hnd. rewrite <- map_app in Hnd.
  rewrite filter_app. cbn [filter].
  rewrite (proj2 (has_id_true module_id modul) Hid). cbn [negb].
  rewrite <- filter_app. apply filter_keeps_all.
  intros x Hx. apply negb_true_iff.
  destruct (has_id module_id x) eqn:E; [|reflexivity].
  exfalso. apply Hnd. apply has_id_true in E.
  apply in_map_iff. exists x. split; [congruence|exact Hx].
Qed.

Lemma filter_out_unique_number (n : Z) (passed rest : list Semester.t)
    (x : Semester.t) :
  Semester.number x = n ->
  NoDup (map Semester.number (passed ++ x :: rest)) ->
  filter (fun y => negb (Semester.number y =? n)) (passed ++ x :: rest)
  = (passed ++ rest)%list.
Proof.
  intros Hn Hnd. rewrite map_app in Hnd. cbn [map] in Hnd.
  apply NoDup_remove_2 in Hnd. rewrite <- map_app in Hnd.
  rewrite filter_app. cbn [filter].
  rewrite (proj2 (Z.eqb_eq _ _) Hn). cbn [negb].
  rewrite <- filter_app. apply filter_keeps_all.
  intros y Hy. apply negb_true_iff. apply Z.eqb_neq. intros E.
  apply Hnd. apply in_map_iff. exists y. split; [congruence|exact Hy].
Qed.


(** What [delete_module] does once the loop has found the owning semester,
    for a student whose [study_goal] is set. *)
Lemma delete_module_found
    (sname mn pname : string) (total : Z) (sems : list Semester.t) (goal : json)
    (res : list json) (dk : Disk) (module_id : string)
    (before rest : list Semester.t) (semester : Semester.t) :
  owning_semester module_id [] sems = Some (before, semester, rest) ->
  let emptied :=
    Semester.Make (Semester.number semester)
      (filter (fun x => negb (has_id module_id x)) (Semester.modules semester)) in
  let sems' :=
    match Semester.modules emptied with
    | [] => filter Study_program.has_modules
              (filter (fun x => negb (Semester.number x =? Semester.number semester))
                 (before ++ emptied :: rest))
    | _ :: _ => (before ++ emptied :: rest)%list
    end in
  let s' := Student.Make sname mn (Study_program.Make pname total sems') (Some goal) in
  delete_module module_id
    (MkWorld (Some (Student.Make sname mn (Study_program.Make pname total sems)
                      (Some goal))) res dk)
  = (Ret true,
     MkWorld (Some s') res
       (MkDisk (Stored (JDict [("name", JStr sname);
                               ("matriculation_number", JStr mn);
                               ("study_program",
                                Study_program.to_dict
                                  (Study_program.Make pname total sems'));
                               ("study_goal", goal)]))
          (resources_data dk))).
Proof.
  intros H. unfold delete_module, bindM at 1, the_student at 1.
  cbn [student Student.study_program Study_program.semesters]. rewrite H.
  cbn [Semester.modules].
  destruct (filter (fun x => negb (has_id module_id x)) (Semester.modules semester));
    reflexivity.
Qed.

(** C8. For an id that some module of the program carries, in a program
    whose module ids are distinct and whose semester numbers are distinct,
    and a student whose [study_goal] is set: [delete_module] returns True,
    the modules of the program afterwards are those before without that
    one module, the semester that held it is gone when it held no other
    module and otherwise stays with its other modules in their order, and
    the result is saved. For an id that no module carries it returns False
    and changes nothing. *)
Theorem C8_delete_module (w : World) (s : Student.t) (module_id : string) :
  student w = Some s ->
  (In module_id (module_ids (Student.study_program s)) ->
   NoDup (module_ids (Student.study_program s)) ->
   NoDup (semester_numbers (Student.study_program s)) ->
   Student.study_goal s <> None ->
   exists semester a modul b l1 l2,
     In semester (Study_program.semesters (Student.study_program s))
     /\ Semester.modules semester = (a ++ modul :: b)%list
     /\ Modul.id modul = module_id
     /\ all_modules (Student.study_program s) = (l1 ++ modul :: l2)%list
     /\ fst (delete_module module_id w) = Ret true
     /\ modules_of (snd (delete_module module_id w)) = (l1 ++ l2)%list
     /\ semester_of (Semester.number semester) (snd (delete_module module_id w))
        = match (a ++ b)%list with
          | [] => None
          | _ :: _ => Some (Semester.Make (Semester.number semester) (a ++ b))
          end
     /\ is_saved (snd (delete_module module_id w)))
  /\ (~ In module_id (module_ids (Student.study_program s)) ->
      delete_module module_id w = (Ret false, w)).
Proof.
  intros Hs. destruct w as [st res dk]. cbn [student] in Hs. subst st.
  destruct s as [sname mn [pname total sems] goal].
  unfold module_ids, semester_numbers, all_modules.
  cbn [Student.study_program Study_program.semesters Student.study_goal].
  split.
  - intros Hin Hids Hnums Hgoal.
    destruct goal as [goal|]; [clear Hgoal|congruence].
    destruct (owning_semester module_id [] sems) as [[[before semester] rest]|] eqn:Eo;
      [|exfalso; exact (owning_semester_none _ _ _ Eo Hin)].
    rewrite (delete_module_found _ _ _ _ _ _ _ _ _ _ _ _ Eo).
    destruct (owning_semester_some _ _ _ _ _ _ Eo)
      as (passed & modul & -> & -> & Hpassed & Hm & Hid).
    cbn [app] in *. clear Eo.
    apply in_split in Hm as (a & b & Hab).
    destruct semester as [n ms]. cbn [Semester.modules Semester.number] in *.
    subst ms.
    assert (Hkeep : filter (fun x => negb (has_id module_id x)) (a ++ modul :: b)
                    = (a ++ b)%list).
    { apply filter_out_unique_id; [exact Hid|].
      rewrite flat_map_app, map_app in Hids. apply NoDup_app_remove_l in Hids.
      cbn [flat_map Semester.modules] in Hids. rewrite map_app in Hids.
      apply NoDup_app_remove_r in Hids. exact Hids. }
    rewrite Hkeep.
    assert (Hother : forall x, In x passed -> (Semester.number x =? n) = false).
    { intros x Hx. apply Z.eqb_neq. intros E.
      rewrite map_app in Hnums. cbn [map Semester.number] in Hnums.
      apply NoDup_remove_2 in Hnums. apply Hnums, in_or_app. left.
      apply in_map_iff. exists x. split; [exact E|exact Hx]. }
    exists (Semester.Make n (a ++ modul :: b)), a, modul, b,
      (flat_map Semester.modules passed ++ a)%list,
      (b ++ flat_map Semester.modules rest)%list.
    split; [apply in_or_app; right; left; reflexivity|].
    split; [reflexivity|]. split; [exact Hid|].
    split; [rewrite flat_map_app; cbn [flat_map Semester.modules];
            rewrite <- !app_assoc; reflexivity|].
    split; [reflexivity|].
    unfold modules_of, semester_of, semesters_of, is_saved.
    cbn [fst snd student disk student_data Student.study_program
         Study_program.semesters Semester.number Semester.modules].
    destruct (a ++ b)%list as [|y kept] eqn:Ekept.
    + rewrite (filter_out_unique_number n passed rest (Semester.Make n []) eq_refl).
      2: { rewrite map_app in Hnums |- *. exact Hnums. }
      split.
      { rewrite modules_of_nonempty_semesters, flat_map_app.
        apply app_eq_nil in Ekept as [-> ->].
        rewrite app_nil_r. reflexivity. }
      split.
      { apply find_nowhere. intros x Hx.
        apply filter_In in Hx as [Hx _].
        rewrite map_app in Hnums. cbn [map Semester.number] in Hnums.
        apply NoDup_remove_2 in Hnums.
        apply Z.eqb_neq. intros E. apply Hnums. rewrite <- map_app.
        apply in_map_iff. exists x. split; [exact E|exact Hx]. }
      eexists _, _. repeat split.
    + split.
      { rewrite flat_map_app. cbn [flat_map Semester.modules].
        rewrite <- Ekept, <- !app_assoc. reflexivity. }
      split.
      { rewrite (find_skips _ _ _ Hother). cbn [find Semester.number].
        rewrite Z.eqb_refl. reflexivity. }
      eexists _, _. repeat split.
  - intros Hout.
    destruct (owning_semester module_id [] sems) as [[[before semester] rest]|] eqn:Eo.
    + exfalso. apply Hout.
      destruct (owning_semester_some _ _ _ _ _ _ Eo)
        as (passed & modul & _ & -> & _ & Hm & Hid).
      apply in_map_iff. exists modul. split; [exact Hid|].
      apply in_flat_map. exists semester. split; [|exact Hm].
      apply in_or_app. right. left. reflexivity.
    + unfold delete_module, bindM, the_student.
      cbn [student Student.study_program Study_program.semesters].
      rewrite Eo. reflexivity.
Qed.

(** C8 at the sample world: deleting Thesis, alone in semester 4, removes
    that semester; deleting Ethics leaves semester 2 with Stats; an
    unknown id changes nothing. *)
Lemma C8_delete_module_witness :
  student sample_world = Some sample_student
  /\ In "module_Thesis_1700000350" (module_ids sample_program)
  /\ NoDup (module_ids sample_program)
  /\ NoDup (semester_numbers sample_program)
  /\ Student.study_goal sample_student <> None
  /\ fst (delete_module "module_Thesis_1700000350" sample_world) = Ret true
  /\ semester_of 4 (snd (delete_module "module_Thesis_1700000350" sample_world))
     = None
  /\ fst (delete_module "module_Ethics_1700000200" sample_world) = Ret true
  /\ semester_of 2 (snd (delete_module "module_Ethics_1700000200" sample_world))
     = Some (Semester.Make 2
               [Modul.Make "module_Stats_1700000300" "Stats" 4 "written"
                  (Some (Grade.Make (JFloat (of_int 2))))])
  /\ delete_module "module_Unknown_0" sample_world = (Ret false, sample_world).
Proof.
  assert (Hids : NoDup (module_ids sample_program)).
  { unfold module_ids, all_modules. cbn.
    repeat (constructor; [cbn; intuition discriminate|]). constructor. }
  assert (Hnums : NoDup (semester_numbers sample_program)).
  { unfold semester_numbers. cbn.
    repeat (constructor; [cbn; intuition discriminate|]). constructor. }
  assert (Hgoal : Student.study_goal sample_student <> None) by discriminate.
  assert (Hthesis : In "module_Thesis_1700000350" (module_ids sample_program))
    by (cbn; tauto).
  assert (Hethics : In "module_Ethics_1700000200" (module_ids sample_program))
    by (cbn; tauto).
  destruct (C8_delete_module sample_world sample_student
              "module_Thesis_1700000350" eq_refl) as [Hfound _].
  destruct (Hfound Hthesis Hids Hnums Hgoal)
    as (_ & _ & _ & _ & _ & _ & _ & _ & _ & _ & Hret & _).
  destruct (C8_delete_module sample_world sample_student
              "module_Ethics_1700000200" eq_refl) as [Hfound' _].
  destruct (Hfound' Hethics Hids Hnums Hgoal)
    as (_ & _ & _ & _ & _ & _ & _ & _ & _ & _ & Hret' & _).
  destruct (C8_delete_module sample_world sample_student
              "module_Unknown_0" eq_refl) as [_ Hout].
  repeat split; try assumption;
    try (apply Hout; cbn; intuition discriminate); reflexivity.
Defined.

(** C8 does not hold of every id present in the program. The id is made of
    the name and the second of the clock, so two calls of [add_module]
    for one name within one second give two modules the same id; both
    calls succeed. [delete_module] with that id then removes the two
    modules, not one: of the four modules of semester 2 two remain, and
    it returns True. *)
Lemma C8_shared_id_removes_both :
  fst (add_module 2 "Algebra" 5 "written" "" 1700000400 sample_world)
  = Ret (true, "Module added successfully.")
  /\ fst (add_module 2 "Algebra" 5 "written" "" 1700000400
            (snd (add_module 2 "Algebra" 5 "written" "" 1700000400
                    sample_world)))
     = Ret (true, "Module added successfully.")
  /\ reachable twice_added_world
  /\ map Modul.id (modules_of twice_added_world)
     = ["module_Math_1700000000"; "module_Logic_1700000100";
        "module_Physics_1700000150"; "module_Ethics_1700000200";
        "module_Stats_1700000300"; "module_Algebra_1700000400";
        "module_Algebra_1700000400"; "module_Thesis_1700000350"]
  /\ fst (delete_module "module_Algebra_1700000400" twice_added_world)
     = Ret true
  /\ map Modul.id
       (modules_of
          (snd (delete_module "module_Algebra_1700000400" twice_added_world)))
     = ["module_Math_1700000000"; "module_Logic_1700000100";
        "module_Physics_1700000150"; "module_Ethics_1700000200";
        "module_Stats_1700000300"; "module_Thesis_1700000350"]
  /\ length (modules_of twice_added_world)
     = S (S (length
               (modules_of
                  (snd (delete_module "module_Algebra_1700000400"
                          twice_added_world))))).
Proof.
  split; [reflexivity|]. split; [reflexivity|].
  split.
  - unfold twice_added_world.
    apply reachable_step with
      (w := snd (add_module 2 "Algebra" 5 "written" "" 1700000400 sample_world)).
    + apply reachable_step with (w := sample_world).
      * exact (reachable_init sample_disk sample_world eq_refl).
      * apply step_add_module.
    + apply step_add_module.
  - repeat split; vm_compute; reflexivity.
Qed.

(** ** Resources *)

(** C9, as the code has it. [add_resource] checks nothing: for every name
    and url, empty or not, it appends the pair to the stored list, saves
    the list and returns nothing. *)
Theorem C9_add_resource_appends
    (w : World) (l : list json) (name url : string) :
  stored_resources w = Ret l ->
  fst (add_resource name url w) = Ret tt
  /\ stored_resources (snd (add_resource name url w))
     = Ret (l ++ [JDict [("name", JStr name); ("url", JStr url)]])%list
  /\ student (snd (add_resource name url w)) = student w
  /\ student_data (disk (snd (add_resource name url w))) = student_data (disk w).
Proof.
  unfold stored_resources, add_resource. intros H. rewrite H.
  repeat split.
Qed.

(** C9 at the sample world with an empty name and an empty url. *)
Lemma C9_add_resource_appends_witness :
  stored_resources sample_world
  = Ret [JDict [("name", JStr "Library"); ("url", JStr "https://lib.example")];
         JDict [("name", JStr "Campus"); ("url", JStr "https://campus.example")]]
  /\ stored_resources (snd (add_resource "" "" sample_world))
     = Ret [JDict [("name", JStr "Library"); ("url", JStr "https://lib.example")];
            JDict [("name", JStr "Campus"); ("url", JStr "https://campus.example")];
            JDict [("name", JStr ""); ("url", JStr "")]].
Proof.
  split; [reflexivity|].
  exact (proj1 (proj2 (C9_add_resource_appends sample_world _ "" "" eq_refl))).
Defined.

(** The claim of C9 fails at an empty name and an empty url: the call
    returns normally and the stored list has grown by one entry. *)
Lemma C9_empty_resource_is_stored :
  fst (add_resource "" "" sample_world) = Ret tt
  /\ (l <- stored_resources sample_world ;; Ret (length l)) = Ret 2%nat
  /\ (l <- stored_resources (snd (add_resource "" "" sample_world)) ;;
      Ret (length l)) = Ret 3%nat.
Proof. repeat split. Qed.

Lemma remove_at_split {A} (n : nat) (l : list A) :
  (n < length l)%nat ->
  exists a x b, l = (a ++ x :: b)%list /\ length a = n
                /\ remove_at n l = (a ++ b)%list.
Proof.
  revert l. induction n as [|n IH]; intros [|y l] Hn; simpl in Hn; try lia.
  - exists [], y, l. repeat split.
  - destruct (IH l) as (a & x & b & -> & Ha & Hr); [lia|].
    exists (y :: a), x, b. simpl. rewrite Ha, Hr. repeat split.
Qed.

Lemma pop_out_of_range {A} (l : list A) (i : Z) :
  Z.of_nat (length l) <= i \/ i < - Z.of_nat (length l) ->
  exists msg, pop l i = Raise (IndexError msg).
Proof.
  intros H. unfold pop. destruct l as [|x l]; [eexists; reflexivity|].
  set (n := Z.of_nat (length (x :: l))) in *.
  assert (E : ((if i <? 0 then i + n else i) <? 0)
              || (n <=? (if i <? 0 then i + n else i)) = true).
  { destruct (Z.ltb_spec i 0); apply orb_true_iff.
    - destruct H; [lia|]. left. apply Z.ltb_lt. lia.
    - destruct H; [|lia]. right. apply Z.leb_le. lia. }
  rewrite E. eexists. reflexivity.
Qed.

Lemma pop_in_range {A} (l : list A) (i : Z) :
  - Z.of_nat (length l) <= i < Z.of_nat (length l) ->
  exists a x b, l = (a ++ x :: b)%list
    /\ Z.of_nat (length a) = (if i <? 0 then i + Z.of_nat (length l) else i)
    /\ pop l i = Ret (a ++ b)%list.
Proof.
  intros H. unfold pop. destruct l as [|y l]; [simpl in H; lia|].
  set (n := Z.of_nat (length (y :: l))) in *.
  set (j := if i <? 0 then i + n else i).
  assert (Hj : 0 <= j < n) by (unfold j; destruct (Z.ltb_spec i 0); lia).
  assert (E : (j <? 0) || (n <=? j) = false).
  { apply orb_false_iff. split; [apply Z.ltb_ge|apply Z.leb_gt]; lia. }
  rewrite E.
  destruct (remove_at_split (Z.to_nat j) (y :: l)) as (a & x & b & Hl & Ha & Hr).
  { unfold n in Hj. lia. }
  exists a, x, b. rewrite Hr. repeat split; [exact Hl|lia].
Qed.

(** C10. [delete_resource] returns False and changes nothing exactly when
    the index is at least the length of the stored list or below minus
    that length. For an index from minus the length to -1 it returns True
    and saves the list without the element that has [- index - 1]
    elements after it; for an index from 0 up to the length it returns
    True and saves the list without the element at that index. *)
Theorem C10_delete_resource (w : World) (l : list json) (index : Z) :
  stored_resources w = Ret l ->
  (delete_resource index w = (Ret false, w)
   <-> (Z.of_nat (length l) <= index \/ index < - Z.of_nat (length l)))
  /\ (- Z.of_nat (length l) <= index <= -1 ->
      exists a x b,
        l = (a ++ x :: b)%list /\ Z.of_nat (length b) = - index - 1
        /\ delete_resource index w
           = (Ret true,
              MkWorld (student w) (resources w) (save_resources (a ++ b) (disk w))))
  /\ (0 <= index < Z.of_nat (length l) ->
      exists a x b,
        l = (a ++ x :: b)%list /\ Z.of_nat (length a) = index
        /\ delete_resource index w
           = (Ret true,
              MkWorld (student w) (resources w) (save_resources (a ++ b) (disk w)))).
Proof.
  unfold stored_resources. intros Hl. unfold delete_resource. rewrite Hl.
  split; [split|split].
  - intros H.
    destruct (Z_le_gt_dec (Z.of_nat (length l)) index) as [|Hlt]; [now left|].
    destruct (Z_lt_ge_dec index (- Z.of_nat (length l))) as [|Hge]; [now right|].
    destruct (pop_in_range l index) as (a & x & b & _ & _ & Hp); [lia|].
    rewrite Hp in H. discriminate.
  - intros H. destruct (pop_out_of_range l index H) as [msg ->]. reflexivity.
  - intros H.
    destruct (pop_in_range l index) as (a & x & b & E & Ha & Hp); [lia|].
    exists a, x, b. rewrite Hp. repeat split; [exact E|].
    assert (Hneg : (index <? 0) = true) by (apply Z.ltb_lt; lia).
    rewrite Hneg in Ha.
    assert (Hlen : length l = (length a + S (length b))%nat)
      by (rewrite E, length_app; reflexivity).
    lia.
  - intros H.
    destruct (pop_in_range l index) as (a & x & b & E & Ha & Hp); [lia|].
    exists a, x, b. rewrite Hp. repeat split; [exact E|].
    assert (Hpos : (index <? 0) = false) by (apply Z.ltb_ge; lia).
    rewrite Hpos in Ha. exact Ha.
Qed.

(** C10 at the sample world, whose stored list has two entries: the index
    -1 removes the last entry, the index 5 is refused. *)
Lemma C10_delete_resource_witness :
  stored_resources sample_world
  = Ret [JDict [("name", JStr "Library"); ("url", JStr "https://lib.example")];
         JDict [("name", JStr "Campus"); ("url", JStr "https://campus.example")]]
  /\ delete_resource 5 sample_world = (Ret false, sample_world)
  /\ fst (delete_resource (-1) sample_world) = Ret true
  /\ stored_resources (snd (delete_resource (-1) sample_world))
     = Ret [JDict [("name", JStr "Library"); ("url", JStr "https://lib.example")]].
Proof.
  split; [reflexivity|]. split.
  - apply (proj1 (C10_delete_resource sample_world _ 5 eq_refl)).
    left. simpl. lia.
  - destruct (proj1 (proj2 (C10_delete_resource sample_world _ (-1) eq_refl)))
      as (a & x & b & _ & _ & H).
    + simpl. lia.
    + split; reflexivity.
Defined.

(** * Further properties of the code *)

(** ** Semesters of a study program *)

Lemma insert_in_order_perm (x : Semester.t) (l : list Semester.t) :
  Permutation (Study_program.insert_in_order x l) (x :: l).
Proof.
  induction l as [|y l IH]; [reflexivity|].
  cbn [Study_program.insert_in_order].
  destruct (Semester.number x <? Semester.number y); [reflexivity|].
  rewrite IH. apply perm_swap.
Qed.

Lemma insert_in_order_ascending (x : Semester.t) (l : list Semester.t) :
  ascending l ->
  (forall y, In y l -> Semester.number y <> Semester.number x) ->
  ascending (Study_program.insert_in_order x l).
Proof.
  unfold ascending. intros Hl Hx. induction Hl as [|y l Hl IH Hy].
  - repeat constructor.
  - cbn [Study_program.insert_in_order].
    destruct (Z.ltb_spec (Semester.number x) (Semester.number y)) as [Hlt|Hge].
    + constructor; [constructor; assumption|].
      constructor; [exact Hlt|].
      rewrite Forall_forall in Hy |- *. intros z Hz. specialize (Hy z Hz). lia.
    + assert (Hne : Semester.number y <> Semester.number x)
        by (apply Hx; left; reflexivity).
      constructor.
      * apply IH. intros z Hz. apply Hx. right. exact Hz.
      * rewrite Forall_forall in Hy |- *. intros z Hz.
        apply (Permutation_in _ (insert_in_order_perm x l)) in Hz.
        destruct Hz as [<-|Hz]; [lia|exact (Hy z Hz)].
Qed.

Lemma get_semester_none (p : Study_program.t) (n : Z) :
  Study_program.get_semester p n = None <->
  (forall y, In y (Study_program.semesters p) -> Semester.number y <> n).
Proof.
  unfold Study_program.get_semester. split.
  - intros H y Hy E. pose proof (find_none _ _ H y Hy) as Hf.
    cbn in Hf. apply Z.eqb_neq in Hf. contradiction.
  - intros H. destruct (find _ _) as [y|] eqn:E; [|reflexivity].
    apply find_some in E as [Hy Hn]. apply Z.eqb_eq in Hn.
    exfalso. exact (H y Hy Hn).
Qed.

(** X1. [add_semester] puts a semester with a new number in its place: the
    order stays strictly ascending, the new semester is there once and
    the others are all kept; name and stored total are untouched. *)
Theorem add_semester_keeps_order (p : Study_program.t) (s : Semester.t) :
  ascending (Study_program.semesters p) ->
  Study_program.get_semester p (Semester.number s) = None ->
  exists l,
    Study_program.add_semester p s
    = Ret (Study_program.Make (Study_program.name p)
             (Study_program.total_credits p) l)
    /\ ascending l
    /\ Permutation l (s :: Study_program.semesters p).
Proof.
  intros Hasc Hnone. unfold Study_program.add_semester.
  rewrite find_existsb. unfold Study_program.get_semester in Hnone.
  rewrite Hnone. eexists. split; [reflexivity|]. split.
  - apply insert_in_order_ascending; [exact Hasc|].
    apply (proj1 (get_semester_none p _)). exact Hnone.
  - apply insert_in_order_perm.
Qed.

Lemma add_semester_keeps_order_witness :
  ascending sample_semesters
  /\ Study_program.get_semester sample_program 3 = None
  /\ exists l,
       Study_program.add_semester sample_program (Semester.init 3)
       = Ret (Study_program.Make "Computer Science" 35 l)
       /\ map Semester.number l = [1; 2; 3; 4].
Proof.
  assert (Hasc : ascending sample_semesters).
  { unfold ascending, sample_semesters.
    repeat (constructor; [|repeat constructor; cbn; lia]). constructor. }
  split; [exact Hasc|]. split; [reflexivity|].
  destruct (add_semester_keeps_order sample_program (Semester.init 3) Hasc eq_refl)
    as (l & Hadd & _ & _).
  exists l. split; [exact Hadd|].
  cbv in Hadd. injection Hadd as <-. reflexivity.
Defined.

(** X2. [add_semester] raises [ValueError] exactly when the program already
    has a semester with that number; it then returns no program. *)
Theorem add_semester_refuses_known_number (p : Study_program.t) (s : Semester.t) :
  (exists msg, Study_program.add_semester p s = Raise (ValueError msg))
  <-> Study_program.get_semester p (Semester.number s) <> None.
Proof.
  unfold Study_program.add_semester, Study_program.get_semester.
  rewrite find_existsb.
  destruct (find _ _) as [y|]; split.
  - intros _. discriminate.
  - intros _. eexists. reflexivity.
  - intros [msg H]. discriminate.
  - intros H. congruence.
Qed.

Lemma add_semester_refuses_known_number_witness :
  Study_program.get_semester sample_program 2 <> None
  /\ exists msg,
       Study_program.add_semester sample_program (Semester.init 2)
       = Raise (ValueError msg).
Proof.
  split; [discriminate|].
  apply (proj2 (add_semester_refuses_known_number sample_program (Semester.init 2))).
  discriminate.
Defined.

Lemma find_insert_in_order (x : Semester.t) (l : list Semester.t) (n : Z) :
  (forall y, In y l -> Semester.number y <> Semester.number x) ->
  find (fun y => Semester.number y =? n) (Study_program.insert_in_order x l)
  = if Semester.number x =? n then Some x
    else find (fun y => Semester.number y =? n) l.
Proof.
  intros Hx. induction l as [|y l IH].
  - cbn. destruct (Semester.number x =? n); reflexivity.
  - cbn [Study_program.insert_in_order].
    destruct (Semester.number x <? Semester.number y).
    + cbn [find]. reflexivity.
    + cbn [find]. destruct (Z.eqb_spec (Semester.number y) n) as [E|E].
      * assert (Hne : Semester.number y <> Semester.number x)
          by (apply Hx; left; reflexivity).
        destruct (Z.eqb_spec (Semester.number x) n); [lia|reflexivity].
      * apply IH. intros z Hz. apply Hx. right. exact Hz.
Qed.

(** X3. After a successful [add_semester], [get_semester] finds the new
    semester under its number and finds under every other number what it
    found before. *)
Theorem get_semester_after_add (p p' : Study_program.t) (s : Semester.t) :
  Study_program.add_semester p s = Ret p' ->
  Study_program.get_semester p' (Semester.number s) = Some s
  /\ (forall n, n <> Semester.number s ->
        Study_program.get_semester p' n = Study_program.get_semester p n).
Proof.
  unfold Study_program.add_semester. rewrite find_existsb.
  destruct (find _ _) as [y|] eqn:E; [discriminate|].
  intros H. injection H as <-.
  assert (Hx : forall y, In y (Study_program.semesters p) ->
                         Semester.number y <> Semester.number s).
  { apply get_semester_none. exact E. }
  unfold Study_program.get_semester. cbn [Study_program.semesters]. split.
  - rewrite (find_insert_in_order _ _ _ Hx), Z.eqb_refl. reflexivity.
  - intros n Hn. rewrite (find_insert_in_order _ _ _ Hx).
    destruct (Z.eqb_spec (Semester.number s) n); [congruence|reflexivity].
Qed.

Lemma get_semester_after_add_witness :
  (exists p', Study_program.add_semester sample_program (Semester.init 3) = Ret p'
     /\ Study_program.get_semester p' 3 = Some (Semester.init 3)
     /\ Study_program.get_semester p' 4
        = Study_program.get_semester sample_program 4).
Proof.
  eexists. split; [reflexivity|].
  destruct (get_semester_after_add sample_program _ (Semester.init 3) eq_refl)
    as [H1 H2].
  split; [exact H1|]. apply H2. cbn. lia.
Defined.

Lemma filter_ascending (f : Semester.t -> bool) (l : list Semester.t) :
  ascending l -> ascending (filter f l).
Proof.
  unfold ascending. intros H. induction H as [|y l Hl IH Hy]; [constructor|].
  cbn [filter]. destruct (f y); [|exact IH].
  constructor; [exact IH|].
  rewrite Forall_forall in Hy |- *. intros z Hz.
  apply filter_In in Hz as [Hz _]. exact (Hy z Hz).
Qed.

Lemma find_filter {A} (f g : A -> bool) (l : list A) (x : A) :
  find f l = Some x -> g x = true -> find f (filter g l) = Some x.
Proof.
  intros Hf Hg. induction l as [|y l IH]; [discriminate|].
  cbn [find] in Hf. cbn [filter]. destruct (f y) eqn:E.
  - injection Hf as ->. rewrite Hg. cbn [find]. rewrite E. reflexivity.
  - destruct (g y); [cbn [find]; rewrite E|]; exact (IH Hf).
Qed.

(** X4. After [remove_semester] no semester has the given number and no
    semester is empty; every other semester that has modules is kept, in
    the order it had, and a strictly ascending order stays one. *)
Theorem remove_semester_prunes (p : Study_program.t) (n : Z) :
  Study_program.get_semester (Study_program.remove_semester p n) n = None
  /\ Forall (fun s => Semester.modules s <> [])
       (Study_program.semesters (Study_program.remove_semester p n))
  /\ (forall m s, m <> n -> Semester.modules s <> [] ->
        Study_program.get_semester p m = Some s ->
        Study_program.get_semester (Study_program.remove_semester p n) m = Some s)
  /\ all_modules (Study_program.remove_semester p n)
     = flat_map Semester.modules
         (filter (fun s => negb (Semester.number s =? n))
            (Study_program.semesters p))
  /\ (ascending (Study_program.semesters p) ->
      ascending (Study_program.semesters (Study_program.remove_semester p n))).
Proof.
  unfold Study_program.remove_semester, all_modules.
  cbn [Study_program.semesters]. split; [|split; [|split; [|split]]].
  - apply get_semester_none. cbn [Study_program.semesters].
    intros y Hy. apply filter_In in Hy as [Hy _]. apply filter_In in Hy as [_ Hy].
    apply negb_true_iff, Z.eqb_neq in Hy. exact Hy.
  - apply Forall_forall. intros y Hy. apply filter_In in Hy as [_ Hy].
    unfold Study_program.has_modules in Hy.
    destruct (Semester.modules y); [discriminate|discriminate].
  - intros m s Hm Hs Hget. unfold Study_program.get_semester in *.
    cbn [Study_program.semesters].
    pose proof (find_some _ _ Hget) as [_ Hnum]. apply Z.eqb_eq in Hnum.
    apply find_filter.
    + apply find_filter; [exact Hget|].
      apply negb_true_iff, Z.eqb_neq. lia.
    + unfold Study_program.has_modules.
      destruct (Semester.modules s); [contradiction|reflexivity].
  - apply modules_of_nonempty_semesters.
  - intros H. apply filter_ascending, filter_ascending. exact H.
Qed.

Lemma remove_semester_prunes_witness :
  ascending sample_semesters
  /\ map Semester.number
       (Study_program.semesters (Study_program.remove_semester sample_program 2))
     = [1; 4]
  /\ ascending
       (Study_program.semesters (Study_program.remove_semester sample_program 2)).
Proof.
  assert (Hasc : ascending sample_semesters).
  { unfold ascending, sample_semesters.
    repeat (constructor; [|repeat constructor; cbn; lia]). constructor. }
  split; [exact Hasc|]. split; [reflexivity|].
  apply (remove_semester_prunes sample_program 2). exact Hasc.
Defined.

(** ** Adding a module, the success path *)

Lemma update_first_split {A} (p : A -> bool) (f : A -> A) (l : list A) (x : A) :
  find p l = Some x ->
  exists l1 l2, l = (l1 ++ x :: l2)%list
                /\ update_first p f l = (l1 ++ f x :: l2)%list.
Proof.
  induction l as [|y l IH]; [discriminate|].
  cbn [find update_first]. destruct (p y).
  - intros H. injection H as <-. exists [], l. split; reflexivity.
  - intros H. destruct (IH H) as (l1 & l2 & -> & ->).
    exists (y :: l1), l2. split; reflexivity.
Qed.

Lemma insert_in_order_split (x : Semester.t) (l : list Semester.t) :
  exists l1 l2, l = (l1 ++ l2)%list
                /\ Study_program.insert_in_order x l = (l1 ++ x :: l2)%list.
Proof.
  induction l as [|y l IH].
  - exists [], []. split; reflexivity.
  - cbn [Study_program.insert_in_order].
    destruct (Semester.number x <? Semester.number y).
    + exists [], (y :: l). split; reflexivity.
    + destruct IH as (l1 & l2 & -> & ->).
      exists (y :: l1), l2. split; reflexivity.
Qed.

Lemma find_update_other (n m : Z) (f : Semester.t -> Semester.t)
    (l : list Semester.t) :
  (forall y, Semester.number (f y) = Semester.number y) ->
  m <> n ->
  find (fun y => Semester.number y =? m)
    (update_first (fun y => Semester.number y =? n) f l)
  = find (fun y => Semester.number y =? m) l.
Proof.
  intros Hf Hm. induction l as [|y l IH]; [reflexivity|].
  cbn [update_first find].
  destruct (Z.eqb_spec (Semester.number y) n) as [E|E]; cbn [find].
  - rewrite Hf. destruct (Z.eqb_spec (Semester.number y) m); [lia|reflexivity].
  - rewrite IH. reflexivity.
Qed.

Lemma add_module_added
    (sname mn pname : string) (total : Z) (sems : list Semester.t) (goal : json)
    (res : list json) (dk : Disk)
    (n : Z) (name : string) (credits : Z) (exam_type grade_str : string)
    (now : Z) (g : option Grade.t) :
  grade_of_input grade_str = Ret g ->
  let sems' :=
    update_first (fun x => Semester.number x =? n)
      (fun x => Semester.add_module_to_semester x
                  (new_module name credits exam_type now g))
      (with_semester n sems) in
  add_module n name credits exam_type grade_str now
    (MkWorld (Some (Student.Make sname mn (Study_program.Make pname total sems)
                      (Some goal))) res dk)
  = (Ret (true, "Module added successfully."),
     MkWorld
       (Some (Student.Make sname mn (Study_program.Make pname total sems')
                (Some goal)))
       res
       (MkDisk (Stored (JDict [("name", JStr sname);
                               ("matriculation_number", JStr mn);
                               ("study_program",
                                Study_program.to_dict
                                  (Study_program.Make pname total sems'));
                               ("study_goal", goal)]))
          (resources_data dk))).
Proof.
  intros Hg. unfold add_module, bindM at 1, the_student at 1, with_semester,
    new_module.
  cbn [student Student.study_program]. unfold Study_program.get_semester.
  cbn [Study_program.semesters].
  destruct (find (fun x => Semester.number x =? n) sems) as [x|] eqn:E.
  - unfold bindM at 1, ret at 1. rewrite Hg. reflexivity.
  - unfold Study_program.add_semester. rewrite find_existsb.
    cbn [Semester.init Semester.number Study_program.semesters]. rewrite E.
    unfold bindM at 1 2, lift, set_study_program, bindM at 1, the_student at 1.
    cbn. rewrite Hg. reflexivity.
Qed.

Lemma with_semester_finds (n : Z) (l : list Semester.t) :
  exists x, find (fun y => Semester.number y =? n) (with_semester n l) = Some x
    /\ Semester.number x = n
    /\ Semester.modules x
       = match find (fun y => Semester.number y =? n) l with
         | Some y => Semester.modules y
         | None => []
         end.
Proof.
  unfold with_semester.
  destruct (find (fun y => Semester.number y =? n) l) as [x|] eqn:E.
  - exists x. rewrite E. pose proof (find_some _ _ E) as [_ Hn].
    apply Z.eqb_eq in Hn. repeat split. exact Hn.
  - exists (Semester.init n). rewrite find_insert_in_order.
    + cbn [Semester.init Semester.number]. rewrite Z.eqb_refl. repeat split.
    + intros y Hy Hn. pose proof (find_none _ _ E y Hy) as Hf.
      cbn in Hf, Hn. apply Z.eqb_neq in Hf. contradiction.
Qed.

Lemma with_semester_other (n m : Z) (l : list Semester.t) :
  m <> n ->
  find (fun y => Semester.number y =? m) (with_semester n l)
  = find (fun y => Semester.number y =? m) l.
Proof.
  intros Hm. unfold with_semester.
  destruct (find (fun y => Semester.number y =? n) l) as [x|] eqn:E;
    [reflexivity|].
  rewrite find_insert_in_order.
  - cbn [Semester.init Semester.number].
    destruct (Z.eqb_spec n m); [congruence|reflexivity].
  - intros y Hy Hn. pose proof (find_none _ _ E y Hy) as Hf.
    cbn in Hf, Hn. apply Z.eqb_neq in Hf. contradiction.
Qed.

Lemma with_semester_modules (n : Z) (l : list Semester.t) :
  flat_map Semester.modules (with_semester n l) = flat_map Semester.modules l.
Proof.
  unfold with_semester.
  destruct (find (fun y => Semester.number y =? n) l); [reflexivity|].
  destruct (insert_in_order_split (Semester.init n) l) as (l1 & l2 & -> & ->).
  rewrite !flat_map_app. reflexivity.
Qed.

(** X5. A successful [add_module] appends the new module, whose id is made of
    the name and the clock reading, to the semester with the given number
    (a semester made for it if there was none), leaves the semesters with
    other numbers as they were and saves the student. *)
Theorem add_module_appends
    (w : World) (s : Student.t)
    (n : Z) (name : string) (credits : Z) (exam_type grade_str : string)
    (now : Z) (g : option Grade.t) :
  student w = Some s ->
  Student.study_goal s <> None ->
  grade_of_input grade_str = Ret g ->
  fst (add_module n name credits exam_type grade_str now w)
  = Ret (true, "Module added successfully.")
  /\ semester_of n (snd (add_module n name credits exam_type grade_str now w))
     = Some (Semester.Make n
               (match semester_of n w with
                | Some x => Semester.modules x
                | None => []
                end ++ [new_module name credits exam_type now g]))
  /\ (forall m, m <> n ->
        semester_of m (snd (add_module n name credits exam_type grade_str now w))
        = semester_of m w)
  /\ is_saved (snd (add_module n name credits exam_type grade_str now w)).
Proof.
  intros Hs Hgoal Hg.
  destruct w as [st res dk]. cbn [student] in Hs. subst st.
  destruct s as [sname mn [pname total sems] [goal|]]; [clear Hgoal|exfalso; apply Hgoal; reflexivity].
  rewrite (add_module_added _ _ _ _ _ _ _ _ _ _ _ _ _ _ _ Hg).
  unfold semester_of, semesters_of, is_saved.
  cbn [fst snd student disk student_data Student.study_program
       Study_program.semesters].
  split; [reflexivity|].
  destruct (with_semester_finds n sems) as (x & Hfind & Hn & Hmods).
  split; [|split].
  - rewrite (find_update_first (fun y => Semester.number y =? n)
               (fun y => Semester.add_module_to_semester y
                           (new_module name credits exam_type now g))
               _ _ (fun y => eq_refl) Hfind).
    unfold Semester.add_module_to_semester. rewrite Hn, Hmods. reflexivity.
  - intros m Hm. rewrite find_update_other; [|reflexivity|exact Hm].
    apply with_semester_other. exact Hm.
  - eexists _, _. repeat split.
Qed.

Lemma add_module_appends_witness :
  student sample_world = Some sample_student
  /\ Student.study_goal sample_student <> None
  /\ grade_of_input "2.7" = Ret (Some (Grade.Make (JFloat (Fin (27 # 10)))))
  /\ semester_of 4
       (snd (add_module 4 "Linear Algebra" 5 "written" "2.7" 1700000400
               sample_world))
     = Some (Semester.Make 4
               [Modul.Make "module_Thesis_1700000350" "Thesis" 12 "thesis" None;
                Modul.Make "module_Linear_Algebra_1700000400" "Linear Algebra" 5
                  "written" (Some (Grade.Make (JFloat (Fin (27 # 10)))))]).
Proof.
  split; [reflexivity|]. split; [discriminate|]. split; [reflexivity|].
  apply (add_module_appends sample_world sample_student 4 "Linear Algebra" 5
           "written" "2.7" 1700000400 _ eq_refl); [discriminate|reflexivity].
Defined.

Lemma credits_of_semesters (l : list Semester.t) :
  flat_map (fun semester => map Modul.credits (Semester.modules semester)) l
  = map Modul.credits (flat_map Semester.modules l).
Proof.
  induction l as [|s l IH]; [reflexivity|].
  cbn [flat_map]. rewrite map_app, IH. reflexivity.
Qed.

Lemma sum_int_cons (x : Z) (l : list Z) :
  Study_program.sum_int (x :: l) = x + Study_program.sum_int l.
Proof.
  change (x :: l) with ([x] ++ l)%list. rewrite sum_int_app. reflexivity.
Qed.

(** X6. A successful [add_module] puts one module more into the program and
    nothing else: the registered credits grow by its credits and the
    completed credits by its credits if its status is 'passed' or
    'accepted', by nothing otherwise. *)
Theorem add_module_raises_credits
    (w : World) (s : Student.t)
    (n : Z) (name : string) (credits : Z) (exam_type grade_str : string)
    (now : Z) (g : option Grade.t) :
  student w = Some s ->
  Student.study_goal s <> None ->
  grade_of_input grade_str = Ret g ->
  (exists a b,
     modules_of w = (a ++ b)%list
     /\ modules_of (snd (add_module n name credits exam_type grade_str now w))
        = (a ++ new_module name credits exam_type now g :: b)%list)
  /\ fst (get_total_credits
            (snd (add_module n name credits exam_type grade_str now w)))
     = Ret (Study_program.get_total_credits (Student.study_program s) + credits)
  /\ fst (get_completed_credits
            (snd (add_module n name credits exam_type grade_str now w)))
     = Ret (completed_sum (all_modules (Student.study_program s))
            + contribution (new_module name credits exam_type now g)).
Proof.
  intros Hs Hgoal Hg.
  destruct w as [st res dk]. cbn [student] in Hs. subst st.
  destruct s as [sname mn [pname total sems] [goal|]]; [clear Hgoal|exfalso; apply Hgoal; reflexivity].
  rewrite (add_module_added _ _ _ _ _ _ _ _ _ _ _ _ _ _ _ Hg).
  destruct (with_semester_finds n sems) as (x & Hfind & _ & _).
  destruct (update_first_split _
              (fun y => Semester.add_module_to_semester y
                          (new_module name credits exam_type now g))
              _ _ Hfind) as (l1 & l2 & Hl & Hup).
  pose proof (with_semester_modules n sems) as Hmods. rewrite Hl in Hmods.
  rewrite flat_map_app in Hmods. cbn [flat_map] in Hmods.
  rewrite app_assoc in Hmods.
  assert (Hnew : flat_map Semester.modules
                   (update_first (fun y => Semester.number y =? n)
                      (fun y => Semester.add_module_to_semester y
                                  (new_module name credits exam_type now g))
                      (with_semester n sems))
                 = ((flat_map Semester.modules l1 ++ Semester.modules x)
                    ++ new_module name credits exam_type now g
                    :: flat_map Semester.modules l2)%list).
  { rewrite Hup, flat_map_app. cbn [flat_map Semester.add_module_to_semester
                                       Semester.modules].
    rewrite <- !app_assoc. reflexivity. }
  unfold modules_of, semesters_of, get_total_credits, get_completed_credits,
    bindM, the_student, ret, Study_program.get_total_credits, all_modules.
  cbn [fst snd student Student.study_program Study_program.semesters].
  split; [|split].
  - eexists _, _. split; [symmetry; exact Hmods|exact Hnew].
  - rewrite !credits_of_semesters, Hnew, <- Hmods.
    rewrite !map_app, !sum_int_app. cbn [map]. rewrite sum_int_cons.
    cbn [new_module Modul.credits]. f_equal. lia.
  - rewrite completed_credits_of_semesters, Hnew, <- Hmods.
    rewrite !completed_sum_app. f_equal.
    change (new_module name credits exam_type now g :: flat_map Semester.modules l2)
      with ([new_module name credits exam_type now g]
            ++ flat_map Semester.modules l2)%list.
    rewrite completed_sum_app.
    change (completed_sum [new_module name credits exam_type now g])
      with (contribution (new_module name credits exam_type now g) + 0).
    lia.
Qed.

Lemma add_module_raises_credits_witness :
  student sample_world = Some sample_student
  /\ Student.study_goal sample_student <> None
  /\ grade_of_input "2.7" = Ret (Some (Grade.Make (JFloat (Fin (27 # 10)))))
  /\ fst (get_total_credits
            (snd (add_module 4 "Linear Algebra" 5 "written" "2.7" 1700000400
                    sample_world))) = Ret 40
  /\ fst (get_completed_credits
            (snd (add_module 4 "Linear Algebra" 5 "written" "2.7" 1700000400
                    sample_world))) = Ret 17.
Proof.
  split; [reflexivity|]. split; [discriminate|]. split; [reflexivity|].
  destruct (add_module_raises_credits sample_world sample_student 4
              "Linear Algebra" 5 "written" "2.7" 1700000400
              (Some (Grade.Make (JFloat (Fin (27 # 10))))) eq_refl)
    as (_ & Ht & Hc); [discriminate|reflexivity|].
  split; [exact Ht|exact Hc].
Defined.

(** ** Looking a module up and editing its grade *)

Lemma find_split {A} (p : A -> bool) (l : list A) (x : A) :
  find p l = Some x ->
  exists l1 l2, l = (l1 ++ x :: l2)%list /\ p x = true
                /\ (forall y, In y l1 -> p y = false).
Proof.
  induction l as [|y l IH]; [discriminate|].
  cbn [find]. destruct (p y) eqn:E.
  - intros H. injection H as <-. exists [], l. repeat split; [exact E|].
    intros ? [].
  - intros H. destruct (IH H) as (l1 & l2 & -> & Hx & Hl1).
    exists (y :: l1), l2. repeat split; [exact Hx|].
    intros z [<-|Hz]; [exact E|exact (Hl1 z Hz)].
Qed.

Lemma update_first_at {A} (p : A -> bool) (f : A -> A) (l1 l2 : list A) (x : A) :
  p x = true -> (forall y, In y l1 -> p y = false) ->
  update_first p f (l1 ++ x :: l2) = (l1 ++ f x :: l2)%list.
Proof.
  intros Hx Hl1. induction l1 as [|y l1 IH]; cbn [app update_first].
  - rewrite Hx. reflexivity.
  - rewrite (Hl1 y (or_introl eq_refl)), IH; [reflexivity|].
    intros z Hz. apply Hl1. right. exact Hz.
Qed.

(** X7. [find_module_by_id] returns a module that carries the id, together
    with the number of a semester that holds it, and returns nothing
    exactly when no module of the program carries the id; it changes
    nothing. *)
Theorem find_module_by_id_finds (w : World) (s : Student.t) (module_id : string) :
  student w = Some s ->
  exists r,
    find_module_by_id module_id w = (Ret r, w)
    /\ (r = None <-> ~ In module_id (module_ids (Student.study_program s)))
    /\ (forall m n, r = Some (m, n) ->
          Modul.id m = module_id
          /\ exists semester,
               In semester (Study_program.semesters (Student.study_program s))
               /\ Semester.number semester = n
               /\ In m (Semester.modules semester)).
Proof.
  intros Hs. unfold find_module_by_id, bindM, the_student, ret. rewrite Hs.
  eexists. split; [reflexivity|].
  unfold module_ids, all_modules.
  induction (Study_program.semesters (Student.study_program s)) as [|x l IH];
    cbn [find_in_semesters flat_map].
  - split; [split; [intros _ []|reflexivity]|discriminate].
  - destruct (find (has_id module_id) (Semester.modules x)) as [m|] eqn:E.
    + apply find_some in E as [Hin Hid]. apply has_id_true in Hid. split.
      * split; [discriminate|]. intros H. exfalso. apply H.
        rewrite map_app. apply in_or_app. left.
        apply in_map_iff. exists m. split; assumption.
      * intros m' n H. injection H as <- <-. split; [exact Hid|].
        exists x. repeat split; [left; reflexivity|exact Hin].
    + destruct IH as [IH1 IH2]. split.
      * rewrite IH1, map_app, in_app_iff. split.
        -- intros H [Hx|Hl]; [|exact (H Hl)].
           apply in_map_iff in Hx as (m & Hid & Hm).
           pose proof (find_none _ _ E m Hm) as Hf.
           apply has_id_true in Hid. congruence.
        -- intros H Hl. apply H. right. exact Hl.
      * intros m n H. destruct (IH2 m n H) as (Hid & y & Hy & Hn & Hm).
        split; [exact Hid|]. exists y. repeat split; [right; exact Hy|exact Hn|exact Hm].
Qed.

Lemma find_module_by_id_finds_witness :
  student sample_world = Some sample_student
  /\ fst (find_module_by_id "module_Stats_1700000300" sample_world)
     = Ret (Some (Modul.Make "module_Stats_1700000300" "Stats" 4 "written"
                    (Some (Grade.Make (JFloat (of_int 2)))), 2))
  /\ fst (find_module_by_id "module_Unknown_0" sample_world) = Ret None.
Proof.
  split; [reflexivity|].
  destruct (find_module_by_id_finds sample_world sample_student
              "module_Stats_1700000300" eq_refl) as (r & Hr & _).
  destruct (find_module_by_id_finds sample_world sample_student
              "module_Unknown_0" eq_refl) as (r' & Hr' & _).
  split; reflexivity.
Defined.

Lemma find_in_semesters_none (module_id : string) (l : list Semester.t) :
  find_in_semesters module_id l = None <->
  ~ In module_id (map Modul.id (flat_map Semester.modules l)).
Proof.
  induction l as [|x l IH]; cbn [find_in_semesters flat_map].
  - split; [intros _ []|reflexivity].
  - destruct (find (has_id module_id) (Semester.modules x)) as [m|] eqn:E.
    + apply find_some in E as [Hin Hid]. apply has_id_true in Hid.
      split; [discriminate|]. intros H. exfalso. apply H.
      rewrite map_app. apply in_or_app. left.
      apply in_map_iff. exists m. split; assumption.
    + rewrite IH, map_app, in_app_iff. split.
      * intros H [Hx|Hl]; [|exact (H Hl)].
        apply in_map_iff in Hx as (m & Hid & Hm).
        pose proof (find_none _ _ E m Hm) as Hf.
        apply has_id_true in Hid. congruence.
      * intros H Hl. apply H. right. exact Hl.
Qed.

Lemma new_grade_of_input_unreadable (new_grade_str : string) (e : exn) :
  String.eqb (strip new_grade_str) "" = false ->
  String.eqb (lower (strip new_grade_str)) "a" = false ->
  Py.float new_grade_str = Raise e ->
  new_grade_of_input new_grade_str = Raise e /\ exists msg, e = ValueError msg.
Proof.
  intros H1 H2 H3. unfold new_grade_of_input. rewrite H1, H2, H3.
  split; [reflexivity|]. unfold Py.float in H3.
  destruct (float_chars (list_ascii_of_string new_grade_str)); [discriminate|].
  injection H3 as <-. eexists. reflexivity.
Qed.

(** X8. [edit_grade] refuses an id that no module carries with the message
    "Module not found." and an input that is neither blank, nor 'a', nor
    a number that [float] reads, with the grade message; either way it
    changes nothing, neither in memory nor in the files. *)
Theorem edit_grade_refusals
    (w : World) (s : Student.t) (module_id new_grade_str : string) :
  student w = Some s ->
  (~ In module_id (module_ids (Student.study_program s)) ->
   edit_grade module_id new_grade_str w = (Ret (false, "Module not found."), w))
  /\ (forall e,
        In module_id (module_ids (Student.study_program s)) ->
        String.eqb (strip new_grade_str) "" = false ->
        String.eqb (lower (strip new_grade_str)) "a" = false ->
        Py.float new_grade_str = Raise e ->
        edit_grade module_id new_grade_str w
        = (Ret (false, "Not a valid grade or 'a' for accepted. Please try again."),
           w)).
Proof.
  intros Hs.
  assert (Hr : find_module_by_id module_id w
               = (Ret (find_in_semesters module_id
                         (Study_program.semesters (Student.study_program s))), w)).
  { unfold find_module_by_id, bindM, the_student, ret. rewrite Hs. reflexivity. }
  unfold module_ids, all_modules.
  split.
  - intros H. apply find_in_semesters_none in H.
    unfold edit_grade, bindM at 1. rewrite Hr, H. reflexivity.
  - intros e Hin H1 H2 H3.
    destruct (find_in_semesters module_id
                (Study_program.semesters (Student.study_program s)))
      as [r|] eqn:Ef;
      [|exfalso; exact (proj1 (find_in_semesters_none _ _) Ef Hin)].
    destruct (new_grade_of_input_unreadable _ _ H1 H2 H3) as [He [msg ->]].
    unfold edit_grade, bindM at 1. rewrite Hr.
    unfold try_except, bindM at 1, lift. rewrite He. reflexivity.
Qed.

Lemma edit_grade_refusals_witness :
  student sample_world = Some sample_student
  /\ edit_grade "module_Unknown_0" "2.0" sample_world
     = (Ret (false, "Module not found."), sample_world)
  /\ edit_grade "module_Math_1700000000" "good" sample_world
     = (Ret (false, "Not a valid grade or 'a' for accepted. Please try again."),
        sample_world).
Proof.
  split; [reflexivity|].
  destruct (edit_grade_refusals sample_world sample_student
              "module_Unknown_0" "2.0" eq_refl) as [H1 _].
  destruct (edit_grade_refusals sample_world sample_student
              "module_Math_1700000000" "good" eq_refl) as [_ H2].
  split.
  - apply H1. cbn. intuition discriminate.
  - apply (H2 (ValueError "could not convert string to float: 'good'"));
      [cbn; tauto|reflexivity|reflexivity|reflexivity].
Defined.

Lemma assign_grade_split (module_id : string) (g : option Grade.t)
    (l : list Semester.t) (m : Modul.t) (n : Z) :
  find_in_semesters module_id l = Some (m, n) ->
  exists a b,
    flat_map Semester.modules l = (a ++ m :: b)%list
    /\ (forall x, In x a -> Modul.id x <> module_id)
    /\ flat_map Semester.modules (assign_grade module_id g l)
       = (a ++ set_grade g m :: b)%list
    /\ map Semester.number (assign_grade module_id g l)
       = map Semester.number l.
Proof.
  induction l as [|s l IH]; [discriminate|].
  cbn [find_in_semesters assign_grade]. rewrite find_existsb.
  destruct (find (has_id module_id) (Semester.modules s)) as [m'|] eqn:E.
  - intros H. injection H as <- <-.
    destruct (find_split _ _ _ E) as (l1 & l2 & Hl & Hm & Hl1).
    exists l1, (l2 ++ flat_map Semester.modules l)%list.
    cbn [flat_map Semester.modules map Semester.number]. rewrite Hl.
    rewrite (update_first_at _ _ _ _ _ Hm Hl1), <- !app_assoc.
    repeat split. intros x Hx Hid. apply has_id_true in Hid.
    rewrite (Hl1 x Hx) in Hid. discriminate.
  - intros H. destruct (IH H) as (a & b & Hab & Ha & Hnew & Hnum).
    exists (Semester.modules s ++ a)%list, b.
    cbn [flat_map map]. rewrite Hab, Hnew, Hnum, <- !app_assoc.
    repeat split. intros x Hx Hid. apply in_app_or in Hx as [Hx|Hx].
    + pose proof (find_none _ _ E x Hx) as Hf. apply has_id_true in Hid.
      congruence.
    + exact (Ha x Hx Hid).
Qed.

(** X9. A successful [edit_grade] replaces the grade of the first module that
    carries the id by what it read from the input, a blank input giving
    no grade; every other module, the order of the modules and the
    semester numbers stay as they were, and the student is saved. *)
Theorem edit_grade_replaces_one_grade
    (w : World) (s : Student.t) (module_id new_grade_str : string)
    (m : Modul.t) (n : Z) (g : option Grade.t) :
  student w = Some s ->
  Student.study_goal s <> None ->
  fst (find_module_by_id module_id w) = Ret (Some (m, n)) ->
  new_grade_of_input new_grade_str = Ret g ->
  (String.eqb (strip new_grade_str) "" = true -> g = None)
  /\ fst (edit_grade module_id new_grade_str w) = Ret (true, "")
  /\ (exists a b,
        modules_of w = (a ++ m :: b)%list
        /\ (forall x, In x a -> Modul.id x <> module_id)
        /\ modules_of (snd (edit_grade module_id new_grade_str w))
           = (a ++ set_grade g m :: b)%list)
  /\ map Semester.number (semesters_of (snd (edit_grade module_id new_grade_str w)))
     = map Semester.number (semesters_of w)
  /\ is_saved (snd (edit_grade module_id new_grade_str w)).
Proof.
  intros Hs Hgoal Hfind Hg.
  destruct w as [st res dk]. cbn [student] in Hs. subst st.
  destruct s as [sname mn [pname total sems] [goal|]];
    [clear Hgoal|exfalso; apply Hgoal; reflexivity].
  unfold find_module_by_id, bindM, the_student, ret in Hfind.
  cbn [fst student Student.study_program Study_program.semesters] in Hfind.
  injection Hfind as Hfind.
  split.
  { intros Hblank. unfold new_grade_of_input in Hg. rewrite Hblank in Hg.
    congruence. }
  rewrite (edit_grade_found _ _ _ _ _ _ _ _ _ _ _ _ _ Hfind Hg).
  destruct (assign_grade_split module_id g sems m n Hfind)
    as (a & b & Hab & Ha & Hnew & Hnum).
  unfold modules_of, semesters_of, is_saved.
  cbn [fst snd student disk student_data Student.study_program
       Study_program.semesters].
  split; [reflexivity|]. split; [|split].
  - exists a, b. repeat split; assumption.
  - exact Hnum.
  - eexists _, _. repeat split.
Qed.

Lemma edit_grade_replaces_one_grade_witness :
  student sample_world = Some sample_student
  /\ Student.study_goal sample_student <> None
  /\ new_grade_of_input "  " = Ret None
  /\ fst (edit_grade "module_Stats_1700000300" "  " sample_world) = Ret (true, "")
  /\ module_of "module_Stats_1700000300"
       (snd (edit_grade "module_Stats_1700000300" "  " sample_world))
     = Some (Modul.Make "module_Stats_1700000300" "Stats" 4 "written" None).
Proof.
  split; [reflexivity|]. split; [discriminate|]. split; [reflexivity|].
  destruct (edit_grade_replaces_one_grade sample_world sample_student
              "module_Stats_1700000300" "  "
              (Modul.Make "module_Stats_1700000300" "Stats" 4 "written"
                 (Some (Grade.Make (JFloat (of_int 2))))) 2 None eq_refl)
    as (_ & Hret & _); [discriminate|reflexivity|reflexivity|].
  split; [exact Hret|reflexivity].
Defined.

(** ** What the operations keep *)

Lemma ascending_numbers (l : list Semester.t) :
  ascending l <-> StronglySorted Z.lt (map Semester.number l).
Proof.
  unfold ascending. induction l as [|x l IH]; cbn [map].
  - split; constructor.
  - split; intros H; inversion H as [|? ? Hl Hx]; subst; constructor.
    + apply IH. exact Hl.
    + rewrite Forall_forall in Hx |- *. intros n Hn.
      apply in_map_iff in Hn as (y & <- & Hy). exact (Hx y Hy).
    + apply IH. exact Hl.
    + rewrite Forall_forall in Hx |- *. intros y Hy. apply Hx.
      apply in_map. exact Hy.
Qed.

Lemma ascending_same_numbers (l l' : list Semester.t) :
  map Semester.number l' = map Semester.number l -> ascending l -> ascending l'.
Proof. intros E H. apply ascending_numbers. rewrite E. apply ascending_numbers, H. Qed.

Lemma update_first_numbers (p : Semester.t -> bool) (f : Semester.t -> Semester.t)
    (l : list Semester.t) :
  (forall y, Semester.number (f y) = Semester.number y) ->
  map Semester.number (update_first p f l) = map Semester.number l.
Proof.
  intros Hf. induction l as [|y l IH]; [reflexivity|].
  cbn [update_first]. destruct (p y); cbn [map]; [rewrite Hf|rewrite IH];
    reflexivity.
Qed.

Lemma with_semester_ascending (n : Z) (l : list Semester.t) :
  ascending l -> ascending (with_semester n l).
Proof.
  intros H. unfold with_semester.
  destruct (find (fun x => Semester.number x =? n) l) eqn:E; [exact H|].
  apply insert_in_order_ascending; [exact H|].
  intros y Hy Hn. pose proof (find_none _ _ E y Hy) as Hf.
  cbn in Hf, Hn. apply Z.eqb_neq in Hf. contradiction.
Qed.

(** The student in memory after [add_module], whatever it returns. *)
Lemma add_module_world
    (sname mn pname : string) (total : Z) (sems : list Semester.t)
    (goal : option json) (res : list json) (dk : Disk)
    (n : Z) (name : string) (credits : Z) (exam_type grade_str : string)
    (now : Z) :
  exists r dk',
    add_module n name credits exam_type grade_str now
      (MkWorld (Some (Student.Make sname mn (Study_program.Make pname total sems)
                        goal)) res dk)
    = (r,
       MkWorld
         (Some (Student.Make sname mn
                  (Study_program.Make pname total
                     match grade_of_input grade_str with
                     | Ret g =>
                         update_first (fun x => Semester.number x =? n)
                           (fun x => Semester.add_module_to_semester x
                                       (new_module name credits exam_type now g))
                           (with_semester n sems)
                     | Raise _ => with_semester n sems
                     end)
                  goal))
         res dk').
Proof.
  unfold add_module, bindM at 1, the_student at 1, with_semester, new_module.
  cbn [student Student.study_program]. unfold Study_program.get_semester.
  cbn [Study_program.semesters].
  destruct (find (fun x => Semester.number x =? n) sems) as [x|] eqn:E.
  - unfold bindM at 1, ret at 1.
    destruct (grade_of_input grade_str) as [g|e].
    + destruct goal; eexists _, _; reflexivity.
    + destruct e; eexists _, _; reflexivity.
  - unfold Study_program.add_semester. rewrite find_existsb.
    cbn [Semester.init Semester.number Study_program.semesters]. rewrite E.
    unfold bindM at 1 2, lift, set_study_program, bindM at 1, the_student at 1.
    cbn [student].
    destruct (grade_of_input grade_str) as [g|e].
    + destruct goal; eexists _, _; reflexivity.
    + destruct e; eexists _, _; reflexivity.
Qed.

(** The student in memory after [edit_grade], whatever it returns. *)
Lemma edit_grade_world
    (sname mn pname : string) (total : Z) (sems : list Semester.t)
    (goal : option json) (res : list json) (dk : Disk)
    (module_id new_grade_str : string) :
  exists r dk',
    edit_grade module_id new_grade_str
      (MkWorld (Some (Student.Make sname mn (Study_program.Make pname total sems)
                        goal)) res dk)
    = (r,
       MkWorld
         (Some (Student.Make sname mn
                  (Study_program.Make pname total
                     match find_in_semesters module_id sems,
                           new_grade_of_input new_grade_str with
                     | Some _, Ret g => assign_grade module_id g sems
                     | _, _ => sems
                     end)
                  goal))
         res dk').
Proof.
  unfold edit_grade, find_module_by_id, bindM at 1 2, the_student at 1, ret at 1.
  cbn [student Student.study_program Study_program.semesters].
  destruct (find_in_semesters module_id sems) as [found|];
    [|eexists _, _; reflexivity].
  unfold try_except, bindM at 1, lift.
  destruct (new_grade_of_input new_grade_str) as [g|e].
  - destruct goal; eexists _, _; reflexivity.
  - destruct e; eexists _, _; reflexivity.
Qed.

(** The student in memory after [delete_module], whatever it returns. *)
Lemma delete_module_world
    (sname mn pname : string) (total : Z) (sems : list Semester.t)
    (goal : option json) (res : list json) (dk : Disk) (module_id : string) :
  exists r dk',
    delete_module module_id
      (MkWorld (Some (Student.Make sname mn (Study_program.Make pname total sems)
                        goal)) res dk)
    = (r,
       MkWorld
         (Some (Student.Make sname mn
                  (Study_program.Make pname total
                     match owning_semester module_id [] sems with
                     | None => sems
                     | Some (before, semester, rest) =>
                         match filter (fun x => negb (has_id module_id x))
                                 (Semester.modules semester) with
                         | [] =>
                             filter Study_program.has_modules
                               (filter
                                  (fun x => negb (Semester.number x
                                                  =? Semester.number semester))
                                  (before
                                   ++ Semester.Make (Semester.number semester) []
                                   :: rest))
                         | y :: kept =>
                             (before
                              ++ Semester.Make (Semester.number semester)
                                   (y :: kept)
                              :: rest)%list
                         end
                     end)
                  goal))
         res dk').
Proof.
  unfold delete_module, bindM at 1, the_student at 1.
  cbn [student Student.study_program Study_program.semesters].
  destruct (owning_semester module_id [] sems) as [[[before semester] rest]|];
    [|eexists _, _; reflexivity].
  cbn [Semester.modules].
  destruct (filter (fun x => negb (has_id module_id x)) (Semester.modules semester));
    destruct goal; eexists _, _; reflexivity.
Qed.

Lemma assign_grade_numbers (module_id : string) (g : option Grade.t)
    (l : list Semester.t) :
  map Semester.number (assign_grade module_id g l) = map Semester.number l.
Proof.
  induction l as [|x l IH]; [reflexivity|].
  cbn [assign_grade].
  destruct (existsb (has_id module_id) (Semester.modules x)); cbn [map];
    [reflexivity|rewrite IH; reflexivity].
Qed.

Lemma owning_semester_numbers (module_id : string) (sems before rest : list Semester.t)
    (semester : Semester.t) (kept : list Modul.t) :
  owning_semester module_id [] sems = Some (before, semester, rest) ->
  map Semester.number
    (before ++ Semester.Make (Semester.number semester) kept :: rest)
  = map Semester.number sems.
Proof.
  intros H. destruct (owning_semester_some _ _ _ _ _ _ H)
    as (passed & modul & -> & -> & _).
  cbn [app]. rewrite !map_app. reflexivity.
Qed.

(** X10. The operations that change the program keep the semesters in strictly
    ascending order of their numbers, whatever they return. *)
Theorem operations_keep_order (w : World) :
  ascending (semesters_of w) ->
  (forall n name credits exam_type grade_str now,
      ascending
        (semesters_of (snd (add_module n name credits exam_type grade_str now w))))
  /\ (forall module_id new_grade_str,
        ascending (semesters_of (snd (edit_grade module_id new_grade_str w))))
  /\ (forall module_id,
        ascending (semesters_of (snd (delete_module module_id w)))).
Proof.
  intros Hasc. destruct w as [[s|] res dk]; [|repeat split; intros; exact Hasc].
  destruct s as [sname mn [pname total sems] goal].
  unfold semesters_of in Hasc.
  cbn [student Student.study_program Study_program.semesters] in Hasc.
  split; [|split].
  - intros n name credits exam_type grade_str now.
    destruct (add_module_world sname mn pname total sems goal res dk
                n name credits exam_type grade_str now) as (r & dk' & ->).
    unfold semesters_of.
    cbn [snd student Student.study_program Study_program.semesters].
    destruct (grade_of_input grade_str).
    + apply (ascending_same_numbers (with_semester n sems)).
      * apply update_first_numbers. reflexivity.
      * apply with_semester_ascending, Hasc.
    + apply with_semester_ascending, Hasc.
  - intros module_id new_grade_str.
    destruct (edit_grade_world sname mn pname total sems goal res dk
                module_id new_grade_str) as (r & dk' & ->).
    unfold semesters_of.
    cbn [snd student Student.study_program Study_program.semesters].
    destruct (find_in_semesters module_id sems); [|exact Hasc].
    destruct (new_grade_of_input new_grade_str); [|exact Hasc].
    apply (ascending_same_numbers sems); [apply assign_grade_numbers|exact Hasc].
  - intros module_id.
    destruct (delete_module_world sname mn pname total sems goal res dk module_id)
      as (r & dk' & ->).
    unfold semesters_of.
    cbn [snd student Student.study_program Study_program.semesters].
    destruct (owning_semester module_id [] sems) as [[[before semester] rest]|] eqn:Eo;
      [|exact Hasc].
    destruct (filter (fun x => negb (has_id module_id x)) (Semester.modules semester)).
    + apply filter_ascending, filter_ascending.
      apply (ascending_same_numbers sems); [|exact Hasc].
      apply (owning_semester_numbers _ _ _ _ _ _ Eo).
    + apply (ascending_same_numbers sems); [|exact Hasc].
      apply (owning_semester_numbers _ _ _ _ _ _ Eo).
Qed.

Lemma operations_keep_order_witness :
  ascending (semesters_of sample_world)
  /\ ascending
       (semesters_of
          (snd (add_module 3 "Algebra" 5 "written" "2.0" 1700000400 sample_world)))
  /\ map Semester.number
       (semesters_of
          (snd (add_module 3 "Algebra" 5 "written" "2.0" 1700000400 sample_world)))
     = [1; 2; 3; 4].
Proof.
  assert (Hasc : ascending (semesters_of sample_world)).
  { unfold ascending. cbn.
    repeat (constructor; [|repeat constructor; cbn; lia]). constructor. }
  split; [exact Hasc|]. split; [|reflexivity].
  apply (operations_keep_order sample_world Hasc).
Defined.

Lemma update_first_nonempty (p : Semester.t -> bool) (m : Modul.t)
    (l : list Semester.t) :
  Forall (fun x => Semester.modules x <> []) l ->
  Forall (fun x => Semester.modules x <> [])
    (update_first p (fun x => Semester.add_module_to_semester x m) l).
Proof.
  intros H. induction H as [|x l Hx Hl IH]; [constructor|].
  cbn [update_first]. destruct (p x); constructor; try assumption.
  cbn [Semester.add_module_to_semester Semester.modules].
  intros E. apply app_eq_nil in E as [_ E]. discriminate.
Qed.

Lemma fill_new_semester (n : Z) (m : Modul.t) (l : list Semester.t) :
  (forall y, In y l -> Semester.number y <> n) ->
  Forall (fun x => Semester.modules x <> []) l ->
  Forall (fun x => Semester.modules x <> [])
    (update_first (fun x => Semester.number x =? n)
       (fun x => Semester.add_module_to_semester x m)
       (Study_program.insert_in_order (Semester.init n) l)).
Proof.
  intros Hn H. induction H as [|x l Hx Hl IH].
  - cbn. rewrite Z.eqb_refl. repeat constructor. discriminate.
  - cbn [Study_program.insert_in_order Semester.init Semester.number].
    destruct (n <? Semester.number x).
    + cbn [update_first Semester.number]. rewrite Z.eqb_refl.
      constructor; [discriminate|]. constructor; assumption.
    + cbn [update_first].
      destruct (Z.eqb_spec (Semester.number x) n) as [E|E].
      * exfalso. exact (Hn x (or_introl eq_refl) E).
      * constructor; [exact Hx|]. apply IH.
        intros y Hy. apply Hn. right. exact Hy.
Qed.

Lemma assign_grade_nonempty (module_id : string) (g : option Grade.t)
    (l : list Semester.t) :
  Forall (fun x => Semester.modules x <> []) l ->
  Forall (fun x => Semester.modules x <> []) (assign_grade module_id g l).
Proof.
  intros H. induction H as [|x l Hx Hl IH]; [constructor|].
  cbn [assign_grade].
  destruct (existsb (has_id module_id) (Semester.modules x));
    constructor; try assumption.
  cbn [Semester.modules]. destruct (Semester.modules x) as [|y ms];
    [contradiction|].
  cbn [update_first]. destruct (has_id module_id y); discriminate.
Qed.

(** X11. A program without an empty semester stays without one under
    [edit_grade], under [delete_module] and under an [add_module] whose
    grade input is accepted, whatever they return; [delete_module] that
    empties a semester also removes every other empty semester. *)
Theorem operations_leave_no_empty_semester (w : World) :
  Forall (fun x => Semester.modules x <> []) (semesters_of w) ->
  (forall n name credits exam_type grade_str now g,
      grade_of_input grade_str = Ret g ->
      Forall (fun x => Semester.modules x <> [])
        (semesters_of (snd (add_module n name credits exam_type grade_str now w))))
  /\ (forall module_id new_grade_str,
        Forall (fun x => Semester.modules x <> [])
          (semesters_of (snd (edit_grade module_id new_grade_str w))))
  /\ (forall module_id,
        Forall (fun x => Semester.modules x <> [])
          (semesters_of (snd (delete_module module_id w)))).
Proof.
  intros Hne. destruct w as [[s|] res dk]; [|repeat split; intros; exact Hne].
  destruct s as [sname mn [pname total sems] goal].
  unfold semesters_of in Hne.
  cbn [student Student.study_program Study_program.semesters] in Hne.
  split; [|split].
  - intros n name credits exam_type grade_str now g Hg.
    destruct (add_module_world sname mn pname total sems goal res dk
                n name credits exam_type grade_str now) as (r & dk' & ->).
    unfold semesters_of.
    cbn [snd student Student.study_program Study_program.semesters].
    rewrite Hg. unfold with_semester.
    destruct (find (fun x => Semester.number x =? n) sems) eqn:E.
    + apply update_first_nonempty, Hne.
    + apply fill_new_semester; [|exact Hne].
      intros y Hy Hn. pose proof (find_none _ _ E y Hy) as Hf.
      cbn in Hf. apply Z.eqb_neq in Hf. contradiction.
  - intros module_id new_grade_str.
    destruct (edit_grade_world sname mn pname total sems goal res dk
                module_id new_grade_str) as (r & dk' & ->).
    unfold semesters_of.
    cbn [snd student Student.study_program Study_program.semesters].
    destruct (find_in_semesters module_id sems); [|exact Hne].
    destruct (new_grade_of_input new_grade_str); [|exact Hne].
    apply assign_grade_nonempty, Hne.
  - intros module_id.
    destruct (delete_module_world sname mn pname total sems goal res dk module_id)
      as (r & dk' & ->).
    unfold semesters_of.
    cbn [snd student Student.study_program Study_program.semesters].
    destruct (owning_semester module_id [] sems) as [[[before semester] rest]|] eqn:Eo;
      [|exact Hne].
    destruct (owning_semester_some _ _ _ _ _ _ Eo)
      as (passed & modul & -> & -> & _). cbn [app].
    destruct (filter (fun x => negb (has_id module_id x)) (Semester.modules semester)).
    + apply Forall_forall. intros y Hy. apply filter_In in Hy as [_ Hy].
      unfold Study_program.has_modules in Hy.
      destruct (Semester.modules y); discriminate.
    + apply Forall_app in Hne as [Hp Hr]. apply Forall_app. split; [exact Hp|].
      inversion Hr; subst. constructor; [discriminate|assumption].
Qed.

Lemma operations_leave_no_empty_semester_witness :
  Forall (fun x => Semester.modules x <> []) (semesters_of sample_world)
  /\ Forall (fun x => Semester.modules x <> [])
       (semesters_of (snd (delete_module "module_Thesis_1700000350" sample_world)))
  /\ map Semester.number
       (semesters_of (snd (delete_module "module_Thesis_1700000350" sample_world)))
     = [1; 2].
Proof.
  assert (Hne : Forall (fun x => Semester.modules x <> [])
                  (semesters_of sample_world)).
  { cbn. repeat (constructor; [discriminate|]). constructor. }
  split; [exact Hne|]. split; [|reflexivity].
  apply (operations_leave_no_empty_semester sample_world Hne).
Defined.

(** ** The resource list *)

Lemma remove_at_last {A} (l : list A) (x : A) :
  remove_at (length l) (l ++ [x]) = l.
Proof.
  induction l as [|y l IH]; [reflexivity|].
  cbn [length app remove_at]. rewrite IH. reflexivity.
Qed.

Lemma pop_last {A} (l : list A) (x : A) : pop (l ++ [x]) (-1) = Ret l.
Proof.
  unfold pop. destruct (l ++ [x])%list as [|y l'] eqn:E.
  - destruct l; discriminate.
  - rewrite <- E. rewrite length_app. cbn [length].
    replace (-1 <? 0) with true by reflexivity.
    assert (Hj : -1 + Z.of_nat (length l + 1) = Z.of_nat (length l)) by lia.
    rewrite Hj.
    assert (E1 : (Z.of_nat (length l) <? 0) = false) by (apply Z.ltb_ge; lia).
    assert (E2 : (Z.of_nat (length l + 1) <=? Z.of_nat (length l)) = false)
      by (apply Z.leb_gt; lia).
    rewrite E1, E2. cbn [orb]. rewrite Nat2Z.id, remove_at_last. reflexivity.
Qed.

(** X12. [delete_resource(-1)] undoes [add_resource]: it returns True and the
    stored list is again the one before the entry was added; the student
    in memory and the student file are not touched by either call. *)
Theorem add_then_delete_last_resource
    (w : World) (l : list json) (name url : string) :
  stored_resources w = Ret l ->
  fst (delete_resource (-1) (snd (add_resource name url w))) = Ret true
  /\ stored_resources (snd (delete_resource (-1) (snd (add_resource name url w))))
     = Ret l
  /\ student (snd (delete_resource (-1) (snd (add_resource name url w))))
     = student w
  /\ student_data (disk (snd (delete_resource (-1) (snd (add_resource name url w)))))
     = student_data (disk w).
Proof.
  unfold stored_resources, add_resource. intros H. rewrite H.
  unfold delete_resource.
  cbn [snd disk load_resources save_resources resources_data getitem lookup
       String.eqb Ascii.eqb Bool.eqb bind as_list].
  rewrite pop_last. repeat split.
Qed.

Lemma add_then_delete_last_resource_witness :
  stored_resources sample_world
  = Ret [JDict [("name", JStr "Library"); ("url", JStr "https://lib.example")];
         JDict [("name", JStr "Campus"); ("url", JStr "https://campus.example")]]
  /\ stored_resources
       (snd (delete_resource (-1)
               (snd (add_resource "Wiki" "https://wiki.example" sample_world))))
     = stored_resources sample_world.
Proof.
  split; [reflexivity|].
  apply (add_then_delete_last_resource sample_world _ "Wiki"
           "https://wiki.example" eq_refl).
Defined.

(** X13. [open_resource] never raises [IndexError]: outside [0 <= index <
    len(self.resources)], negative indices included, it returns False and
    opens nothing; inside, it hands the 'url' of the entry at that index
    to the browser and returns True, or raises what reading 'url' from
    the entry raises. *)
Theorem open_resource_bounds (w : World) (index : Z) :
  (index < 0 \/ Z.of_nat (length (resources w)) <= index ->
   open_resource index w = (Ret false, []))
  /\ (0 <= index < Z.of_nat (length (resources w)) ->
      exists resource,
        nth_error (resources w) (Z.to_nat index) = Some resource
        /\ open_resource index w
           = match getitem resource "url" with
             | Ret resource_url => (Ret true, [resource_url])
             | Raise e => (Raise e, [])
             end).
Proof.
  unfold open_resource. split.
  - intros H.
    assert (E : (0 <=? index) && (index <? Z.of_nat (length (resources w))) = false).
    { apply andb_false_iff. destruct H; [left; apply Z.leb_gt|right; apply Z.ltb_ge];
        lia. }
    rewrite E. reflexivity.
  - intros H.
    assert (E : (0 <=? index) && (index <? Z.of_nat (length (resources w))) = true).
    { apply andb_true_iff. split; [apply Z.leb_le|apply Z.ltb_lt]; lia. }
    rewrite E.
    destruct (nth_error (resources w) (Z.to_nat index)) as [r|] eqn:En.
    + exists r. split; reflexivity.
    + apply nth_error_None in En. lia.
Qed.

Lemma open_resource_bounds_witness :
  open_resource (-1) (snd (get_resources sample_world)) = (Ret false, [])
  /\ open_resource 2 (snd (get_resources sample_world)) = (Ret false, [])
  /\ open_resource 1 (snd (get_resources sample_world))
     = (Ret true, [JStr "https://campus.example"]).
Proof.
  split; [|split].
  - apply (proj1 (open_resource_bounds (snd (get_resources sample_world)) (-1))).
    left. lia.
  - apply (proj1 (open_resource_bounds (snd (get_resources sample_world)) 2)).
    right. cbn. lia.
  - destruct (proj2 (open_resource_bounds (snd (get_resources sample_world)) 1))
      as (r & Hr & Ho); [cbn; lia|].
    cbn in Hr. injection Hr as <-. exact Ho.
Defined.

(** X14. [open_resource] sees the list that [get_resources] fetched last, not
    the file: on a facade just constructed it refuses every index, and an
    entry that [add_resource] has stored is refused until [get_resources]
    has run, after which its index opens its url. *)
Theorem open_resource_reads_the_fetched_list :
  (forall d w index, Logic.init d = (Ret tt, w) ->
     open_resource index w = (Ret false, []))
  /\ (forall w l name url,
        stored_resources w = Ret l ->
        resources (snd (add_resource name url w)) = resources w
        /\ open_resource (Z.of_nat (length l))
             (snd (get_resources (snd (add_resource name url w))))
           = (Ret true, [JStr url])).
Proof.
  split.
  - intros d w index H.
    assert (Hres : resources w = []).
    { unfold Logic.init, initialize_data in H. cbn [disk] in H.
      destruct (load_student_data d) as [s|e].
      - cbn in H. injection H as <-. reflexivity.
      - destruct e; cbn in H; try discriminate. }
    unfold open_resource. rewrite Hres. cbn [length Z.of_nat].
    destruct (Z.leb_spec 0 index); [|reflexivity].
    destruct (Z.ltb_spec index 0); [lia|reflexivity].
  - intros w l name url H. split; [unfold add_resource; unfold stored_resources in H;
                                   rewrite H; reflexivity|].
    unfold stored_resources, add_resource in *. rewrite H.
    unfold get_resources, open_resource.
    cbn [snd disk load_resources save_resources resources_data getitem lookup
         String.eqb Ascii.eqb Bool.eqb bind as_list resources].
    rewrite length_app. cbn [length].
    assert (E : (0 <=? Z.of_nat (length l))
                && (Z.of_nat (length l) <? Z.of_nat (length l + 1)) = true).
    { apply andb_true_iff. split; [apply Z.leb_le|apply Z.ltb_lt]; lia. }
    rewrite E, Nat2Z.id, nth_error_app2, Nat.sub_diag; [|lia].
    reflexivity.
Qed.

Lemma open_resource_reads_the_fetched_list_witness :
  Logic.init sample_disk = (Ret tt, sample_world)
  /\ open_resource 0 sample_world = (Ret false, [])
  /\ stored_resources sample_world
     = Ret [JDict [("name", JStr "Library"); ("url", JStr "https://lib.example")];
            JDict [("name", JStr "Campus"); ("url", JStr "https://campus.example")]]
  /\ open_resource 2
       (snd (get_resources
               (snd (add_resource "Wiki" "https://wiki.example" sample_world))))
     = (Ret true, [JStr "https://wiki.example"]).
Proof.
  split; [reflexivity|]. split.
  - apply (proj1 open_resource_reads_the_fetched_list sample_disk sample_world 0).
    reflexivity.
  - split; [reflexivity|].
    apply (proj2 open_resource_reads_the_fetched_list sample_world _ "Wiki"
             "https://wiki.example" eq_refl).
Defined.

Lemma Resource_from_to_dict_run (r : Resource.t) :
  Resource.from_dict (Resource.to_dict r) = Ret r.
Proof. destruct r. reflexivity. Qed.

(** X15. A resource written by [to_dict] is read back by [from_dict]; a dict
    without 'name' raises KeyError 'name', and one with a name but without
    'url' raises KeyError 'url'. *)
Theorem Resource_round_trip :
  (forall r, Resource.from_dict (Resource.to_dict r) = Ret r)
  /\ (forall items, lookup "name" items = None ->
        Resource.from_dict (JDict items) = Raise (KeyError "name"))
  /\ (forall items name, lookup "name" items = Some (JStr name) ->
        lookup "url" items = None ->
        Resource.from_dict (JDict items) = Raise (KeyError "url")).
Proof.
  split; [exact Resource_from_to_dict_run|]. split.
  - intros items H. unfold Resource.from_dict, getitem. rewrite H. reflexivity.
  - intros items name H1 H2. unfold Resource.from_dict, getitem.
    rewrite H1, H2. reflexivity.
Qed.

Lemma Resource_round_trip_witness :
  Resource.from_dict (JDict [("url", JStr "https://lib.example")])
  = Raise (KeyError "name")
  /\ Resource.from_dict (JDict [("name", JStr "Library")])
     = Raise (KeyError "url").
Proof.
  split.
  - apply (proj1 (proj2 Resource_round_trip)). reflexivity.
  - apply (proj2 (proj2 Resource_round_trip)) with (name := "Library");
      reflexivity.
Defined.

(** ** The student profile, the constructor and a restart *)

(** X16. [update_student_info] returns True for a facade that holds a student,
    after which [get_student_info] returns exactly the four values given;
    the semesters and the stored total are untouched, the resources file
    is untouched and the student is saved, also when [study_goal] was not
    set before. Without a student it returns False and changes nothing. *)
Theorem update_then_get_student_info
    (w : World) (name matriculation_number study_program : string)
    (study_goal : json) :
  (forall s, student w = Some s ->
     fst (update_student_info name matriculation_number study_program
            study_goal w) = Ret true
     /\ fst (get_student_info
               (snd (update_student_info name matriculation_number
                       study_program study_goal w)))
        = Ret (Some (JDict [("name", JStr name);
                            ("matriculation_number", JStr matriculation_number);
                            ("study_program", JStr study_program);
                            ("study_goal", study_goal)]))
     /\ semesters_of (snd (update_student_info name matriculation_number
                             study_program study_goal w))
        = semesters_of w
     /\ resources_data (disk (snd (update_student_info name matriculation_number
                                     study_program study_goal w)))
        = resources_data (disk w)
     /\ is_saved (snd (update_student_info name matriculation_number
                         study_program study_goal w)))
  /\ (student w = None ->
      update_student_info name matriculation_number study_program study_goal w
      = (Ret false, w)).
Proof.
  destruct w as [[s|] res dk]; split.
  - intros s' _. unfold update_student_info, semesters_of, is_saved.
    cbn. repeat split. eexists _, _. repeat split.
  - discriminate.
  - discriminate.
  - reflexivity.
Qed.

Lemma update_then_get_student_info_witness :
  student sample_world = Some sample_student
  /\ fst (get_student_info
            (snd (update_student_info "Ann B." "424242" "Data Science"
                    (JFloat (Fin (3 # 2))) sample_world)))
     = Ret (Some (JDict [("name", JStr "Ann B.");
                         ("matriculation_number", JStr "424242");
                         ("study_program", JStr "Data Science");
                         ("study_goal", JFloat (Fin (3 # 2)))])).
Proof.
  split; [reflexivity|].
  apply (proj1 (update_then_get_student_info sample_world "Ann B." "424242"
                  "Data Science" (JFloat (Fin (3 # 2)))) sample_student eq_refl).
Defined.

Lemma Student_from_to_dict_run (s : Student.t) (doc : json) :
  Student.to_dict s = Ret doc -> Student.from_dict doc = Ret (as_loaded s).
Proof.
  destruct s as [n mn p [g|]]; unfold Student.to_dict;
    cbn [Student.study_goal]; [|discriminate].
  intros H. injection H as <-. unfold Student.from_dict.
  cbn [getitem get lookup String.eqb Ascii.eqb Bool.eqb bind as_str
       Student.name Student.matriculation_number Student.study_program
       Student.study_goal].
  rewrite Study_program_from_to_dict. reflexivity.
Qed.

(** X17. A restart after a save: the constructor, run on the files of a world
    whose student is saved, returns and holds the same student with the
    same semesters and modules; only the stored total of the program is
    recomputed and the fetched resource list is empty again. *)
Theorem restart_after_save (w : World) (s : Student.t) :
  student w = Some s ->
  is_saved w ->
  Logic.init (disk w) = (Ret tt, MkWorld (Some (as_loaded s)) [] (disk w))
  /\ semesters_of (snd (Logic.init (disk w))) = semesters_of w.
Proof.
  intros Hs (s' & doc & Hs' & Hdoc & Hfile).
  rewrite Hs in Hs'. injection Hs' as <-.
  assert (E : Logic.init (disk w)
              = (Ret tt, MkWorld (Some (as_loaded s)) [] (disk w))).
  { unfold Logic.init, initialize_data, load_student_data. cbn [disk].
    rewrite Hfile, (Student_from_to_dict_run _ _ Hdoc). reflexivity. }
  split; [exact E|]. rewrite E. unfold semesters_of. cbn [snd student].
  rewrite Hs. reflexivity.
Qed.

Lemma restart_after_save_witness :
  student sample_world = Some sample_student
  /\ is_saved sample_world
  /\ Logic.init (disk sample_world) = (Ret tt, sample_world).
Proof.
  assert (Hsaved : is_saved sample_world).
  { exists sample_student, sample_document. repeat split. }
  split; [reflexivity|]. split; [exact Hsaved|].
  exact (proj1 (restart_after_save sample_world sample_student eq_refl Hsaved)).
Defined.

Lemma Study_program_loaded_total (data : json) (p : Study_program.t) :
  Study_program.from_dict data = Ret p ->
  Study_program.total_credits p = Study_program.get_total_credits p.
Proof.
  unfold Study_program.from_dict.
  destruct (v <- getitem data "name" ;; as_str v) as [name|]; [|discriminate].
  cbn [bind].
  destruct (get data "total_credits" (JInt 0)); [|discriminate]. cbn [bind].
  destruct (v <- get data "semesters" (JList []) ;; as_list v) as [docs|];
    [|discriminate].
  cbn [bind].
  destruct (traverse Semester.from_dict docs) as [sems|]; [|discriminate].
  cbn [bind]. intros H. injection H as <-. reflexivity.
Qed.

(** X18. When the constructor returns, the facade holds a student whose
    [study_goal] is set and whose stored total is the sum of the credits
    of its modules; nothing is fetched yet and no file has been written. *)
Theorem constructed_facade (d : Disk) (w : World) :
  Logic.init d = (Ret tt, w) ->
  exists s goal,
    student w = Some s
    /\ Student.study_goal s = Some goal
    /\ Study_program.total_credits (Student.study_program s)
       = Study_program.get_total_credits (Student.study_program s)
    /\ load_student_data d = Ret s
    /\ resources w = []
    /\ disk w = d.
Proof.
  unfold Logic.init, initialize_data. cbn [disk].
  destruct (load_student_data d) as [s|e] eqn:E.
  - cbn. intros H. injection H as <-. pose proof E as E0.
    unfold load_student_data in E.
    destruct (student_data d) as [| |doc]; try discriminate.
    unfold Student.from_dict in E.
    destruct (v <- getitem doc "study_program" ;; Study_program.from_dict v)
      as [p|] eqn:Ep; [|discriminate].
    cbn [bind] in E.
    destruct (v <- getitem doc "name" ;; as_str v); [|discriminate].
    cbn [bind] in E.
    destruct (v <- getitem doc "matriculation_number" ;; as_str v);
      [|discriminate].
    cbn [bind] in E.
    destruct (get doc "study_goal" (JFloat (of_int 0))) as [goal|];
      [|discriminate].
    cbn [bind] in E. injection E as <-.
    exists (Student.Make a a0 p (Some goal)), goal.
    split; [reflexivity|]. split; [reflexivity|]. split; [|repeat split; exact E0].
    cbn [Student.study_program].
    destruct (getitem doc "study_program") as [v|]; [|discriminate].
    cbn [bind] in Ep. exact (Study_program_loaded_total _ _ Ep).
  - destruct e; cbn; discriminate.
Qed.

Lemma constructed_facade_witness :
  Logic.init sample_disk = (Ret tt, sample_world)
  /\ exists s goal,
       student sample_world = Some s /\ Student.study_goal s = Some goal.
Proof.
  split; [reflexivity|].
  destruct (constructed_facade sample_disk sample_world eq_refl)
    as (s & goal & Hs & Hg & _).
  exists s, goal. split; assumption.
Defined.

(** ** Every world the facade can reach *)

Lemma add_module_returns
    (sname mn pname : string) (total : Z) (sems : list Semester.t) (goal : json)
    (res : list json) (dk : Disk)
    (n : Z) (name : string) (credits : Z) (exam_type grade_str : string)
    (now : Z) :
  exists r,
    fst (add_module n name credits exam_type grade_str now
           (MkWorld (Some (Student.Make sname mn
                             (Study_program.Make pname total sems) (Some goal)))
              res dk)) = Ret r.
Proof.
  destruct (grade_of_input grade_str) as [g|e] eqn:Hg.
  - rewrite (add_module_added _ _ _ _ _ _ _ _ _ _ _ _ _ _ _ Hg).
    eexists. reflexivity.
  - destruct (Study_program.get_semester (Study_program.Make pname total sems) n)
      as [x|] eqn:E.
    + erewrite add_module_refused_in_known_semester;
        [eexists; reflexivity|reflexivity|exact E|exact Hg].
    + erewrite add_module_refused_in_new_semester;
        [eexists; reflexivity|reflexivity|exact E|exact Hg].
Qed.

Lemma init_holds_student (d : Disk) (w : World) :
  Logic.init d = (Ret tt, w) -> holds_student w.
Proof.
  unfold Logic.init, initialize_data, holds_student. cbn [disk].
  destruct (load_student_data d) as [s|e] eqn:E.
  - cbn. intros H. injection H as <-. cbn [student].
    unfold load_student_data in E.
    destruct (student_data d) as [| |doc]; try discriminate.
    unfold Student.from_dict in E.
    destruct (v <- getitem doc "study_program" ;; Study_program.from_dict v);
      [|discriminate].
    cbn [bind] in E.
    destruct (v <- getitem doc "name" ;; as_str v); [|discriminate].
    cbn [bind] in E.
    destruct (v <- getitem doc "matriculation_number" ;; as_str v);
      [|discriminate].
    cbn [bind] in E.
    destruct (get doc "study_goal" (JFloat (of_int 0))) as [goal|];
      [|discriminate].
    cbn [bind] in E. injection E as <-. eexists _, _. split; reflexivity.
  - destruct e; cbn; discriminate.
Qed.

Lemma step_holds_student (w w' : World) :
  holds_student w -> step w w' -> holds_student w'.
Proof.
  intros (s & goal & Hs & Hg) Hstep.
  destruct w as [st res dk]. cbn [student] in Hs. subst st.
  destruct s as [sname mn [pname total sems] sg]. cbn [Student.study_goal] in Hg.
  subst sg. unfold holds_student.
  destruct Hstep.
  - destruct (add_module_world sname mn pname total sems (Some goal) res dk
                n name credits exam_type grade_str now) as (r & dk' & ->).
    eexists _, _. split; reflexivity.
  - destruct (edit_grade_world sname mn pname total sems (Some goal) res dk
                module_id new_grade_str) as (r & dk' & ->).
    eexists _, _. split; reflexivity.
  - destruct (delete_module_world sname mn pname total sems (Some goal) res dk
                module_id) as (r & dk' & ->).
    eexists _, _. split; reflexivity.
  - eexists _, _. split; reflexivity.
  - unfold get_resources. cbn [disk student].
    destruct (load_resources dk) as [l|e]; [|destruct e];
      eexists _, _; split; reflexivity.
  - unfold add_resource. cbn [disk student].
    destruct (load_resources dk) as [l|e]; eexists _, _; split; reflexivity.
  - unfold delete_resource. cbn [disk student].
    destruct (load_resources dk) as [l|e]; [|eexists _, _; split; reflexivity].
    destruct (pop l index) as [l'|e]; [|destruct e];
      eexists _, _; split; reflexivity.
Qed.

(** X19. In every world the facade can reach it holds a student whose
    [study_goal] is set, so the student can always be written out as a
    document: the missing attribute of the first run cannot come back.
    There [get_student_info] returns the info, [add_module] returns its
    pair, and [get_total_credits] and [get_completed_credits] return. *)
Theorem reachable_holds_student (w : World) :
  reachable w ->
  (exists s goal doc,
     student w = Some s /\ Student.study_goal s = Some goal
     /\ Student.to_dict s = Ret doc)
  /\ (exists info, fst (get_student_info w) = Ret (Some info))
  /\ (forall n name credits exam_type grade_str now,
        exists r, fst (add_module n name credits exam_type grade_str now w) = Ret r)
  /\ (exists total, fst (get_total_credits w) = Ret total)
  /\ (exists completed, fst (get_completed_credits w) = Ret completed).
Proof.
  intros Hr.
  assert (H : holds_student w).
  { induction Hr as [d w Hinit|w w' _ IH Hstep].
    - exact (init_holds_student d w Hinit).
    - exact (step_holds_student w w' IH Hstep). }
  destruct H as (s & goal & Hs & Hg).
  destruct w as [st res dk]. cbn [student] in Hs. subst st.
  destruct s as [sname mn [pname total sems] sg]. cbn [Student.study_goal] in Hg.
  subst sg.
  split; [eexists _, _, _; repeat split; reflexivity|].
  split; [eexists; reflexivity|].
  split; [intros; apply add_module_returns|].
  split; eexists; reflexivity.
Qed.

Lemma reachable_holds_student_witness :
  reachable sample_world
  /\ exists r,
       fst (add_module 3 "Algebra" 5 "written" "6.0" 1700000400 sample_world)
       = Ret r.
Proof.
  assert (Hr : reachable sample_world)
    by exact (reachable_init sample_disk sample_world eq_refl).
  split; [exact Hr|].
  apply (reachable_holds_student sample_world Hr).
Defined.

(** ** Progress *)





(** ** Reading documents *)

(** X21. What [from_dict] does with keys that may be left out: a semester
    without 'modules' has no modules, a program without 'semesters' has
    no semesters and a stored total of 0 whatever 'total_credits' says, a
    student without 'study_goal' gets the goal 0.0, and a module whose
    'grade' is left out, null or anything else that is not a dict has no
    grade. *)
Theorem from_dict_defaults :
  (forall items n,
      lookup "number" items = Some (JInt n) -> lookup "modules" items = None ->
      Semester.from_dict (JDict items) = Ret (Semester.Make n []))
  /\ (forall items name,
        lookup "name" items = Some (JStr name) ->
        lookup "semesters" items = None ->
        Study_program.from_dict (JDict items)
        = Ret (Study_program.Make name 0 []))
  /\ (forall items s,
        lookup "study_goal" items = None ->
        Student.from_dict (JDict items) = Ret s ->
        Student.study_goal s = Some (JFloat (of_int 0)))
  /\ (forall items m,
        (forall g, lookup "grade" items <> Some (JDict g)) ->
        Modul.from_dict (JDict items) = Ret m ->
        Modul.grade m = None).
Proof.
  split; [|split; [|split]].
  - intros items n H1 H2. unfold Semester.from_dict, getitem, get.
    rewrite H1, H2. reflexivity.
  - intros items name H1 H2. unfold Study_program.from_dict, getitem, get.
    rewrite H1, H2. cbn [bind as_str]. destruct (lookup "total_credits" items);
      reflexivity.
  - intros items s H. unfold Student.from_dict.
    destruct (v <- getitem (JDict items) "study_program" ;; Study_program.from_dict v);
      [|discriminate].
    cbn [bind].
    destruct (v <- getitem (JDict items) "name" ;; as_str v); [|discriminate].
    cbn [bind].
    destruct (v <- getitem (JDict items) "matriculation_number" ;; as_str v);
      [|discriminate].
    cbn [bind]. unfold get. rewrite H. cbn [bind].
    intros E. injection E as <-. reflexivity.
  - intros items m H. unfold Modul.from_dict.
    destruct (lookup "grade" items) as [[| | | | | |g]|] eqn:E;
      try (exfalso; exact (H g eq_refl)); cbn [bind];
      (destruct (v <- getitem (JDict items) "id" ;; as_str v); [|discriminate];
       cbn [bind];
       destruct (v <- getitem (JDict items) "name" ;; as_str v); [|discriminate];
       cbn [bind];
       destruct (v <- getitem (JDict items) "credits" ;; as_int v); [|discriminate];
       cbn [bind];
       destruct (v <- getitem (JDict items) "exam_type" ;; as_str v);
         [|discriminate];
       cbn [bind]; intros E'; injection E' as <-; reflexivity).
Qed.

Lemma from_dict_defaults_witness :
  Semester.from_dict (JDict [("number", JInt 3)]) = Ret (Semester.Make 3 [])
  /\ Study_program.from_dict
       (JDict [("name", JStr "Computer Science"); ("total_credits", JInt 180)])
     = Ret (Study_program.Make "Computer Science" 0 [])
  /\ exists m,
       Modul.from_dict
         (JDict [("id", JStr "module_Math_1"); ("name", JStr "Math");
                 ("credits", JInt 5); ("exam_type", JStr "written");
                 ("grade", JFloat (of_int 3))]) = Ret m
       /\ Modul.grade m = None.
Proof.
  destruct from_dict_defaults as (H1 & H2 & _ & H4).
  split; [apply H1; reflexivity|]. split; [apply H2; reflexivity|].
  eexists. split; [reflexivity|].
  apply (H4 [("id", JStr "module_Math_1"); ("name", JStr "Math");
             ("credits", JInt 5); ("exam_type", JStr "written");
             ("grade", JFloat (of_int 3))]).
  - intros g. discriminate.
  - reflexivity.
Defined.

(** X22. What [from_dict] does when a key it needs is missing: it raises
    KeyError with that key, for 'study_program' of a student, 'name' of a
    program, 'number' of a semester, 'id' of a module and 'grade' inside
    the grade dict of a module; a list of modules or semesters is refused
    as a whole when one of its entries is. *)
Theorem from_dict_missing_keys :
  (forall items, lookup "study_program" items = None ->
     Student.from_dict (JDict items) = Raise (KeyError "study_program"))
  /\ (forall items, lookup "name" items = None ->
        Study_program.from_dict (JDict items) = Raise (KeyError "name"))
  /\ (forall items, lookup "number" items = None ->
        Semester.from_dict (JDict items) = Raise (KeyError "number"))
  /\ (forall items, lookup "grade" items = None -> lookup "id" items = None ->
        Modul.from_dict (JDict items) = Raise (KeyError "id"))
  /\ (forall items g, lookup "grade" items = Some (JDict g) ->
        lookup "grade" g = None ->
        Modul.from_dict (JDict items) = Raise (KeyError "grade"))
  /\ (forall items n docs e,
        lookup "number" items = Some (JInt n) ->
        lookup "modules" items = Some (JList docs) ->
        traverse Modul.from_dict docs = Raise e ->
        Semester.from_dict (JDict items) = Raise e).
Proof.
  repeat split.
  - intros items H. unfold Student.from_dict, getitem. rewrite H. reflexivity.
  - intros items H. unfold Study_program.from_dict, getitem. rewrite H. reflexivity.
  - intros items H. unfold Semester.from_dict, getitem. rewrite H. reflexivity.
  - intros items H1 H2. unfold Modul.from_dict, getitem. rewrite H1, H2.
    reflexivity.
  - intros items g H1 H2. unfold Modul.from_dict, Grade.from_dict, getitem.
    rewrite H1, H2. reflexivity.
  - intros items n docs e H1 H2 H3. unfold Semester.from_dict, getitem, get.
    rewrite H1, H2. cbn [bind as_int as_list]. rewrite H3. reflexivity.
Qed.

Lemma from_dict_missing_keys_witness :
  Student.from_dict (JDict [("name", JStr "Ann")])
  = Raise (KeyError "study_program")
  /\ Semester.from_dict
       (JDict [("number", JInt 1);
               ("modules", JList [JDict [("name", JStr "Math")]])])
     = Raise (KeyError "id").
Proof.
  destruct from_dict_missing_keys as (H1 & _ & _ & _ & _ & H6).
  split; [apply H1; reflexivity|].
  apply (H6 _ 1 [JDict [("name", JStr "Math")]]); reflexivity.
Defined.

(** X23. What [to_dict] writes for a grade, a module and a semester,
    [from_dict] reads back unchanged: a missing grade goes out as null
    and comes back as no grade, and the modules of a semester keep their
    order. *)
Theorem module_documents_round_trip :
  (forall g, Grade.from_dict (Grade.to_dict g) = Ret g)
  /\ (forall m, Modul.from_dict (Modul.to_dict m) = Ret m)
  /\ (forall i n c e,
        getitem (Modul.to_dict (Modul.Make i n c e None)) "grade" = Ret JNull)
  /\ (forall s, Semester.from_dict (Semester.to_dict s) = Ret s).
Proof.
  split; [intros [g]; reflexivity|].
  split; [exact Modul_from_to_dict|].
  split; [|exact Semester_from_to_dict].
  intros i n c e. reflexivity.
Qed.

(** ** Deleting twice *)

Lemma NoDup_app_disjoint {A} (l1 l2 : list A) (x : A) :
  NoDup (l1 ++ l2) -> In x l1 -> ~ In x l2.
Proof.
  induction l1 as [|y l1 IH]; [intros _ []|].
  cbn [app]. intros H [<-|Hx] Hin.
  - inversion H as [|? ? Hy _]; subst. apply Hy, in_or_app. right. exact Hin.
  - inversion H; subst. exact (IH ltac:(assumption) Hx Hin).
Qed.

Lemma owning_semester_absent (module_id : string) (before todo : list Semester.t) :
  ~ In module_id (map Modul.id (flat_map Semester.modules todo)) ->
  owning_semester module_id before todo = None.
Proof.
  intros H.
  destruct (owning_semester module_id before todo) as [[[b semester] rest]|] eqn:E;
    [|reflexivity].
  exfalso. apply H.
  destruct (owning_semester_some _ _ _ _ _ _ E)
    as (passed & modul & _ & -> & _ & Hm & Hid).
  apply in_map_iff. exists modul. split; [exact Hid|].
  apply in_flat_map. exists semester. split; [|exact Hm].
  apply in_or_app. right. left. reflexivity.
Qed.

(** X24. Where module ids are distinct, a successful [delete_module] is final:
    afterwards no module carries the id, [find_module_by_id] finds
    nothing, and deleting the same id again returns False and changes
    nothing. *)
Theorem delete_module_is_final
    (w : World) (s : Student.t) (module_id : string) :
  student w = Some s ->
  Student.study_goal s <> None ->
  In module_id (module_ids (Student.study_program s)) ->
  NoDup (module_ids (Student.study_program s)) ->
  fst (delete_module module_id w) = Ret true
  /\ ~ In module_id (map Modul.id (modules_of (snd (delete_module module_id w))))
  /\ fst (find_module_by_id module_id (snd (delete_module module_id w)))
     = Ret None
  /\ delete_module module_id (snd (delete_module module_id w))
     = (Ret false, snd (delete_module module_id w)).
Proof.
  intros Hs Hgoal Hin Hids.
  destruct w as [st res dk]. cbn [student] in Hs. subst st.
  destruct s as [sname mn [pname total sems] [goal|]];
    [clear Hgoal|exfalso; apply Hgoal; reflexivity].
  unfold module_ids, all_modules in Hin, Hids.
  cbn [Student.study_program Study_program.semesters] in Hin, Hids.
  destruct (owning_semester module_id [] sems) as [[[before semester] rest]|] eqn:Eo;
    [|exfalso; exact (owning_semester_none _ _ _ Eo Hin)].
  rewrite (delete_module_found _ _ _ _ _ _ _ _ _ _ _ _ Eo).
  destruct (owning_semester_some _ _ _ _ _ _ Eo)
    as (passed & modul & -> & -> & Hpassed & Hm & Hid).
  cbn [app] in *. clear Eo.
  set (kept := filter (fun x => negb (has_id module_id x))
                 (Semester.modules semester)).
  cbn [Semester.modules].
  set (sems' := match kept with
                | [] => _
                | _ :: _ => _
                end).
  assert (Hgone : ~ In module_id (map Modul.id (flat_map Semester.modules sems'))).
  { assert (Hrest : forall x m, In x rest -> In m (Semester.modules x) ->
                                Modul.id m <> module_id).
    { intros x m Hx Hmx E. rewrite flat_map_app, map_app in Hids.
      apply NoDup_app_remove_l in Hids. cbn [flat_map] in Hids.
      rewrite map_app in Hids.
      apply (NoDup_app_disjoint _ _ module_id Hids).
      - apply in_map_iff. exists modul. split; assumption.
      - apply in_map_iff. exists m. split; [exact E|].
        apply in_flat_map. exists x. split; assumption. }
    assert (Hlist : forall l, (forall x, In x l ->
                                 In x passed \/ In x rest
                                 \/ Semester.modules x = kept) ->
                              ~ In module_id (map Modul.id (flat_map Semester.modules l))).
    { intros l Hl Hbad. apply in_map_iff in Hbad as (m & E & Hbad).
      apply in_flat_map in Hbad as (x & Hx & Hmx).
      destruct (Hl x Hx) as [Hp|[Hr|Hk]].
      - pose proof (Hpassed x m Hp Hmx) as Hf. apply has_id_true in E. congruence.
      - exact (Hrest x m Hr Hmx E).
      - rewrite Hk in Hmx. apply filter_In in Hmx as [_ Hf].
        apply has_id_true in E. rewrite E in Hf. discriminate. }
    apply Hlist. intros x Hx. subst sems'. destruct kept as [|y kept'] eqn:Ek.
    - apply filter_In in Hx as [Hx _]. apply filter_In in Hx as [Hx _].
      apply in_app_or in Hx as [Hx|[<-|Hx]]; [now left| |now right; left].
      right. right. reflexivity.
    - apply in_app_or in Hx as [Hx|[<-|Hx]]; [now left| |now right; left].
      right. right. reflexivity. }
  cbn [fst snd]. split; [reflexivity|]. split; [exact Hgone|].
  unfold find_module_by_id, delete_module, bindM, the_student, ret.
  cbn [student Student.study_program Study_program.semesters fst].
  rewrite (owning_semester_absent _ _ _ Hgone). split; [|reflexivity].
  destruct (find_in_semesters module_id sems') as [[m n]|] eqn:Ef; [|reflexivity].
  exfalso. apply Hgone. clear - Ef.
  induction sems' as [|x l IH]; [discriminate|].
  cbn [find_in_semesters] in Ef. cbn [flat_map]. rewrite map_app.
  apply in_or_app.
  destruct (find (has_id module_id) (Semester.modules x)) as [m'|] eqn:E.
  - left. apply find_some in E as [Hm' Hid']. apply has_id_true in Hid'.
    apply in_map_iff. exists m'. split; assumption.
  - right. exact (IH Ef).
Qed.

Lemma delete_module_is_final_witness :
  student sample_world = Some sample_student
  /\ Student.study_goal sample_student <> None
  /\ In "module_Ethics_1700000200" (module_ids sample_program)
  /\ NoDup (module_ids sample_program)
  /\ delete_module "module_Ethics_1700000200"
       (snd (delete_module "module_Ethics_1700000200" sample_world))
     = (Ret false, snd (delete_module "module_Ethics_1700000200" sample_world)).
Proof.
  assert (Hids : NoDup (module_ids sample_program)).
  { unfold module_ids, all_modules. cbn.
    repeat (constructor; [cbn; intuition discriminate|]). constructor. }
  assert (Hin : In "module_Ethics_1700000200" (module_ids sample_program))
    by (cbn; tauto).
  split; [reflexivity|]. split; [discriminate|]. split; [exact Hin|].
  split; [exact Hids|].
  apply (delete_module_is_final sample_world sample_student
           "module_Ethics_1700000200" eq_refl); [discriminate|exact Hin|exact Hids].
Defined.

(** ** The colour of a module row *)

Lemma eq_num_five (q : Q) : eq_num (Fin q) (of_int 5) = true <-> (q == 5)%Q.
Proof. cbn. apply Qeq_bool_iff. Qed.

(** X25. The row of a module is tagged 'passed' exactly when its status is
    'passed' or 'accepted', and 'failed' exactly for a numeric grade equal
    to 5.0; a numeric grade above 4.0 other than 5.0 is tagged 'no_grade',
    as a module without a grade is. *)
Theorem module_tag_by_grade (m : Modul.t) :
  (GUI.module_tag m = "passed" <-> is_completed m = true)
  /\ (forall q, numeric_value m = Some (Fin q) ->
        (GUI.module_tag m = "failed" <-> (q == 5)%Q))
  /\ (forall q, numeric_value m = Some (Fin q) -> (4 < q)%Q -> ~ (q == 5)%Q ->
        GUI.module_tag m = "no_grade")
  /\ (Modul.grade m = None -> GUI.module_tag m = "no_grade")
  /\ (GUI.module_tag m = "failed" -> Modul.status m = "none").
Proof.
  unfold GUI.module_tag, is_completed, numeric_value, Modul.status.
  destruct (Modul.grade m) as [[v]|]; cbn [Grade.grade].
  2: { repeat split; try discriminate; intros; reflexivity. }
  destruct (Modul.is_accepted v) eqn:Ea.
  { rewrite (accepted_not_numeric v Ea). unfold Modul.is_passing.
    rewrite (accepted_not_numeric v Ea). cbn.
    repeat split; try discriminate; intros; reflexivity. }
  unfold Modul.is_passing. destruct (as_number v) as [x|] eqn:En.
  2: { cbn. repeat split; try discriminate; intros; reflexivity. }
  destruct (le x (of_int 4)) eqn:El; cbn [orb String.eqb Ascii.eqb Bool.eqb].
  - split; [split; reflexivity|]. split.
    + intros q Hq. injection Hq as ->. split; [discriminate|].
      intros H5. exfalso. apply le_fin in El. rewrite H5 in El.
      unfold Qle in El. cbn in El. lia.
    + split; [|split; [discriminate|discriminate]].
      intros q Hq H4. injection Hq as ->. exfalso.
      assert (E : le (Fin q) (of_int 4) = false)
        by (apply le_fin_false; exact H4).
      congruence.
  - split; [split; [destruct (eq_num x (of_int 5)); discriminate|discriminate]|].
    split.
    + intros q Hq. injection Hq as ->.
      destruct (eq_num (Fin q) (of_int 5)) eqn:E5.
      * split; [intros _; apply eq_num_five; exact E5|reflexivity].
      * split; [discriminate|]. intros H5. apply eq_num_five in H5. congruence.
    + split; [|split; [discriminate|reflexivity]].
      intros q Hq _ H5. injection Hq as ->.
      destruct (eq_num (Fin q) (of_int 5)) eqn:E5; [|reflexivity].
      exfalso. apply H5, eq_num_five, E5.
Qed.

Lemma module_tag_by_grade_witness :
  GUI.module_tag (Modul.Make "m" "n" 5 "oral"
                    (Some (Grade.Make (JFloat (Fin (9 # 2)))))) = "no_grade"
  /\ GUI.module_tag (Modul.Make "m" "n" 5 "oral"
                       (Some (Grade.Make (JFloat (Fin 5))))) = "failed".
Proof.
  split.
  - destruct (module_tag_by_grade
                (Modul.Make "m" "n" 5 "oral"
                   (Some (Grade.Make (JFloat (Fin (9 # 2)))))))
      as (_ & _ & H & _).
    apply (H (9 # 2)); [reflexivity| |].
    + unfold Qlt. cbn. lia.
    + unfold Qeq. cbn. lia.
  - destruct (module_tag_by_grade
                (Modul.Make "m" "n" 5 "oral" (Some (Grade.Make (JFloat (Fin 5))))))
      as (_ & H & _).
    apply (H 5%Q); reflexivity.
Defined.

(** ** Grade input, once more *)

Lemma isspace_starts_no_float (c : ascii) :
  isspace c = true ->
  digit_of c = None
  /\ Ascii.eqb c "-" = false /\ Ascii.eqb c "+" = false
  /\ Ascii.eqb c "." = false
  /\ Ascii.eqb (lower_char c) "i" = false
  /\ Ascii.eqb (lower_char c) "n" = false.
Proof.
  destruct c as [[] [] [] [] [] [] [] []]; vm_compute; intros H;
    try discriminate H; repeat split.
Qed.

Lemma lstrip_chars_all_space (l : list ascii) :
  Forall (fun c => isspace c = true) (lstrip_chars l) ->
  Forall (fun c => isspace c = true) l.
Proof.
  induction l as [|c l IH]; cbn [lstrip_chars]; [intros H; exact H|].
  destruct (isspace c) eqn:E; [|intros H; exact H].
  intros H. constructor; [exact E|exact (IH H)].
Qed.

Lemma strip_chars_nil_all_space (l : list ascii) :
  strip_chars l = [] -> Forall (fun c => isspace c = true) l.
Proof.
  unfold strip_chars. intros H.
  apply lstrip_chars_all_space.
  rewrite <- (rev_involutive (lstrip_chars l)). apply Forall_rev.
  apply lstrip_chars_all_space.
  destruct (lstrip_chars (rev (lstrip_chars l))) as [|c r]; [constructor|].
  apply (f_equal (@length ascii)) in H. rewrite length_rev in H. discriminate H.
Qed.

Lemma lstrip_float_keeps (P : ascii -> Prop) (l : list ascii) :
  Forall P l -> Forall P (lstrip_float l).
Proof.
  induction 1 as [|c l Hc Hl IH]; cbn [lstrip_float]; [constructor|].
  destruct (float_space c); [exact IH|constructor; assumption].
Qed.

Lemma strip_float_keeps (P : ascii -> Prop) (l : list ascii) :
  Forall P l -> Forall P (strip_float l).
Proof.
  intros H. unfold strip_float.
  apply Forall_rev, lstrip_float_keeps, Forall_rev, lstrip_float_keeps, H.
Qed.

Lemma all_space_no_float (l : list ascii) :
  Forall (fun c => isspace c = true) l -> float_chars l = None.
Proof.
  intros H. apply strip_float_keeps in H. unfold float_chars.
  destruct (strip_float l) as [|c r]; [reflexivity|].
  inversion H as [|? ? Hc _]; subst.
  destruct (isspace_starts_no_float c Hc) as (Hd & Hm & Hp & Hdot & Hi & Hn).
  unfold sign_part. rewrite Hm, Hp.
  cbn [map string_of_list_ascii String.eqb]. rewrite Hi, Hn.
  cbn [andb orb].
  unfold number_part, digitpart. rewrite Hd, Hdot. reflexivity.
Qed.

Lemma strip_blank_float (s : string) :
  strip s = "" -> Py.float s = Raise (ValueError ("could not convert string to float: '" ++ s ++ "'")).
Proof.
  unfold strip, Py.float. intros H.
  assert (E : strip_chars (list_ascii_of_string s) = []).
  { rewrite <- (list_ascii_of_string_of_list_ascii
                  (strip_chars (list_ascii_of_string s))), H. reflexivity. }
  rewrite (all_space_no_float _ (strip_chars_nil_all_space _ E)). reflexivity.
Qed.

(** X26. What [add_module] stores as a grade is nothing, or the string 'a', or
    a float between 1.0 and 5.0; the empty input alone gives no grade. *)
Theorem add_module_grade_domain (grade_str : string) (g : option Grade.t) :
  grade_of_input grade_str = Ret g ->
  (g = None <-> grade_str = "")
  /\ (forall v, g = Some v ->
        Grade.grade v = JStr "a"
        \/ exists x, Grade.grade v = JFloat x
                     /\ le (of_int 1) x = true /\ le x (of_int 5) = true).
Proof.
  unfold grade_of_input.
  destruct (String.eqb_spec grade_str "") as [->|Hne].
  - intros H. injection H as <-. split; [split; reflexivity|discriminate].
  - destruct (String.eqb (lower (strip grade_str)) "a"); cbn [bind].
    + cbn. intros H. injection H as <-. split; [split; [discriminate|contradiction]|].
      intros v Hv. injection Hv as <-. left. reflexivity.
    + destruct (Py.float grade_str) as [x|e]; cbn [bind]; [|discriminate].
      destruct (le (of_int 1) x && le x (of_int 5)) eqn:E; cbn [negb];
        [|discriminate].
      intros H. injection H as <-. split; [split; [discriminate|contradiction]|].
      intros v Hv. injection Hv as <-. right. exists x.
      apply andb_true_iff in E. tauto.
Qed.

Lemma add_module_grade_domain_witness :
  grade_of_input " A " = Ret (Some (Grade.Make (JStr "a")))
  /\ (Grade.grade (Grade.Make (JStr "a")) = JStr "a"
      \/ exists x, Grade.grade (Grade.Make (JStr "a")) = JFloat x
                   /\ le (of_int 1) x = true /\ le x (of_int 5) = true).
Proof.
  split; [reflexivity|].
  apply (proj2 (add_module_grade_domain " A " _ eq_refl)). reflexivity.
Defined.

(** X27. Every grade input that [add_module] accepts, [edit_grade] reads as
    the same grade. *)
Theorem edit_reads_what_add_accepts (grade_str : string) (g : option Grade.t) :
  grade_of_input grade_str = Ret g ->
  new_grade_of_input grade_str = Ret g.
Proof.
  unfold grade_of_input, new_grade_of_input.
  destruct (String.eqb_spec grade_str "") as [->|Hne]; [intros H; exact H|].
  destruct (String.eqb_spec (strip grade_str) "") as [Hblank|Hnb].
  - rewrite Hblank. cbn [lower list_ascii_of_string map string_of_list_ascii
                          String.eqb].
    rewrite (strip_blank_float _ Hblank). discriminate.
  - destruct (String.eqb (lower (strip grade_str)) "a"); cbn [bind].
    + cbn. intros H. exact H.
    + destruct (Py.float grade_str) as [x|e]; cbn [bind]; [|discriminate].
      destruct (negb (le (of_int 1) x && le x (of_int 5))); [discriminate|].
      intros H. exact H.
Qed.

Lemma edit_reads_what_add_accepts_witness :
  grade_of_input "1.3" = Ret (Some (Grade.Make (JFloat (Fin (13 # 10)))))
  /\ new_grade_of_input "1.3" = Ret (Some (Grade.Make (JFloat (Fin (13 # 10))))).
Proof.
  split; [reflexivity|].
  apply (edit_reads_what_add_accepts "1.3" _ eq_refl).
Defined.

Lemma assign_grade_credits (module_id : string) (g : option Grade.t)
    (l : list Semester.t) :
  flat_map (fun semester => map Modul.credits (Semester.modules semester))
    (assign_grade module_id g l)
  = flat_map (fun semester => map Modul.credits (Semester.modules semester)) l.
Proof.
  induction l as [|x l IH]; [reflexivity|].
  cbn [assign_grade].
  destruct (existsb (has_id module_id) (Semester.modules x));
    cbn [flat_map Semester.modules]; [|rewrite IH; reflexivity].
  f_equal. induction (Semester.modules x) as [|m ms IHm]; [reflexivity|].
  cbn [update_first]. destruct (has_id module_id m); cbn [map];
    [reflexivity|rewrite IHm; reflexivity].
Qed.

(** X28. [edit_grade] never changes the registered credits, whatever it
    returns. *)
Theorem edit_grade_keeps_total_credits
    (w : World) (module_id new_grade_str : string) :
  fst (get_total_credits (snd (edit_grade module_id new_grade_str w)))
  = fst (get_total_credits w).
Proof.
  destruct w as [[s|] res dk]; [|reflexivity].
  destruct s as [sname mn [pname total sems] goal].
  destruct (edit_grade_world sname mn pname total sems goal res dk
              module_id new_grade_str) as (r & dk' & ->).
  unfold get_total_credits, bindM, the_student, ret,
    Study_program.get_total_credits.
  cbn [fst snd student Student.study_program Study_program.semesters].
  destruct (find_in_semesters module_id sems); [|reflexivity].
  destruct (new_grade_of_input new_grade_str); [|reflexivity].
  rewrite assign_grade_credits. reflexivity.
Qed.
